(** * SRUM analyzer of Anubis-Forensics-GUI (src/pages/analysis_page.py)

    Shallow embedding of [SrumAnalyzer]: the Binary Cell Decoder
    ([_smart_retrieve]), the Blob/Text Normalizer ([_blob_to_string]), the
    binary SID decoder, the ID-map resolver, the schema template loaders,
    the table processor and [analyze].  Python strings are lists of code
    points, [bytes] are lists of byte values, exceptions are an explicit
    result type, and the pyesedb/openpyxl handles are records holding the
    data the code reads from them. *)

From Stdlib Require Import ZArith List String Ascii Bool Lia QArith Qpower Qabs Lqa.
Import ListNotations.
Open Scope Z_scope.

(** ** Python strings, bytes and exceptions *)

Definition pystr := list Z.
Definition bytes := list Z.

(** A Rocq string literal as a Python [str] (ASCII code points). *)
Definition lit (s : string) : pystr :=
  map (fun c => Z.of_nat (nat_of_ascii c)) (list_ascii_of_string s).

Definition pystr_eqb (s t : pystr) : bool :=
  if list_eq_dec Z.eq_dec s t then true else false.

Inductive exn_kind :=
| ValueError | StructError | TypeError | KeyError | AttributeError
| IndexError | UnicodeDecodeError | OSError | OverflowError.

(** An exception: its class and [str(e)]. *)
Record exn := Exn { exn_type : exn_kind; exn_msg : pystr }.

Inductive res (A : Type) :=
| Ok (a : A)
| Raise (e : exn).
Arguments Ok {A} a.
Arguments Raise {A} e.

Definition bind {A B} (m : res A) (k : A -> res B) : res B :=
  match m with Ok a => k a | Raise e => Raise e end.

Notation "'let*' x ':=' m 'in' k" := (bind m (fun x => k))
  (at level 200, x name, m at level 100, k at level 200).

(** ** Decimal and hexadecimal text *)

Fixpoint dec_digits (fuel : nat) (n : Z) (acc : pystr) : pystr :=
  match fuel with
  | O => acc
  | S f =>
      let acc' := (48 + n mod 10) :: acc in
      if n <? 10 then acc' else dec_digits f (n / 10) acc'
  end.

(** [str(z)] for a Python [int]. *)
Definition dec_str (z : Z) : pystr :=
  if z <? 0 then 45 :: dec_digits (Z.to_nat (Z.log2 (- z)) + 1) (- z) []
  else dec_digits (Z.to_nat (Z.log2 z) + 1) z [].

Definition hex_digit (d : Z) : Z := if d <? 10 then 48 + d else 87 + d.

(** [codecs.encode(b, "hex").decode()]: lowercase, two digits per byte. *)
Definition hex_encode (b : bytes) : pystr :=
  flat_map (fun x => [hex_digit (x / 16); hex_digit (x mod 16)]) b.

Definition hex_value (c : Z) : option Z :=
  if (48 <=? c) && (c <=? 57) then Some (c - 48)
  else if (97 <=? c) && (c <=? 102) then Some (c - 87)
  else if (65 <=? c) && (c <=? 70) then Some (c - 55)
  else None.

(** [codecs.decode(s, "hex")] on a [str] ([binascii.a2b_hex]); its
    [binascii.Error] is a [ValueError]. *)
Fixpoint hex_decode (s : pystr) : res bytes :=
  match s with
  | [] => Ok []
  | [_] => Raise (Exn ValueError (lit "Odd-length string"))
  | a :: b :: r =>
      match hex_value a, hex_value b with
      | Some x, Some y => let* t := hex_decode r in Ok ((16 * x + y) :: t)
      | _, _ => Raise (Exn ValueError (lit "Non-hexadecimal digit found"))
      end
  end.

(** ** Python values returned by the decoders and read from cells *)

Inductive pyfloat :=
| FFinite (neg : bool) (mant : Z) (exp2 : Z)   (* (-1)^neg * mant * 2^exp2 *)
| FInf (neg : bool)
| FNaN.

Record datetime := DT {
  dt_year : Z; dt_month : Z; dt_day : Z;
  dt_hour : Z; dt_minute : Z; dt_second : Z; dt_microsecond : Z }.

Inductive pyval :=
| PNone
| PBool (b : bool)
| PInt (z : Z)
| PFloat (f : pyfloat)
| PStr (s : pystr)
| PDatetime (d : datetime).

(** IEEE-754 binary64 / binary32 bit patterns as Python floats. *)
Definition float_of_bits64 (b : Z) : pyfloat :=
  let s := Z.testbit b 63 in
  let e := Z.land (Z.shiftr b 52) 2047 in
  let m := Z.land b (2 ^ 52 - 1) in
  if e =? 2047 then (if m =? 0 then FInf s else FNaN)
  else if e =? 0 then FFinite s m (-1074)
  else FFinite s (m + 2 ^ 52) (e - 1075).

Definition float_of_bits32 (b : Z) : pyfloat :=
  let s := Z.testbit b 31 in
  let e := Z.land (Z.shiftr b 23) 255 in
  let m := Z.land b (2 ^ 23 - 1) in
  if e =? 255 then (if m =? 0 then FInf s else FNaN)
  else if e =? 0 then FFinite s m (-149)
  else FFinite s (m + 2 ^ 23) (e - 150).

(** Numeric value used by Python's [==] across [bool], [int], [float]. *)
Inductive numval := NQ (q : Q) | NInf (neg : bool) | NNaN.

Definition num_of (v : pyval) : option numval :=
  match v with
  | PBool b => Some (NQ (if b then 1 else 0)%Q)
  | PInt z => Some (NQ (inject_Z z))
  | PFloat (FFinite n m e) =>
      Some (NQ (inject_Z (if n then - m else m) * Qpower (2 # 1) e)%Q)
  | PFloat (FInf n) => Some (NInf n)
  | PFloat FNaN => Some NNaN
  | _ => None
  end.

Definition numval_eqb (x y : numval) : bool :=
  match x, y with
  | NQ a, NQ b => Qeq_bool a b
  | NInf a, NInf b => Bool.eqb a b
  | _, _ => false
  end.

Definition dt_eqb (d e : datetime) : bool :=
  (dt_year d =? dt_year e) && (dt_month d =? dt_month e) && (dt_day d =? dt_day e)
  && (dt_hour d =? dt_hour e) && (dt_minute d =? dt_minute e)
  && (dt_second d =? dt_second e) && (dt_microsecond d =? dt_microsecond e).

(** Python [==] on these values (dict keys, [val == "Error"], [id_type == 3]). *)
Definition py_eq (a b : pyval) : bool :=
  match num_of a, num_of b with
  | Some x, Some y => numval_eqb x y
  | _, _ =>
      match a, b with
      | PNone, PNone => true
      | PStr s, PStr t => pystr_eqb s t
      | PDatetime d, PDatetime e => dt_eqb d e
      | _, _ => false
      end
  end.

(** Python truth value ([if not x]). *)
Definition py_truthy (v : pyval) : bool :=
  match v with
  | PNone => false
  | PBool b => b
  | PInt z => negb (z =? 0)
  | PFloat (FFinite _ m _) => negb (m =? 0)
  | PFloat _ => true
  | PStr s => match s with [] => false | _ => true end
  | PDatetime _ => true
  end.

(** ** Python dicts: insertion-ordered, [d[k] = v] keeps the stored key *)

Definition dict (K V : Type) := list (K * V).

Section Dict.
Context {K V : Type} (keq : K -> K -> bool).

Fixpoint dict_get (k : K) (d : dict K V) : option V :=
  match d with
  | [] => None
  | (k', v) :: d' => if keq k' k then Some v else dict_get k d'
  end.

Fixpoint dict_set (k : K) (v : V) (d : dict K V) : dict K V :=
  match d with
  | [] => [(k, v)]
  | (k', v') :: d' => if keq k' k then (k', v) :: d' else (k', v') :: dict_set k v d'
  end.

(** [d.update(e)] *)
Definition dict_update (d e : dict K V) : dict K V :=
  fold_left (fun acc kv => dict_set (fst kv) (snd kv) acc) e d.
End Dict.

(** ** The state of a [SrumAnalyzer] object *)

(** openpyxl cell style name. *)
Definition style := pystr.

(** [self.template_tables]: ESE table name -> (sheet name, field map);
    field map: column name -> (style, format directive, display label). *)
Definition template_tables_t := dict pyval (pystr * dict pyval (style * pyval * pyval)).
(** [self.template_lookups]: lookup name -> (key -> value). *)
Definition template_lookups_t := dict pystr (dict pyval pyval).

Record analyzer := Analyzer {
  template_tables : template_tables_t;
  template_lookups : template_lookups_t;
  id_table : dict pyval pyval;
  interface_table : dict pystr pystr;
  regsids : dict pyval pyval;
  has_reg_hive : bool }.

(** ** Collaborators the claims do not depend on

    These are the parts of the program that are float printing, Unicode
    case mapping or third-party parsing.  [float_repr] is CPython's [repr]
    ([py_float_repr] below computes it; the results about [_ole_timestamp]
    hold for any [float_repr]); [_load_registry_sids], [_load_interfaces]
    and the directive dispatch of [_format_output_for_gui] catch
    [Exception], so they are total. *)
Class Externals := {
  (** [repr] of a Python float *)
  float_repr : pyfloat -> pystr;
  (** [str.lower] *)
  str_lower : pystr -> pystr;
  (** registry hives and the two best-effort registry loaders *)
  hive : Type;
  load_registry_sids : hive -> dict pyval pyval;
  load_interfaces : hive -> dict pystr pystr;
  (** the [try:] body of [_format_output_for_gui] (directive dispatch);
      on an exception [val] keeps its value *)
  apply_directive : analyzer -> pyval -> pystr -> pyval }.

Section Python.
Context `{EX : Externals}.

Definition pad (n : nat) (z : Z) : pystr :=
  let d := dec_str z in List.repeat 48 (n - List.length d)%nat ++ d.

(** [str(datetime)] *)
Definition datetime_str (d : datetime) : pystr :=
  pad 4 (dt_year d) ++ [45] ++ pad 2 (dt_month d) ++ [45] ++ pad 2 (dt_day d)
  ++ [32] ++ pad 2 (dt_hour d) ++ [58] ++ pad 2 (dt_minute d) ++ [58]
  ++ pad 2 (dt_second d)
  ++ (if dt_microsecond d =? 0 then [] else 46 :: pad 6 (dt_microsecond d)).

(** [str(v)] *)
Definition py_str (v : pyval) : pystr :=
  match v with
  | PNone => lit "None"
  | PBool b => if b then lit "True" else lit "False"
  | PInt z => dec_str z
  | PFloat f => float_repr f
  | PStr s => s
  | PDatetime d => datetime_str d
  end.
End Python.

(** ** Blob/Text Normalizer ([_blob_to_string]) *)

(** The tail [\x00\x00$] of both patterns: [$] also matches before a
    final newline. *)
Definition ends_nulls (r : bytes) : bool :=
  pystr_eqb r [0; 0] || pystr_eqb r [0; 0; 10].

(** [re.match(b'^(?:[^\x00]\x00)+\x00\x00$', b)] *)
Fixpoint match_utf16le (b : bytes) : bool :=
  match b with
  | x :: y :: r => negb (x =? 0) && (y =? 0) && (ends_nulls r || match_utf16le r)
  | _ => false
  end.

(** [re.match(b'^(?:\x00[^\x00])+\x00\x00$', b)] *)
Fixpoint match_utf16be (b : bytes) : bool :=
  match b with
  | x :: y :: r => (x =? 0) && negb (y =? 0) && (ends_nulls r || match_utf16be r)
  | _ => false
  end.

Fixpoint utf16_units (le : bool) (b : bytes) : option (list Z) :=
  match b with
  | [] => Some []
  | x :: y :: r =>
      option_map (cons (if le then y * 256 + x else x * 256 + y)) (utf16_units le r)
  | [_] => None
  end.

Definition is_high (u : Z) : bool := (55296 <=? u) && (u <? 56320).
Definition is_low (u : Z) : bool := (56320 <=? u) && (u <? 57344).

Fixpoint utf16_combine (us : list Z) : option pystr :=
  match us with
  | [] => Some []
  | u :: r =>
      if is_high u then
        match r with
        | u2 :: r' =>
            if is_low u2
            then option_map (cons (65536 + (u - 55296) * 1024 + (u2 - 56320)))
                   (utf16_combine r')
            else None
        | [] => None
        end
      else if is_low u then None
      else option_map (cons u) (utf16_combine r)
  end.

(** [b.decode("utf-16-le")] / [b.decode("utf-16-be")] *)
Definition utf16_decode (le : bool) (b : bytes) : res pystr :=
  match utf16_units le b with
  | Some us =>
      match utf16_combine us with
      | Some s => Ok s
      | None => Raise (Exn UnicodeDecodeError (lit "illegal UTF-16 surrogate"))
      end
  | None => Raise (Exn UnicodeDecodeError (lit "truncated data"))
  end.

Fixpoint lstrip0 (s : pystr) : pystr :=
  match s with
  | x :: r => if x =? 0 then lstrip0 r else s
  | [] => []
  end.

(** [s.strip("\x00")] *)
Definition strip0 (s : pystr) : pystr := rev (lstrip0 (rev (lstrip0 s))).

(** The three decoding branches on a byte string ([latin1] is the identity
    on code points). *)
Definition decode_chrblob (chrblob : bytes) : res pystr :=
  if match_utf16le chrblob then let* s := utf16_decode true chrblob in Ok (strip0 s)
  else if match_utf16be chrblob then let* s := utf16_decode false chrblob in Ok (strip0 s)
  else Ok (strip0 chrblob).

(** The argument of [_blob_to_string]: raw [bytes] or another value. *)
Inductive blob_arg := BBytes (b : bytes) | BVal (v : pyval).

Section Blob.
Context `{EX : Externals}.

Definition _blob_to_string (blob : blob_arg) : pystr :=
  match blob with
  | BBytes b =>
      match decode_chrblob b with Ok s => s | Raise _ => hex_encode b end
  | BVal (PStr s) =>
      match hex_decode s with
      | Ok b => match decode_chrblob b with Ok r => r | Raise _ => s end
      | Raise _ => s
      end
  | BVal v => py_str v   (* re.match on a non-bytes value: TypeError *)
  end.
End Blob.

(** [s.encode("utf-16-le")] *)
Definition encode_utf16le (s : pystr) : bytes :=
  flat_map (fun c =>
    if c <? 65536 then [c mod 256; c / 256]
    else let c' := c - 65536 in
         let hi := 55296 + c' / 1024 in let lo := 56320 + c' mod 1024 in
         [hi mod 256; hi / 256; lo mod 256; lo / 256]) s.

(** ** [struct.unpack] of one item (native formats on a little-endian host) *)

Definition le_value (d : bytes) : Z := fold_right (fun b acc => b + 256 * acc) 0 d.
Definition be_value (d : bytes) : Z := fold_left (fun acc b => acc * 256 + b) d 0.

Definition struct_error (n : nat) : exn :=
  Exn StructError (lit "unpack requires a buffer of " ++ dec_str (Z.of_nat n) ++ lit " bytes").

Definition unpack_le (n : nat) (d : bytes) : res Z :=
  if Nat.eqb (List.length d) n then Ok (le_value d) else Raise (struct_error n).

Definition unpack_le_signed (n : nat) (d : bytes) : res Z :=
  let* v := unpack_le n d in
  Ok (if v >=? 2 ^ (8 * Z.of_nat n - 1) then v - 2 ^ (8 * Z.of_nat n) else v).

Definition unpack_be (n : nat) (d : bytes) : res Z :=
  if Nat.eqb (List.length d) n then Ok (be_value d) else Raise (struct_error n).

(** Python slice [l[a:b]] with non-negative bounds. *)
Definition slice {A} (l : list A) (a b : nat) : list A := firstn (b - a) (skipn a l).

(** [l[i]] on [bytes] *)
Definition index (l : bytes) (i : nat) : res Z :=
  match nth_error l i with
  | Some x => Ok x
  | None => Raise (Exn IndexError (lit "index out of range"))
  end.

(** [str(uuid.UUID(bytes=d))] *)
Definition uuid_str (d : bytes) : res pystr :=
  if Nat.eqb (List.length d) 16 then
    Ok (hex_encode (slice d 0 4) ++ [45] ++ hex_encode (slice d 4 6) ++ [45]
        ++ hex_encode (slice d 6 8) ++ [45] ++ hex_encode (slice d 8 10) ++ [45]
        ++ hex_encode (slice d 10 16))
  else Raise (Exn ValueError (lit "bytes is not a 16-char string")).

(** [s.split(sep)] *)
Fixpoint split_on (sep : Z) (s : pystr) : list pystr :=
  match s with
  | [] => [[]]
  | c :: r =>
      if c =? sep then [] :: split_on sep r
      else match split_on sep r with
           | w :: ws => (c :: w) :: ws
           | [] => [[c]]
           end
  end.

(** ** Python floats: binary64 rounding, [float(s)], [int(s)] and [repr] *)

(** [a / b] rounded to the nearest integer, ties to even ([a >= 0], [b > 0]). *)
Definition round_div_ne (a b : Z) : Z :=
  let q := a / b in
  let r := a mod b in
  if 2 * r <? b then q
  else if b <? 2 * r then q + 1
  else if Z.even q then q else q + 1.

(** [floor(log2(num / den))] for [num, den > 0]. *)
Definition qlog2 (num den : Z) : Z :=
  let g := Z.log2 num - Z.log2 den in
  if (if 0 <=? g then den * 2 ^ g <=? num else den <=? num * 2 ^ (- g)) then g else g - 1.

(** The binary64 float nearest to [(-1)^neg * num / den] ([num >= 0],
    [den > 0]), ties to even, [inf] beyond the largest finite float: a
    53-bit significand [m] and an exponent [e >= -1074] (subnormals). *)
Definition binary64_round (neg : bool) (num den : Z) : pyfloat :=
  if num =? 0 then FFinite neg 0 (-1074)
  else
    let e := Z.max (qlog2 num den - 52) (-1074) in
    let m := round_div_ne (num * 2 ^ (- Z.min e 0)) (den * 2 ^ Z.max e 0) in
    let me := if m =? 2 ^ 53 then (2 ^ 52, e + 1) else (m, e) in
    if 971 <? snd me then FInf neg else FFinite neg (fst me) (snd me).

(** [float(k)] for an [int] [k] *)
Definition float_of_int (k : Z) : pyfloat := binary64_round (k <? 0) (Z.abs k) 1.

Definition float_is_zero (x : pyfloat) : bool :=
  match x with FFinite _ m _ => m =? 0 | _ => false end.

(** IEEE-754 [x * y] *)
Definition float_mul (x y : pyfloat) : pyfloat :=
  match x, y with
  | FNaN, _ | _, FNaN => FNaN
  | FInf a, FInf b => FInf (xorb a b)
  | FInf a, FFinite b m _ | FFinite b m _, FInf a => if m =? 0 then FNaN else FInf (xorb a b)
  | FFinite a m e, FFinite b n f =>
      binary64_round (xorb a b) (m * n * 2 ^ Z.max (e + f) 0) (2 ^ Z.max (- (e + f)) 0)
  end.

(** C's [modf(x, &intpart)] followed by [PyLong_FromDouble(intpart)]: the
    integral part as an [int] and the fractional part, of the sign of [x]. *)
Definition float_modf (x : pyfloat) : res (Z * pyfloat) :=
  match x with
  | FFinite neg m e =>
      if 0 <=? e then Ok ((if neg then - m else m) * 2 ^ e, FFinite neg 0 (-1074))
      else Ok ((if neg then - (m / 2 ^ (- e)) else m / 2 ^ (- e)),
               FFinite neg (m mod 2 ^ (- e)) e)
  | FInf _ => Raise (Exn OverflowError (lit "cannot convert float infinity to integer"))
  | FNaN => Raise (Exn ValueError (lit "cannot convert float NaN to integer"))
  end.

(** A finite float as a fraction [n / d], [d > 0]. *)
Definition float_frac (x : pyfloat) : Z * Z :=
  match x with
  | FFinite neg m e => ((if neg then - m else m) * 2 ^ Z.max e 0, 2 ^ Z.max (- e) 0)
  | _ => (0, 1)
  end.

(** The value of a finite float, as a rational. *)
Definition fval (x : pyfloat) : Q :=
  (inject_Z (fst (float_frac x)) / inject_Z (snd (float_frac x)))%Q.

Definition is_digit (c : Z) : bool := (48 <=? c) && (c <=? 57).

(** The code points with Unicode decimal value 0 (Unicode 14.0, the
    database of Python 3.11); each starts a run of the digits 0 to 9. *)
Definition unicode_digit_zeros : list Z :=
  [48; 1632; 1776; 1984; 2406; 2534; 2662; 2790; 2918; 3046; 3174; 3302; 3430;
   3558; 3664; 3792; 3872; 4160; 4240; 6112; 6160; 6470; 6608; 6784; 6800; 6992;
   7088; 7232; 7248; 42528; 43216; 43264; 43472; 43504; 43600; 44016; 65296;
   66720; 68912; 69734; 69872; 69942; 70096; 70384; 70736; 70864; 71248; 71360;
   71472; 71904; 72016; 72784; 73040; 73120; 92768; 92864; 93008; 120782; 120792;
   120802; 120812; 120822; 123200; 123632; 125264; 130032].

(** [Py_UNICODE_TODECIMAL] *)
Definition unicode_decimal (c : Z) : option Z :=
  match find (fun z => (z <=? c) && (c <? z + 10)) unicode_digit_zeros with
  | Some z => Some (c - z)
  | None => None
  end.

(** [Py_UNICODE_ISSPACE] on a code point from 127 on. *)
Definition unicode_space_high (c : Z) : bool :=
  (c =? 133) || (c =? 160) || (c =? 5760) || ((8192 <=? c) && (c <=? 8202))
  || (c =? 8232) || (c =? 8233) || (c =? 8239) || (c =? 8287) || (c =? 12288).

(** [_PyUnicode_TransformDecimalAndSpaceToASCII], applied by [int(s)] and
    [float(s)] before they parse: code points below 127 are kept, other
    white space becomes a space, other decimal digits their ASCII digit,
    anything else ['?']. *)
Definition transform_decimal_space (s : pystr) : pystr :=
  map (fun c =>
         if c <? 127 then c
         else if unicode_space_high c then 32
         else match unicode_decimal c with Some d => 48 + d | None => 63 end) s.

(** [Py_ISSPACE] *)
Definition py_isspace (c : Z) : bool := ((9 <=? c) && (c <=? 13)) || (c =? 32).

Fixpoint lstrip_space (s : pystr) : pystr :=
  match s with
  | c :: r => if py_isspace c then lstrip_space r else s
  | [] => []
  end.

Definition strip_space (s : pystr) : pystr := rev (lstrip_space (rev (lstrip_space s))).

(** An optional leading ['+'] or ['-']: whether it is ['-'], and the rest. *)
Definition sign_of (s : pystr) : bool * pystr :=
  match s with
  | c :: r => if c =? 45 then (true, r) else if c =? 43 then (false, r) else (false, s)
  | [] => (false, [])
  end.

(** Every ['_'] stands between two digits (the underscore rule of
    [_Py_string_to_number_with_underscores] and of [PyLong_FromString]);
    [prev] is the previous character, [0] at the start. *)
Fixpoint underscores_ok (prev : Z) (s : pystr) : bool :=
  match s with
  | [] => negb (prev =? 95)
  | c :: r =>
      (if c =? 95 then is_digit prev else negb (prev =? 95) || is_digit c)
      && underscores_ok c r
  end.

Definition digits_value (ds : pystr) : Z := fold_left (fun acc c => acc * 10 + (c - 48)) ds 0.

(** [int(s)] for a [str] [s] (base 10, at most 4300 digits). *)
Definition py_int_of_str (s : pystr) : res Z :=
  let t := strip_space (transform_decimal_space s) in
  let err := Raise (Exn ValueError (lit "invalid literal for int() with base 10: '"
                                    ++ s ++ lit "'")) in
  let (neg, body) := sign_of t in
  match body with
  | c :: _ =>
      if is_digit c && underscores_ok 0 body && forallb (fun c => is_digit c || (c =? 95)) body
      then
        let ds := filter is_digit body in
        if 4300 <? Z.of_nat (List.length ds)
        then Raise (Exn ValueError (lit "Exceeds the limit (4300 digits) for integer string conversion"))
        else Ok (if neg then - digits_value ds else digits_value ds)
      else err
  | [] => err
  end.

Fixpoint span_digits (s : pystr) : pystr * pystr :=
  match s with
  | c :: r =>
      if is_digit c then let (d, rest) := span_digits r in (c :: d, rest) else ([], s)
  | [] => ([], [])
  end.

(** The decimal literal [digits [. digits] [(e|E) [sign] digits]] with at
    least one mantissa digit that [_Py_dg_strtod] reads when it consumes
    the whole text: [Some (M, E)] for the value [M * 10^E]. *)
Definition parse_decimal (s : pystr) : option (Z * Z) :=
  let (ip, r1) := span_digits s in
  let (fp, r2) := match r1 with
                  | c :: r => if c =? 46 then span_digits r else ([], r1)
                  | [] => ([], [])
                  end in
  if (List.length ip + List.length fp =? 0)%nat then None
  else
    let m := digits_value (ip ++ fp) in
    let fl := Z.of_nat (List.length fp) in
    match r2 with
    | [] => Some (m, - fl)
    | c :: r3 =>
        if (c =? 101) || (c =? 69) then
          let (eneg, r4) := sign_of r3 in
          match span_digits r4 with
          | ((_ :: _) as ed, []) => Some (m, (if eneg then - digits_value ed else digits_value ed) - fl)
          | _ => None
          end
        else None
    end.

Definition lower_char (c : Z) : Z := if (65 <=? c) && (c <=? 90) then c + 32 else c.

(** [float(s)] for a [str] [s]: white space stripped, underscores between
    digits dropped, then a correctly rounded decimal literal or
    [inf]/[infinity]/[nan] in any case, with an optional sign. *)
Definition py_float_of_str (s : pystr) : res pyfloat :=
  let t := strip_space (transform_decimal_space s) in
  let err := Raise (Exn ValueError (lit "could not convert string to float: '"
                                    ++ s ++ lit "'")) in
  if negb (underscores_ok 0 t) then err
  else
    let (neg, body) := sign_of (filter (fun c => negb (c =? 95)) t) in
    match parse_decimal body with
    | Some (m, e) =>
        if m =? 0 then Ok (FFinite neg 0 (-1074))
        else if 0 <=? e then Ok (binary64_round neg (m * 10 ^ e) 1)
        else Ok (binary64_round neg m (10 ^ (- e)))
    | None =>
        let l := map lower_char body in
        if pystr_eqb l (lit "inf") || pystr_eqb l (lit "infinity") then Ok (FInf neg)
        else if pystr_eqb l (lit "nan") then Ok FNaN
        else err
    end.

(** *** [repr] of a float ([float_repr_style = 'short']) *)

(** The number of decimal digits of [n > 0]. *)
Definition num_digits (n : Z) : Z := Z.of_nat (List.length (dec_str n)).

(** [floor(log10(num / den))] for [num, den > 0]. *)
Definition qlog10 (num den : Z) : Z :=
  let g := num_digits num - num_digits den in
  if (if 0 <=? g then den * 10 ^ g <=? num else den <=? num * 10 ^ (- g)) then g else g - 1.

(** The two finite floats have the same value. *)
Definition fval_eqb (x y : pyfloat) : bool :=
  match x, y with
  | FFinite a m e, FFinite b n f =>
      let k := Z.min e f in
      (if a then - m else m) * 2 ^ (e - k) =? (if b then - n else n) * 2 ^ (f - k)
  | _, _ => false
  end.

(** [c * 10^s] reads back as the float [x]. *)
Definition reads_back (x : pyfloat) (c s : Z) : bool :=
  fval_eqb (binary64_round false (c * 10 ^ Z.max s 0) (10 ^ Z.max (- s) 0)) x.

(** [_Py_dg_dtoa] in mode 0 for a positive float [x = num / den] with
    [10^p <= x < 10^(p+1)]: the [k]-digit numbers [c * 10^s] just below
    and just above [x], for [k = 1, 2, ...], until one reads back as [x];
    when both do, the nearer one, and on a tie the even one. *)
Fixpoint shortest_digits (fuel : nat) (k : Z) (x : pyfloat) (num den p : Z) : Z * Z :=
  let s := p - k + 1 in
  let c := if 0 <=? s then num / (den * 10 ^ s) else num * 10 ^ (- s) / den in
  let lo := reads_back x c s in
  let hi := reads_back x (c + 1) s in
  let v := num * 10 ^ Z.max (- s) 0 in
  let u := den * 10 ^ Z.max s 0 in
  let d1 := v - c * u in
  let d2 := (c + 1) * u - v in
  match fuel with
  | O => (c, s)
  | S f =>
      if lo && hi then
        (if d1 <? d2 then (c, s) else if d2 <? d1 then (c + 1, s)
         else if Z.even c then (c, s) else (c + 1, s))
      else if lo then (c, s)
      else if hi then (c + 1, s)
      else shortest_digits f (k + 1) x num den p
  end.

Fixpoint lstrip_zeros (s : pystr) : pystr :=
  match s with
  | c :: r => if c =? 48 then lstrip_zeros r else s
  | [] => []
  end.

(** [format_float_short] for the [repr] format (['r'], [Py_DTSF_ADD_DOT_0]):
    the digit string [digits] with the decimal point after [decpt] digits;
    an exponent when [decpt <= -4] or [decpt > 16]. *)
Definition format_repr (neg : bool) (digits : pystr) (decpt : Z) : pystr :=
  let use_exp := (decpt <=? -4) || (16 <? decpt) in
  let exp := decpt - 1 in
  let dp := if use_exp then 1 else decpt in
  let n := Z.of_nat (List.length digits) in
  let vend := if use_exp then Z.max n dp else Z.max n (dp + 1) in
  let zeros (k : Z) := List.repeat 48 (Z.to_nat k) in
  let body :=
    if dp <=? 0 then [48; 46] ++ zeros (- dp) ++ digits ++ zeros (vend - n)
    else if dp <=? n then
      firstn (Z.to_nat dp) digits ++ [46] ++ skipn (Z.to_nat dp) digits ++ zeros (vend - n)
    else digits ++ zeros (dp - n) ++ [46] ++ zeros (vend - dp) in
  let body := if last body 0 =? 46 then removelast body else body in
  (if neg then [45] else []) ++ body
  ++ (if use_exp then [101; if exp <? 0 then 45 else 43] ++ pad 2 (Z.abs exp) else []).

(** [repr(x)] *)
Definition py_float_repr (x : pyfloat) : pystr :=
  match x with
  | FNaN => lit "nan"
  | FInf neg => if neg then lit "-inf" else lit "inf"
  | FFinite neg m e =>
      if m =? 0 then (if neg then lit "-0.0" else lit "0.0")
      else
        let num := m * 2 ^ Z.max e 0 in
        let den := 2 ^ Z.max (- e) 0 in
        let cs := shortest_digits 17 1 (FFinite false m e) num den (qlog10 num den) in
        let ds := dec_str (fst cs) in
        format_repr neg (rev (lstrip_zeros (rev ds))) (Z.of_nat (List.length ds) + snd cs)
  end.

(** ** [timedelta] and [datetime] arithmetic (CPython's [_datetime]) *)

Definition MAXORDINAL : Z := 3652059.
Definition us_per_day : Z := 86400000000.

Definition is_leap (y : Z) : bool :=
  (y mod 4 =? 0) && (negb (y mod 100 =? 0) || (y mod 400 =? 0)).

Definition _days_in_month : list Z := [0; 31; 28; 31; 30; 31; 30; 31; 31; 30; 31; 30; 31].
Definition _days_before_month : list Z :=
  [0; 0; 31; 59; 90; 120; 151; 181; 212; 243; 273; 304; 334].

Definition days_in_month (y m : Z) : Z :=
  if (m =? 2) && is_leap y then 29 else nth (Z.to_nat m) _days_in_month 0.

Definition days_before_month (y m : Z) : Z :=
  nth (Z.to_nat m) _days_before_month 0 + (if (2 <? m) && is_leap y then 1 else 0).

Definition days_before_year (y : Z) : Z :=
  let y := y - 1 in y * 365 + y / 4 - y / 100 + y / 400.

Definition ymd_to_ord (y m d : Z) : Z := days_before_year y + days_before_month y m + d.

(** [ord_to_ymd] *)
Definition ord_to_ymd (ordinal : Z) : Z * Z * Z :=
  let n := ordinal - 1 in
  let n400 := n / 146097 in let n := n mod 146097 in
  let n100 := n / 36524 in let n := n mod 36524 in
  let n4 := n / 1461 in let n := n mod 1461 in
  let n1 := n / 365 in let n := n mod 365 in
  let year := n400 * 400 + 1 + n100 * 100 + n4 * 4 + n1 in
  if (n1 =? 4) || (n100 =? 4) then (year - 1, 12, 31)
  else
    let leapyear := (n1 =? 3) && (negb (n4 =? 24) || (n100 =? 3)) in
    let month := Z.shiftr (n + 50) 5 in
    let preceding := nth (Z.to_nat month) _days_before_month 0
                     + (if (2 <? month) && leapyear then 1 else 0) in
    let mp := if n <? preceding
              then (month - 1, preceding - days_in_month year (month - 1))
              else (month, preceding) in
    (year, fst mp, n - snd mp + 1).

(** C's [round]: [n / d] ([d > 0]) to the nearest integer, halves away from zero. *)
Definition c_round (n d : Z) : Z :=
  if 0 <=? n then (2 * n + d) / (2 * d) else - ((2 * (- n) + d) / (2 * d)).

(** The rounding of [leftover_us] at the end of [delta_new]: [round], and
    on an exact half [2.0 * round((leftover_us + x_is_odd) * 0.5) - x_is_odd]. *)
Definition round_leftover (x : Z) (leftover : pyfloat) : Z :=
  let (n, d) := float_frac leftover in
  let whole_us := c_round n d in
  if Z.abs (2 * (whole_us * d - n)) =? d then
    let x_is_odd := Z.land x 1 in
    2 * c_round (n + x_is_odd * d) (2 * d) - x_is_odd
  else whole_us.

(** [timedelta(days=days, seconds=seconds)] for an [int] [days] and a
    [float] [seconds], as [delta_new] builds it: [accum] of the seconds
    (integral part exactly, the fraction times [1e6] in floating point,
    whose fraction is left over), [accum] of the days, the rounded
    leftover; the result in microseconds, [|days| <= 999999999]. *)
Definition timedelta_us (days : Z) (seconds : pyfloat) : res Z :=
  match float_modf seconds with
  | Raise e => Raise e
  | Ok (intpart, fracpart) =>
      let x := intpart * 1000000 in
      let* xl :=
        if float_is_zero fracpart then Ok (x, FFinite false 0 (-1074))
        else
          match float_modf (float_mul (float_of_int 1000000) fracpart) with
          | Ok (intpart2, fracpart2) => Ok (x + intpart2, fracpart2)
          | Raise e => Raise e
          end in
      let x := fst xl + days * us_per_day in
      let leftover := snd xl in
      let x := if float_is_zero leftover then x else x + round_leftover x leftover in
      let d := x / us_per_day in
      if (-999999999 <=? d) && (d <=? 999999999) then Ok x
      else Raise (Exn OverflowError (lit "days=" ++ dec_str d
                                     ++ lit "; must have magnitude <= 999999999"))
  end.

(** The range check that ends [delta_new]: [|days| <= 999999999]. *)
Definition td_result (x : Z) : res Z :=
  let d := x / us_per_day in
  if (-999999999 <=? d) && (d <=? 999999999) then Ok x
  else Raise (Exn OverflowError (lit "days=" ++ dec_str d ++ lit "; must have magnitude <= 999999999")).

(** [d + timedelta(microseconds=us)]: [add_datetime_timedelta] and
    [normalize_datetime] (carries by floor division); the date is
    normalised through its ordinal, which must lie in [1 .. MAXORDINAL]. *)
Definition datetime_add (d : datetime) (us : Z) : res datetime :=
  let td_days := us / us_per_day in
  let td_seconds := (us mod us_per_day) / 1000000 in
  let td_microseconds := us mod 1000000 in
  let microsecond := dt_microsecond d + td_microseconds in
  let second := dt_second d + td_seconds + microsecond / 1000000 in
  let minute := dt_minute d + second / 60 in
  let hour := dt_hour d + minute / 60 in
  let day := dt_day d + td_days + hour / 24 in
  let ordinal := ymd_to_ord (dt_year d) (dt_month d) 1 + day - 1 in
  if (1 <=? ordinal) && (ordinal <=? MAXORDINAL) then
    let ymd := ord_to_ymd ordinal in
    Ok (DT (fst (fst ymd)) (snd (fst ymd)) (snd ymd) (hour mod 24) (minute mod 60)
           (second mod 60) (microsecond mod 1000000))
  else Raise (Exn OverflowError (lit "date value out of range")).

(** ** OLE timestamps ([_ole_timestamp]) *)

Definition ole_epoch : datetime := DT 1899 12 30 0 0 0 0.

Section Ole.
Context `{EX : Externals}.

(** The [try:] body of [_ole_timestamp]:
    [td, ts = str(struct.unpack("<d", blob)[0]).split(".")] and
    [datetime(1899, 12, 30, 0, 0, 0) + timedelta(days=int(td), seconds=86400 * float(f"0.{ts}"))]. *)
Definition ole_timestamp_try (blob : bytes) : res datetime :=
  let* bits := unpack_le 8 blob in
  match split_on 46 (float_repr (float_of_bits64 bits)) with
  | [td; ts] =>
      let* days := py_int_of_str td in
      let* frac := py_float_of_str (lit "0." ++ ts) in
      let* us := timedelta_us days (float_mul (float_of_int 86400) frac) in
      datetime_add ole_epoch us
  | parts =>
      Raise (Exn ValueError (if (List.length parts <? 2)%nat
                             then lit "not enough values to unpack (expected 2, got 1)"
                             else lit "too many values to unpack (expected 2)"))
  end.

(** [_ole_timestamp]: its [except Exception] returns the text. *)
Definition _ole_timestamp (blob : bytes) : pyval :=
  match ole_timestamp_try blob with
  | Ok dt => PDatetime dt
  | Raise _ => PStr (lit "Invalid OLE Timestamp")
  end.
End Ole.

(** ** pyesedb handles *)

(** [pyesedb.column_types] *)
Inductive coltype :=
| BINARY_DATA | BOOLEAN | CURRENCY | DATE_TIME | DOUBLE_64BIT | FLOAT_32BIT
| GUID | INTEGER_16BIT_SIGNED | INTEGER_16BIT_UNSIGNED | INTEGER_32BIT_SIGNED
| INTEGER_32BIT_UNSIGNED | INTEGER_64BIT_SIGNED | INTEGER_8BIT_UNSIGNED
| LARGE_BINARY_DATA | LARGE_TEXT | NULL | SUPER_LARGE_VALUE | TEXT.

Record column := Column { col_name : pystr; col_type : coltype }.

(** A record: the raw value data of each column ([None] for no data). *)
Definition ese_record := list (option bytes).

(** A table: [name], [columns], [number_of_records] ([None]: the property
    raises) and [get_record(i)] ([None]: the call raises, also out of
    range). *)
Record ese_table := EseTable {
  t_name : pystr;
  t_columns : list column;
  t_number_of_records : option Z;
  t_records : list (option ese_record) }.

Definition number_of_columns (t : ese_table) : nat := List.length (t_columns t).

Definition libesedb_error : exn :=
  Exn OSError (lit "pyesedb_record: unable to retrieve column").

Definition get_column_type (t : ese_table) (col : nat) : res coltype :=
  match nth_error (t_columns t) col with
  | Some c => Ok (col_type c)
  | None => Raise libesedb_error
  end.

Definition get_value_data (r : ese_record) (col : nat) : res (option bytes) :=
  match nth_error r col with
  | Some v => Ok v
  | None => Raise libesedb_error
  end.

(** [_ese_table_record_count] *)
Definition _ese_table_record_count (t : ese_table) : Z :=
  match t_number_of_records t with Some n => n | None => 0 end.

(** [_ese_table_get_record] *)
Definition _ese_table_get_record (t : ese_table) (row : nat) : option ese_record :=
  match nth_error (t_records t) row with
  | Some (Some r) => Some r
  | _ => None
  end.

(** A database: its tables in [get_table(i)] order. *)
Record ese_db := EseDb { db_tables : list ese_table }.

(** ** Binary Cell Decoder ([_smart_retrieve]) *)

Section Decoder.
Context `{EX : Externals}.

(** The [try:] if-chain; [Ok None] when no branch matches. *)
Definition decode_typed (ct : coltype) (d : bytes) : res (option pyval) :=
  match ct with
  | BINARY_DATA => Ok (Some (PStr (hex_encode d)))
  | BOOLEAN => let* v := unpack_le 1 d in Ok (Some (PBool (negb (v =? 0))))
  | DATE_TIME => Ok (Some (_ole_timestamp d))
  | DOUBLE_64BIT => let* v := unpack_le 8 d in Ok (Some (PFloat (float_of_bits64 v)))
  | FLOAT_32BIT => let* v := unpack_le 4 d in Ok (Some (PFloat (float_of_bits32 v)))
  | GUID => let* s := uuid_str d in Ok (Some (PStr s))
  | INTEGER_16BIT_SIGNED => let* v := unpack_le_signed 2 d in Ok (Some (PInt v))
  | INTEGER_16BIT_UNSIGNED => let* v := unpack_le 2 d in Ok (Some (PInt v))
  | INTEGER_32BIT_SIGNED => let* v := unpack_le_signed 4 d in Ok (Some (PInt v))
  | INTEGER_32BIT_UNSIGNED => let* v := unpack_le 4 d in Ok (Some (PInt v))
  | INTEGER_64BIT_SIGNED => let* v := unpack_le_signed 8 d in Ok (Some (PInt v))
  | INTEGER_8BIT_UNSIGNED => let* v := unpack_le 1 d in Ok (Some (PInt v))
  | LARGE_BINARY_DATA => Ok (Some (PStr (hex_encode d)))
  | LARGE_TEXT => Ok (Some (PStr (_blob_to_string (BBytes d))))
  | SUPER_LARGE_VALUE => Ok (Some (PStr (hex_encode d)))
  | TEXT => Ok (Some (PStr (_blob_to_string (BBytes d))))
  | CURRENCY | NULL => Ok None
  end.

(** [except (struct.error, TypeError)] *)
Definition caught_by_decoder (e : exn) : bool :=
  match exn_type e with StructError | TypeError => true | _ => false end.

Definition _smart_retrieve (t : ese_table) (recnum col : nat) : res pyval :=
  match _ese_table_get_record t recnum with
  | None => Ok (PStr (lit "Error"))
  | Some r =>
      let* ct := get_column_type t col in
      let* cd := get_value_data r col in
      match cd with
      | None => Ok (PStr (lit "Empty"))
      | Some d =>
          match decode_typed ct d with
          | Ok (Some v) => Ok v
          | Ok None => Ok (PStr (_blob_to_string (BBytes d)))
          | Raise e =>
              if caught_by_decoder e then Ok (PStr (_blob_to_string (BBytes d)))
              else Raise e
          end
      end
  end.
End Decoder.

(** ** Binary SID decoder ([_binary_sid_to_string_sid]) *)

Definition known_sids : pystr := lit "Known SIDS".

Fixpoint sid_sub_auths (sid : bytes) (i n : nat) (acc : pystr) : res pystr :=
  match n with
  | O => Ok acc
  | S n' =>
      let* sa := unpack_le 4 (slice sid (8 + 4 * i) (12 + 4 * i)) in
      sid_sub_auths sid (S i) n' (acc ++ [45] ++ dec_str sa)
  end.

Section Sid.
Context `{EX : Externals}.

(** [self.template_lookups.get("Known SIDS", {}).get(k, 'unknown')] *)
Definition known_sid_name (self : analyzer) (sid_str : pystr) : pystr :=
  match dict_get pystr_eqb known_sids (template_lookups self) with
  | Some tbl =>
      match dict_get py_eq (PStr sid_str) tbl with
      | Some v => py_str v
      | None => lit "unknown"
      end
  | None => lit "unknown"
  end.

Definition sid_try (self : analyzer) (sid_hex : pyval) : res pystr :=
  let* sid := match sid_hex with
              | PStr s => hex_decode s
              | _ => Raise (Exn TypeError (lit "argument should be bytes or ASCII string"))
              end in
  let* b0 := index sid 0 in
  let sid_str := lit "S-" ++ dec_str b0 in
  let* sub_auth_count := index sid 1 in
  let* id_auth := unpack_be 8 ([0; 0] ++ slice sid 2 8) in
  let sid_str := sid_str ++ [45] ++ dec_str id_auth in
  let* sid_str := sid_sub_auths sid 0 (Z.to_nat sub_auth_count) sid_str in
  Ok (sid_str ++ lit " (" ++ known_sid_name self sid_str ++ lit ")").

Definition _binary_sid_to_string_sid (self : analyzer) (sid_hex : pyval) : pystr :=
  if negb (py_truthy sid_hex) then []
  else match sid_try self sid_hex with
       | Ok s => s
       | Raise _ => lit "Invalid SID"
       end.
End Sid.

(** ** openpyxl workbooks *)

(** A sheet: its title, the values of its cells row by row (from row 1,
    column 1; missing cells are [None]) and their style names. *)
Record sheet := Sheet {
  sh_name : pystr;
  sh_values : list (list pyval);
  sh_styles : list (list style) }.

Record workbook := Workbook { wb_sheets : list sheet }.

(** [sheet.cell(row=r, column=c).value], 1-based *)
Definition cell_value (sh : sheet) (r c : nat) : pyval :=
  nth (c - 1) (nth (r - 1) (sh_values sh) []) PNone.

(** [sheet.cell(row=r, column=c).style] *)
Definition cell_style (sh : sheet) (r c : nat) : style :=
  nth (c - 1) (nth (r - 1) (sh_styles sh) []) (lit "Normal").

Definition max_row (sh : sheet) : nat := Nat.max 1 (List.length (sh_values sh)).
Definition max_column (sh : sheet) : nat :=
  Nat.max 1 (fold_right (fun row m => Nat.max (List.length row) m) O (sh_values sh)).

(** [sheet.iter_rows(min_row=1, max_col=2, values_only=True)] *)
Definition iter_rows2 (sh : sheet) : list (pyval * pyval) :=
  map (fun r => (cell_value sh r 1, cell_value sh r 2)) (seq 1 (max_row sh)).

Fixpoint starts_with (s p : pystr) : bool :=
  match p, s with
  | [], _ => true
  | x :: p', y :: s' => (x =? y) && starts_with s' p'
  | _ :: _, [] => false
  end.

(** [name.split("-")[1]] *)
Definition split_dash_1 (name : pystr) : res pystr :=
  match nth_error (split_on 45 name) 1 with
  | Some w => Ok w
  | None => Raise (Exn IndexError (lit "list index out of range"))
  end.

Definition lookup_marker : pystr := lit "lookup-".

(** ** Schema Template Loader *)

Section Templates.
Context `{EX : Externals}.

Definition is_lookup_sheet (sh : sheet) : bool :=
  starts_with (str_lower (sh_name sh)) lookup_marker.

(** [for row in sheet.iter_rows(...): if row[0] is not None: table[row[0]] = row[1]] *)
Definition lookup_rows (rows : list (pyval * pyval)) : dict pyval pyval :=
  fold_left (fun table row =>
    match fst row with
    | PNone => table
    | k => dict_set py_eq k (snd row) table
    end) rows [].

Fixpoint load_lookups_loop (sheets : list sheet) (lookups : template_lookups_t)
    : res template_lookups_t :=
  match sheets with
  | [] => Ok lookups
  | sh :: rest =>
      if is_lookup_sheet sh then
        let* lookup_name := split_dash_1 (sh_name sh) in
        let table := lookup_rows (iter_rows2 sh) in
        load_lookups_loop rest (dict_set pystr_eqb lookup_name table lookups)
      else load_lookups_loop rest lookups
  end.

Definition _load_template_lookups (wb : workbook) : res template_lookups_t :=
  load_lookups_loop (wb_sheets wb) [].

(** [x or y] *)
Definition py_or (x y : pyval) : pyval := if py_truthy x then x else y.

(** The column scan; [break] at the first falsy field name. *)
Fixpoint template_fields (sh : sheet) (cols : list nat)
    (fields : dict pyval (style * pyval * pyval)) : dict pyval (style * pyval * pyval) :=
  match cols with
  | [] => fields
  | col :: rest =>
      let field_name := cell_value sh 2 col in
      if negb (py_truthy field_name) then fields
      else template_fields sh rest
             (dict_set py_eq field_name
                (cell_style sh 4 col, cell_value sh 3 col,
                 py_or (cell_value sh 4 col) field_name) fields)
  end.

Definition _load_template_tables (wb : workbook) : template_tables_t :=
  fold_left (fun tables sh =>
    if is_lookup_sheet sh then tables
    else
      let ese_table := cell_value sh 1 1 in
      if negb (py_truthy ese_table) then tables
      else dict_set py_eq ese_table
             (sh_name sh, template_fields sh (seq 1 (max_column sh)) []) tables)
    (wb_sheets wb) [].
End Templates.

(** ** ID-Map Resolver ([_load_srumid_lookups]) *)

Definition id_map_table : pystr := lit "SruDbIdMapTable".

(** [database.get_table_by_name(name)]: [None] when there is no such table. *)
Definition get_table_by_name (db : ese_db) (name : pystr) : option ese_table :=
  find (fun t => pystr_eqb (t_name t) name) (db_tables db).

(** [{x.name: i for i, x in enumerate(lookup_table.columns)}] *)
Definition column_lookup (t : ese_table) : dict pystr nat :=
  fold_left (fun d ic => dict_set pystr_eqb (col_name (snd ic)) (fst ic) d)
    (combine (seq 0 (List.length (t_columns t))) (t_columns t)) [].

(** [column_lookup[name]] *)
Definition column_index (cl : dict pystr nat) (name : pystr) : res nat :=
  match dict_get pystr_eqb name cl with
  | Some i => Ok i
  | None => Raise (Exn KeyError ([39] ++ name ++ [39]))
  end.

Section IdMap.
Context `{EX : Externals}.

(** The value stored for one record of the ID-map table. *)
Definition resolve_id_blob (self : analyzer) (id_type blob : pyval) : pyval :=
  if py_eq id_type (PInt 3) then PStr (_binary_sid_to_string_sid self blob)
  else if negb (py_eq blob (PStr (lit "Empty")) || py_eq blob (PStr (lit "Error")))
  then PStr (_blob_to_string (BVal blob))
  else blob.

Fixpoint srumid_loop (self : analyzer) (t : ese_table) (cl : dict pystr nat)
    (recs : list nat) (id_lookup : dict pyval pyval) : res (dict pyval pyval) :=
  match recs with
  | [] => Ok id_lookup
  | rec_num :: rest =>
      let* ib := column_index cl (lit "IdBlob") in
      let* blob := _smart_retrieve t rec_num ib in
      let* it := column_index cl (lit "IdType") in
      let* id_type := _smart_retrieve t rec_num it in
      let blob := resolve_id_blob self id_type blob in
      let* ii := column_index cl (lit "IdIndex") in
      let* idx := _smart_retrieve t rec_num ii in
      srumid_loop self t cl rest (dict_set py_eq idx blob id_lookup)
  end.

Definition _load_srumid_lookups (self : analyzer) (db : ese_db) : res (dict pyval pyval) :=
  match get_table_by_name db id_map_table with
  | None => Ok []   (* None.columns: AttributeError, caught *)
  | Some t =>
      srumid_loop self t (column_lookup t)
        (seq 0 (Z.to_nat (_ese_table_record_count t))) []
  end.
End IdMap.

(** ** Format-for-Display entry point and Table Processor *)

Definition output_t := dict pystr (list (list pyval)).

Definition skip_tables : list pystr :=
  [lit "MSysObjects"; lit "MSysObjectsShadow"; lit "MSysObjids"; lit "MSysLocales";
   lit "SruDbIdMapTable"].

Definition in_list (x : pystr) (l : list pystr) : bool := existsb (pystr_eqb x) l.

Section Processor.
Context `{EX : Externals}.

(** [_format_output_for_gui]; [fmt.lower()] is outside the [try:]. *)
Definition _format_output_for_gui (self : analyzer) (val fmt : pyval) : res pystr :=
  match val with
  | PNone => Ok (lit "None")
  | _ =>
      match fmt with
      | PNone => Ok (py_str val)
      | PStr f => Ok (py_str (apply_directive self val f))
      | _ => Raise (Exn AttributeError (lit "object has no attribute 'lower'"))
      end
  end.

Definition template_entry (self : analyzer) (name : pystr)
    : option (pystr * dict pyval (style * pyval * pyval)) :=
  dict_get py_eq (PStr name) (template_tables self).

(** [_ese_table_guid_to_name] *)
Definition _ese_table_guid_to_name (self : analyzer) (t : ese_table) : pystr :=
  match template_entry self (t_name t) with
  | Some (n, _) => n
  | None => t_name t
  end.

Definition header_row (self : analyzer) (t : ese_table) : list pyval :=
  match template_entry self (t_name t) with
  | Some (_, tfields) =>
      map (fun c => match dict_get py_eq (PStr (col_name c)) tfields with
                    | Some (_, _, label) => label
                    | None => PStr (col_name c)
                    end) (t_columns t)
  | None => map (fun c => PStr (col_name c)) (t_columns t)
  end.

Definition warning_cell (name : pystr) : pystr :=
  lit "WARNING: Invalid Column Name " ++ name.

(** One cell of a data row. *)
Definition process_cell (self : analyzer) (t : ese_table) (column_names : list pystr)
    (row_num col_num : nat) : res pyval :=
  let* val := _smart_retrieve t row_num col_num in
  let cname := nth col_num column_names [] in
  if py_eq val (PStr (lit "Error")) then Ok (PStr (warning_cell cname))
  else match val with
       | PNone => Ok (PStr (lit "None"))
       | _ =>
           match template_entry self (t_name t) with
           | Some (_, tfields) =>
               match dict_get py_eq (PStr cname) tfields with
               | Some (_, cformat, _) =>
                   let* s := _format_output_for_gui self val cformat in Ok (PStr s)
               | None => Ok (PStr (py_str val))
               end
           | None => Ok (PStr (py_str val))
           end
       end.

Fixpoint process_cells (self : analyzer) (t : ese_table) (column_names : list pystr)
    (row_num : nat) (cols : list nat) : res (list pyval) :=
  match cols with
  | [] => Ok []
  | c :: rest =>
      let* v := process_cell self t column_names row_num c in
      let* vs := process_cells self t column_names row_num rest in
      Ok (v :: vs)
  end.

(** [for row_num in range(num_recs): ... if ese_row is None: continue] *)
Fixpoint process_rows (self : analyzer) (t : ese_table) (column_names : list pystr)
    (rows : list nat) : res (list (list pyval)) :=
  match rows with
  | [] => Ok []
  | row_num :: rest =>
      match _ese_table_get_record t row_num with
      | None => process_rows self t column_names rest
      | Some _ =>
          let* gui_row := process_cells self t column_names row_num
                            (seq 0 (number_of_columns t)) in
          let* rest' := process_rows self t column_names rest in
          Ok (gui_row :: rest')
      end
  end.

(** [table_data] of one table that is not skipped. *)
Definition process_table (self : analyzer) (t : ese_table) : res (list (list pyval)) :=
  let column_names := map col_name (t_columns t) in
  let* rows := process_rows self t column_names
                 (seq 0 (Z.to_nat (_ese_table_record_count t))) in
  Ok (header_row self t :: rows).

Fixpoint tables_loop (self : analyzer) (skip : list pystr) (tables : list ese_table)
    (all_tables_data : output_t) : res output_t :=
  match tables with
  | [] => Ok all_tables_data
  | t :: rest =>
      if in_list (t_name t) skip then tables_loop self skip rest all_tables_data
      else
        let tname := _ese_table_guid_to_name self t in
        if _ese_table_record_count t =? 0 then tables_loop self skip rest all_tables_data
        else
          let* table_data := process_table self t in
          tables_loop self skip rest (dict_set pystr_eqb tname table_data all_tables_data)
  end.

Definition finished_msg : pystr := lit "Finished processing all tables.".

Definition _process_srum_tables (self : analyzer) (db : ese_db) (skip : list pystr)
    : res (output_t * pystr) :=
  let* all_tables_data := tables_loop self skip (db_tables db) [] in
  Ok (all_tables_data, finished_msg).
End Processor.

(** ** [analyze]: the handles it opens and closes *)

(** The one handle [analyze] can leave open: the pyesedb file.  openpyxl's
    [load_workbook] in its default (not read-only) mode reads the whole
    archive and closes it before it returns, so a loaded workbook holds no
    open file. *)
Record handles := Handles { db_is_open : bool }.

Definition M (A : Type) := handles -> res A * handles.

Definition mret {A} (a : A) : M A := fun h => (Ok a, h).
Definition mbind {A B} (m : M A) (k : A -> M B) : M B :=
  fun h => match m h with
           | (Ok a, h') => k a h'
           | (Raise e, h') => (Raise e, h')
           end.
Definition mraise {A} (e : exn) : M A := fun h => (Raise e, h).
Definition lift {A} (r : res A) : M A := fun h => (r, h).
Definition try_except {A} (m : M A) (handler : exn -> M A) : M A :=
  fun h => match m h with
           | (Raise e, h') => handler e h'
           | ok => ok
           end.

Notation "x <- m ;; k" := (mbind m (fun x => k))
  (at level 61, m at next level, right associativity).

(** [pyesedb.file(); ese_db.open(path)]: the file is given by what
    opening it yields. *)
Definition open_db (srum : res ese_db) : M ese_db :=
  fun h => match srum with
           | Ok db => (Ok db, {| db_is_open := true |})
           | Raise e => (Raise e, h)
           end.

Definition close_db : M unit :=
  fun h => (Ok tt, {| db_is_open := false |}).

(** [openpyxl.load_workbook(filename=...)]: the archive it opens is closed
    again before it returns. *)
Definition load_workbook (tmpl : res workbook) : M workbook :=
  fun h => match tmpl with
           | Ok wb => (Ok wb, h)
           | Raise e => (Raise e, h)
           end.

Definition srum_open_prefix : pystr := lit "Could not open the specified SRUM file: ".
Definition template_open_prefix : pystr := lit "Could not open the specified template file: ".

Section Analyze.
Context `{EX : Externals}.

(** [__init__] followed by the registry step of [analyze]. *)
Definition init_analyzer (reg : option hive) : analyzer :=
  match reg with
  | Some h => {| template_tables := []; template_lookups := []; id_table := [];
                 interface_table := load_interfaces h;
                 regsids := load_registry_sids h; has_reg_hive := true |}
  | None => {| template_tables := []; template_lookups := []; id_table := [];
               interface_table := []; regsids := []; has_reg_hive := false |}
  end.

(** [self.template_lookups.setdefault("Known SIDS", {}).update(self.regsids)] *)
Definition merge_known_sids (lookups : template_lookups_t) (sids : dict pyval pyval)
    : template_lookups_t :=
  let old := match dict_get pystr_eqb known_sids lookups with Some d => d | None => [] end in
  dict_set pystr_eqb known_sids (dict_update py_eq old sids) lookups.

Definition with_templates (self : analyzer) (tt : template_tables_t)
    (tl : template_lookups_t) : analyzer :=
  {| template_tables := tt;
     template_lookups := match regsids self with
                         | [] => tl
                         | sids => merge_known_sids tl sids
                         end;
     id_table := id_table self; interface_table := interface_table self;
     regsids := regsids self; has_reg_hive := has_reg_hive self |}.

Definition with_id_table (self : analyzer) (idt : dict pyval pyval) : analyzer :=
  {| template_tables := template_tables self; template_lookups := template_lookups self;
     id_table := idt; interface_table := interface_table self;
     regsids := regsids self; has_reg_hive := has_reg_hive self |}.

Definition analyze (srum : res ese_db) (tmpl : res workbook) (reg : option hive)
    : M (output_t * pystr) :=
  let self := init_analyzer reg in
  ese_db <- try_except (open_db srum)
              (fun e => mraise (Exn OSError (srum_open_prefix ++ exn_msg e))) ;;
  template_wb <- try_except (load_workbook tmpl)
                   (fun e => _ <- close_db ;;
                             mraise (Exn OSError (template_open_prefix ++ exn_msg e))) ;;
  let tt := _load_template_tables template_wb in
  tl <- lift (_load_template_lookups template_wb) ;;
  let self := with_templates self tt tl in
  idt <- lift (_load_srumid_lookups self ese_db) ;;
  let self := with_id_table self idt in
  r <- lift (_process_srum_tables self ese_db skip_tables) ;;
  _ <- close_db ;;
  mret r.
End Analyze.

Definition closed_handles : handles := {| db_is_open := false |}.

(** ** A concrete instance of the collaborators, for evaluation

    On ASCII text Python's [str.lower] is the ASCII mapping below; the
    others are placeholders that the evaluated inputs never reach. *)

Definition ascii_lower (s : pystr) : pystr :=
  map (fun c => if (65 <=? c) && (c <=? 90) then c + 32 else c) s.

#[export] Instance demo_externals : Externals := {
  float_repr := fun _ => lit "0.0";
  str_lower := ascii_lower;
  hive := unit;
  load_registry_sids := fun _ => [];
  load_interfaces := fun _ => [];
  apply_directive := fun _ v _ => v }.

(** The same collaborators with CPython's float [repr]. *)
Definition cpython_externals : Externals := {|
  float_repr := py_float_repr;
  str_lower := ascii_lower;
  hive := unit;
  load_registry_sids := fun _ => [];
  load_interfaces := fun _ => [];
  apply_directive := fun _ v _ => v |}.

Definition empty_analyzer : analyzer := init_analyzer None.

Example sid_example :
  _binary_sid_to_string_sid empty_analyzer (PStr (lit "010200000000000515000000e8030000"))
  = lit "S-1-5-21-1000 (unknown)".
Proof. vm_compute. reflexivity. Qed.

Example blob_example :
  _blob_to_string (BBytes (encode_utf16le (lit "abc") ++ [0; 0])) = lit "abc".
Proof. vm_compute. reflexivity. Qed.

Example guid_example :
  _smart_retrieve (EseTable (lit "T") [Column (lit "g") GUID] (Some 1) [Some [Some [1; 2; 3]]]) 0 0
  = Raise (Exn ValueError (lit "bytes is not a 16-char string")).
Proof. vm_compute. reflexivity. Qed.

(** ** The SID layout as the spec describes it (for comparison with the
    decoder): byte 0 revision, byte 1 sub-authority count, bytes 2-7 the
    big-endian 48-bit authority, then little-endian 4-byte sub-authorities. *)

Definition spec_sid_authority (bs : bytes) : Z :=
  nth 2 bs 0 * 2 ^ 40 + nth 3 bs 0 * 2 ^ 32 + nth 4 bs 0 * 2 ^ 24
  + nth 5 bs 0 * 2 ^ 16 + nth 6 bs 0 * 2 ^ 8 + nth 7 bs 0.

Definition spec_sid_sub_authority (bs : bytes) (k : nat) : Z :=
  nth (8 + 4 * k) bs 0 + nth (9 + 4 * k) bs 0 * 2 ^ 8
  + nth (10 + 4 * k) bs 0 * 2 ^ 16 + nth (11 + 4 * k) bs 0 * 2 ^ 24.

Definition spec_sid_count (bs : bytes) : nat := Z.to_nat (nth 1 bs 0).

Definition spec_sid_text (bs : bytes) : pystr :=
  lit "S-" ++ dec_str (nth 0 bs 0) ++ [45] ++ dec_str (spec_sid_authority bs)
  ++ flat_map (fun k => [45] ++ dec_str (spec_sid_sub_authority bs k))
       (seq 0 (spec_sid_count bs)).

Definition spec_sid_string `{Externals} (self : analyzer) (bs : bytes) : pystr :=
  spec_sid_text bs ++ lit " (" ++ known_sid_name self (spec_sid_text bs) ++ lit ")".


(** ** Reference formulations of the table processor *)

(** Monadic map: stops at the first exception. *)
Fixpoint map_res {A B} (f : A -> res B) (l : list A) : res (list B) :=
  match l with
  | [] => Ok []
  | x :: r => let* y := f x in let* ys := map_res f r in Ok (y :: ys)
  end.

Definition has_record (t : ese_table) (i : nat) : bool :=
  match _ese_table_get_record t i with Some _ => true | None => false end.

(** The tables that pass both filters of [_process_srum_tables]. *)
Definition eligible (skip : list pystr) (t : ese_table) : bool :=
  negb (in_list (t_name t) skip) && negb (_ese_table_record_count t =? 0).

Section Reference.
Context `{EX : Externals}.

(** Data rows of the records that could be fetched, in order. *)
Definition fetched_rows (self : analyzer) (t : ese_table) : res (list (list pyval)) :=
  map_res (fun i => process_cells self t (map col_name (t_columns t)) i
                      (seq 0 (number_of_columns t)))
    (filter (has_record t) (seq 0 (Z.to_nat (_ese_table_record_count t)))).

(** Every table given is processed and stored under its display name. *)
Fixpoint store_tables (self : analyzer) (tables : list ese_table) (acc : output_t)
    : res output_t :=
  match tables with
  | [] => Ok acc
  | t :: rest =>
      let* d := process_table self t in
      store_tables self rest (dict_set pystr_eqb (_ese_table_guid_to_name self t) d acc)
  end.
End Reference.

(** The two fatal I/O errors of [analyze], recognised by class and message. *)
Definition open_error (e : exn) : bool :=
  match exn_type e with
  | OSError => starts_with (exn_msg e) srum_open_prefix
               || starts_with (exn_msg e) template_open_prefix
  | _ => false
  end.

(** ** Reference formulations for the template lookups and the ID map *)

Section ReferenceLoaders.
Context `{EX : Externals}.

(** The table of the last lookup sheet whose [split("-")[1]] is [n]. *)
Definition last_lookup_table (n : pystr) (sheets : list sheet) : option (dict pyval pyval) :=
  fold_left (fun cur sh =>
    if is_lookup_sheet sh then
      match split_dash_1 (sh_name sh) with
      | Ok w => if pystr_eqb w n then Some (lookup_rows (iter_rows2 sh)) else cur
      | Raise _ => cur
      end
    else cur) sheets None.

(** An entry [k -> v] of a lookup table built from [rows]: [k] is the
    first cell of a row, [v] the second cell of a row whose first cell
    equals [k]. *)
Definition row_entry (rows : list (pyval * pyval)) (k v : pyval) : Prop :=
  (k <> PNone /\ exists v0, In (k, v0) rows)
  /\ exists r, In r rows /\ fst r <> PNone /\ snd r = v /\ (fst r = k \/ py_eq k (fst r) = true).

(** The second cell of the last of [rows] whose first cell is not [None]
    and equals [k]. *)
Definition last_row_value (rows : list (pyval * pyval)) (k : pyval) : option pyval :=
  match find (fun r => match fst r with PNone => false | a => py_eq a k end) (rev rows) with
  | Some r => Some (snd r)
  | None => None
  end.

(** Column [name] of record [i] of the ID-map table decodes to [v]. *)
Definition id_column_value (t : ese_table) (name : pystr) (i : nat) (v : pyval) : Prop :=
  exists c, column_index (column_lookup t) name = Ok c /\ _smart_retrieve t i c = Ok v.
(** An entry [k -> v] of the ID map of table [t]: [k] is the decoded
    [IdIndex] of some record, and [v] the resolved blob of a record whose
    decoded [IdIndex] equals [k]. *)
Definition srumid_entry (self : analyzer) (t : ese_table) (k v : pyval) : Prop :=
  let n := Z.to_nat (_ese_table_record_count t) in
  (exists i, (i < n)%nat /\ id_column_value t (lit "IdIndex") i k)
  /\ exists j blob ty idx, (j < n)%nat
       /\ id_column_value t (lit "IdBlob") j blob
       /\ id_column_value t (lit "IdType") j ty
       /\ id_column_value t (lit "IdIndex") j idx
       /\ (k = idx \/ py_eq k idx = true)
       /\ v = resolve_id_blob self ty blob.
End ReferenceLoaders.

(** ** Byte layouts of the decoder and the SID decoder *)

(** [v.to_bytes(n, "little")] on [v mod 2 ** (8 * n)] *)
Fixpoint le_bytes (n : nat) (v : Z) : bytes :=
  match n with
  | O => []
  | S n' => v mod 256 :: le_bytes n' (v / 256)
  end.

(** Byte width and signedness of the integer column types. *)
Definition int_layout (ct : coltype) : option (nat * bool) :=
  match ct with
  | INTEGER_8BIT_UNSIGNED => Some (1%nat, false)
  | INTEGER_16BIT_SIGNED => Some (2%nat, true)
  | INTEGER_16BIT_UNSIGNED => Some (2%nat, false)
  | INTEGER_32BIT_SIGNED => Some (4%nat, true)
  | INTEGER_32BIT_UNSIGNED => Some (4%nat, false)
  | INTEGER_64BIT_SIGNED => Some (8%nat, true)
  | _ => None
  end.

(** The byte length [struct.unpack] needs for the fixed-width column types. *)
Definition struct_width (ct : coltype) : option nat :=
  match ct with
  | BOOLEAN | INTEGER_8BIT_UNSIGNED => Some 1%nat
  | INTEGER_16BIT_SIGNED | INTEGER_16BIT_UNSIGNED => Some 2%nat
  | FLOAT_32BIT | INTEGER_32BIT_SIGNED | INTEGER_32BIT_UNSIGNED => Some 4%nat
  | DOUBLE_64BIT | INTEGER_64BIT_SIGNED => Some 8%nat
  | _ => None
  end.

(** The values an integer column of that width and signedness can hold. *)
Definition in_int_range (w : nat) (signed : bool) (v : Z) : Prop :=
  if signed then - 2 ^ (8 * Z.of_nat w - 1) <= v < 2 ^ (8 * Z.of_nat w - 1)
  else 0 <= v < 2 ^ (8 * Z.of_nat w).

(** A value of a Python [bytes] element. *)
Definition is_byte (b : Z) : Prop := 0 <= b <= 255.

(** A binary SID: revision, sub-authority count, 48-bit big-endian
    authority, little-endian 32-bit sub-authorities. *)
Definition sid_bytes (revision auth : Z) (subs : list Z) : bytes :=
  [revision; Z.of_nat (List.length subs)] ++ rev (le_bytes 6 auth) ++ flat_map (le_bytes 4) subs.

(** Its text form ["S-rev-auth-sub1-...-subn"]. *)
Definition sid_text (revision auth : Z) (subs : list Z) : pystr :=
  lit "S-" ++ dec_str revision ++ [45] ++ dec_str auth ++ flat_map (fun x => [45] ++ dec_str x) subs.

(** ** The SRUM view of [AnalysisPage] *)

(** The widgets [_switch_right_panel_view] chooses between. *)
Inductive right_view := WebView | UsbView | RegistryView | SrumTabView | MemoryView
  | PlaceholderView.

(** A tab added by [display_srum_data]: its label, the record count of its
    info and status labels, the header labels and the cell texts. *)
Record srum_tab := SrumTab {
  tab_name : pystr;
  tab_records : nat;
  tab_headings : list pyval;
  tab_cells : list (list pystr) }.

(** The part of the page the SRUM slots change: the widget shown in the
    right panel, the placeholder text, the tabs of [srum_tab_widget] and the
    [QMessageBox.critical] boxes raised (title, text). *)
Record page := Page {
  shown_view : right_view;
  placeholder_text : pystr;
  srum_tabs : list srum_tab;
  critical_boxes : list (pystr * pystr) }.

Definition _switch_right_panel_view (p : page) (v : right_view) : page :=
  {| shown_view := v; placeholder_text := placeholder_text p; srum_tabs := srum_tabs p;
     critical_boxes := critical_boxes p |}.

Definition set_placeholder_text (p : page) (s : pystr) : page :=
  {| shown_view := shown_view p; placeholder_text := s; srum_tabs := srum_tabs p;
     critical_boxes := critical_boxes p |}.

Definition set_srum_tabs (p : page) (tabs : list srum_tab) : page :=
  {| shown_view := shown_view p; placeholder_text := placeholder_text p; srum_tabs := tabs;
     critical_boxes := critical_boxes p |}.

Definition critical (p : page) (title text : pystr) : page :=
  {| shown_view := shown_view p; placeholder_text := placeholder_text p; srum_tabs := srum_tabs p;
     critical_boxes := critical_boxes p ++ [(title, text)] |}.

(** The dict [SrumAnalysisThread.run] emits. *)
Inductive srum_result :=
| SrumSuccess (data : output_t) (message : pystr)
| SrumError (message : pystr).

Definition srum_thread_run (r : res (output_t * pystr)) : srum_result :=
  match r with
  | Ok (data, message) => SrumSuccess data message
  | Raise e => SrumError (exn_msg e)
  end.

(** [type(v).__name__] as error messages print it. *)
Definition py_type_name (v : pyval) : pystr :=
  match v with
  | PNone => lit "NoneType"
  | PBool _ => lit "bool"
  | PInt _ => lit "int"
  | PFloat _ => lit "float"
  | PStr _ => lit "str"
  | PDatetime _ => lit "datetime.datetime"
  end.

Section SrumView.
Context `{EX : Externals}.

(** [QTableWidget.setHorizontalHeaderLabels(headings)]: PyQt5 converts the
    list to a [QStringList] item by item and raises TypeError at the first
    item that is not a [str] ([None] included). *)
Fixpoint header_labels_from (i : Z) (headings : list pyval) : res unit :=
  match headings with
  | [] => Ok tt
  | PStr _ :: rest => header_labels_from (i + 1) rest
  | v :: _ => Raise (Exn TypeError (lit "index " ++ dec_str i ++ lit " has type '"
                                    ++ py_type_name v ++ lit "' but 'str' is expected"))
  end.

Definition setHorizontalHeaderLabels (headings : list pyval) : res unit :=
  header_labels_from 0 headings.

Definition is_pystr (v : pyval) : bool :=
  match v with PStr _ => true | _ => false end.

(** A table [display_srum_data] shows has only [str] header labels. *)
Definition header_row_ok (table_data : list (list pyval)) : Prop :=
  (2 <= List.length table_data)%nat -> Forall (fun v => is_pystr v = true) (hd [] table_data).

(** One iteration of the loop of [display_srum_data]: [None] for a table it
    skips, the tab it adds otherwise. *)
Definition srum_tab_of (tname : pystr) (table_data : list (list pyval))
    : res (option srum_tab) :=
  match table_data with
  | [] => Ok None
  | headings :: rows =>
      if (List.length table_data <? 2)%nat then Ok None
      else
        let* _ := setHorizontalHeaderLabels headings in
        Ok (Some {| tab_name := tname; tab_records := List.length table_data - 1;
                    tab_headings := headings; tab_cells := map (map py_str) rows |})
  end.

(** [for tname, table_data in all_tables_data.items(): ...; addTab(tab, tname)] *)
Fixpoint display_tables (p : page) (tables : output_t) : res page :=
  match tables with
  | [] => Ok p
  | (tname, table_data) :: rest =>
      let* tab := srum_tab_of tname table_data in
      match tab with
      | Some tb => display_tables (set_srum_tabs p (srum_tabs p ++ [tb])) rest
      | None => display_tables p rest
      end
  end.

Definition display_srum_data (p : page) (all_tables_data : output_t) : res page :=
  let p := set_srum_tabs p [] in
  match all_tables_data with
  | [] => Ok (_switch_right_panel_view
                (set_placeholder_text p (lit "No data found in SRUM database.")) PlaceholderView)
  | _ => display_tables p all_tables_data
  end.

(** An exception ends the slot: the rest of its body does not run. *)
Definition on_srum_analysis_finished (p : page) (result : srum_result) : res page :=
  match result with
  | SrumSuccess data _ =>
      let* p := display_srum_data p data in
      Ok (_switch_right_panel_view p SrumTabView)
  | SrumError message =>
      let p := _switch_right_panel_view
                 (set_placeholder_text p (lit "SRUM Analysis Error: " ++ message)) PlaceholderView in
      Ok (critical p (lit "SRUM Analysis Failed") message)
  end.
End SrumView.

(** [needle in hay] on [str] *)
Fixpoint str_contains (needle hay : pystr) : bool :=
  starts_with hay needle || match hay with [] => false | _ :: hay' => str_contains needle hay' end.

(** A [QTableWidget]: its column count and, per row, the item of each column. *)
Record table_widget := TableWidget {
  column_count : nat;
  table_items : list (list (option pystr)) }.

Section SrumFilter.
Context `{EX : Externals}.

(** The inner loop of [filter_srum_table] ([break] at the first match). *)
Definition row_visible (search_text : pystr) (cols : nat) (row : list (option pystr)) : bool :=
  existsb (fun col => match nth col row None with
                      | Some text => str_contains search_text (str_lower text)
                      | None => false
                      end) (seq 0 cols).

(** The [setRowHidden] flag of each row, and the status label text. *)
Definition filter_srum_table (table : table_widget) (search_text : pystr) : list bool * pystr :=
  let search_text := str_lower search_text in
  let hidden := map (fun row => negb (row_visible search_text (column_count table) row))
                  (table_items table) in
  let visible_count := List.length (filter negb hidden) in
  (hidden, lit "Showing " ++ dec_str (Z.of_nat visible_count) ++ lit " of "
           ++ dec_str (Z.of_nat (List.length (table_items table))) ++ lit " records").
End SrumFilter.

(** ** The USB view of [AnalysisPage] ([apply_usb_filters]) *)

(** A device dict of [get_usb_devices]. *)
Definition usb_device := dict pystr pyval.

Fixpoint lex_ltb (a b : list Z) : bool :=
  match a, b with
  | x :: a', y :: b' => (x <? y) || ((x =? y) && lex_ltb a' b')
  | _, _ => false
  end.

(** [<] on naive [datetime]s *)
Definition dt_ltb (d e : datetime) : bool :=
  lex_ltb [dt_year d; dt_month d; dt_day d; dt_hour d; dt_minute d; dt_second d; dt_microsecond d]
          [dt_year e; dt_month e; dt_day e; dt_hour e; dt_minute e; dt_second e; dt_microsecond e].

(** The [time_delta] of the time filter, in days. *)
Definition usb_time_delta (time_filter : pystr) : option Z :=
  if pystr_eqb time_filter (lit "Last 7 Days") then Some 7
  else if pystr_eqb time_filter (lit "Last 30 Days") then Some 30
  else if pystr_eqb time_filter (lit "Last 90 Days") then Some 90
  else if pystr_eqb time_filter (lit "Last Year") then Some 365
  else None.

Definition datetime_obj_key : pystr := lit "datetime_obj".

(** [cutoff_time and (not device.get("datetime_obj") or device["datetime_obj"] < cutoff_time)] *)
Definition usb_time_skip (cutoff_time : option datetime) (device : usb_device) : res bool :=
  match cutoff_time with
  | None => Ok false
  | Some cutoff =>
      match dict_get pystr_eqb datetime_obj_key device with
      | None => Ok true
      | Some v =>
          if negb (py_truthy v) then Ok true
          else match v with
               | PDatetime d => Ok (dt_ltb d cutoff)
               | _ => Raise (Exn TypeError (lit "'<' not supported between instances of '"
                                            ++ py_type_name v ++ lit "' and 'datetime.datetime'"))
               end
      end
  end.

Section UsbFilters.
Context `{EX : Externals}.

(** [any(search_term in str(value).lower() for value in device.values())] *)
Definition usb_search_match (search_term : pystr) (device : usb_device) : bool :=
  existsb (fun kv => str_contains search_term (str_lower (py_str (snd kv)))) device.

Fixpoint usb_filter_loop (search_term : pystr) (cutoff_time : option datetime)
    (devices : list usb_device) : res (list usb_device) :=
  match devices with
  | [] => Ok []
  | device :: rest =>
      let* skip := usb_time_skip cutoff_time device in
      if skip then usb_filter_loop search_term cutoff_time rest
      else if match search_term with [] => false | _ => true end
              && negb (usb_search_match search_term device)
      then usb_filter_loop search_term cutoff_time rest
      else
        let* filtered := usb_filter_loop search_term cutoff_time rest in
        Ok (device :: filtered)
  end.

(** [None] for the early [return]; otherwise the list given to
    [display_usb_data]. [now] is [datetime.utcnow()] and [sub_days d n] is
    [d - timedelta(days=n)]. *)
Definition apply_usb_filters (now : datetime) (sub_days : datetime -> Z -> datetime)
    (usb_devices : list usb_device) (search_text time_filter : pystr)
    : res (option (list usb_device)) :=
  match usb_devices with
  | [] => Ok None
  | _ =>
      let search_term := str_lower search_text in
      let cutoff_time := match usb_time_delta time_filter with
                         | Some n => Some (sub_days now n)
                         | None => None
                         end in
      let* filtered_devices := usb_filter_loop search_term cutoff_time usb_devices in
      Ok (Some filtered_devices)
  end.

(** The test a device passes to be displayed. *)
Definition usb_keep (search_term : pystr) (cutoff_time : option datetime) (device : usb_device)
    : bool :=
  match usb_time_skip cutoff_time device with
  | Ok false => negb (match search_term with [] => false | _ => true end
                      && negb (usb_search_match search_term device))
  | _ => false
  end.
End UsbFilters.

(** ** Concrete inputs *)

(** A GUID column whose cell holds 3 bytes instead of 16. *)
Definition guid_table : ese_table :=
  EseTable (lit "T") [Column (lit "g") GUID] (Some 1) [Some [Some [1; 2; 3]]].

Definition guid_error : exn := Exn ValueError (lit "bytes is not a 16-char string").

(** A table of two records, the first of which cannot be fetched. *)
Definition two_rec_table : ese_table :=
  EseTable (lit "T") [Column (lit "c") INTEGER_32BIT_SIGNED] (Some 2)
    [None; Some [Some [5; 0; 0; 0]]].

(** A skip-listed table, a table without records and [two_rec_table]. *)
Definition demo_db : ese_db :=
  EseDb [EseTable (lit "MSysObjects") [] (Some 1) [Some []];
         EseTable (lit "E") [] (Some 0) [];
         two_rec_table].

(** An ID-map table with one record: blob "ab" in UTF-16LE, type 0, index 7. *)
Definition idmap_full : ese_table :=
  EseTable (lit "SruDbIdMapTable")
    [Column (lit "IdBlob") BINARY_DATA; Column (lit "IdType") INTEGER_32BIT_SIGNED;
     Column (lit "IdIndex") INTEGER_32BIT_SIGNED]
    (Some 1) [Some [Some [97; 0; 98; 0; 0; 0]; Some [0; 0; 0; 0]; Some [7; 0; 0; 0]]].

(** An ID-map table without the 'IdBlob' column. *)
Definition idmap_no_blob : ese_table :=
  EseTable (lit "SruDbIdMapTable")
    [Column (lit "IdType") INTEGER_32BIT_SIGNED; Column (lit "IdIndex") INTEGER_32BIT_SIGNED]
    (Some 1) [Some [Some [3; 0; 0; 0]; Some [1; 0; 0; 0]]].

(** A workbook with one lookup sheet whose title has two dashes. *)
Definition lookup_wb : workbook :=
  Workbook [Sheet (lit "lookup-LUID-Interfaces") [[PStr (lit "a"); PStr (lit "b")]] []].

Definition lookup_wb_tables : template_lookups_t :=
  [(lit "LUID", [(PStr (lit "a"), PStr (lit "b"))])].

(** A lookup sheet whose rows 1 and 2 have equal keys ([1 == 1.0]). *)
Definition dup_lookup_sheet : sheet :=
  Sheet (lit "Lookup-Apps")
    [[PInt 1; PStr (lit "x")]; [PFloat (FFinite false 1 0); PStr (lit "y")];
     [PNone; PStr (lit "z")]] [].

Definition dup_lookup_wb : workbook := Workbook [dup_lookup_sheet].

Definition sid_hex : pystr := lit "010200000000000515000000e8030000".

(** One record with a cell of each kind the decoder tells apart. *)
Definition cells_table : ese_table :=
  EseTable (lit "Cells")
    [Column (lit "Bin") BINARY_DATA; Column (lit "Num") INTEGER_32BIT_SIGNED;
     Column (lit "Flag") BOOLEAN; Column (lit "Id") GUID; Column (lit "Name") TEXT]
    (Some 1)
    [Some [Some [222; 173]; Some [251; 255; 255; 255]; Some [1; 0];
           Some [0; 17; 34; 51; 68; 85; 102; 119; 136; 153; 170; 187; 204; 221; 238; 255];
           Some (lit "Error")]].

(** A template workbook with one table sheet of two fields. *)
Definition table_wb : workbook :=
  Workbook [Sheet (lit "App Usage")
              [[PStr (lit "{D10CA2FE-6FCF-4F6D-848E-B2E99266FA89}")];
               [PStr (lit "AppId"); PStr (lit "BytesSent")];
               [PStr (lit "lookup_id"); PNone];
               [PStr (lit "Application"); PNone]] []].

(** An analyzer whose registry named one SID. *)
Definition sid_analyzer : analyzer :=
  {| template_tables := []; template_lookups := []; id_table := []; interface_table := [];
     regsids := [(PStr (lit "S-1-5-18"), PStr (lit "SYSTEM"))]; has_reg_hive := true |}.

Definition demo_devices : list usb_device :=
  [[(lit "Description", PStr (lit "SanDisk Cruzer")); (lit "Connected", PStr (lit "Yes"));
    (lit "datetime_obj", PDatetime (DT 2024 5 15 10 0 0 0))];
   [(lit "Description", PStr (lit "Kingston DataTraveler")); (lit "Connected", PStr (lit "No"));
    (lit "datetime_obj", PNone)]].

Definition demo_now : datetime := DT 2024 5 20 12 0 0 0.

(** [d - timedelta(days=n)] inside one month, as for [demo_now] and a week. *)
Definition demo_sub_days (d : datetime) (n : Z) : datetime :=
  {| dt_year := dt_year d; dt_month := dt_month d; dt_day := dt_day d - n;
     dt_hour := dt_hour d; dt_minute := dt_minute d; dt_second := dt_second d;
     dt_microsecond := dt_microsecond d |}.

(** * Properties *)

(** ** OLE timestamps *)

Section FloatFacts.

Local Notation "'q2' e" := (Qpower (2#1) e) (at level 10, e at level 9).

Lemma q2_pos e : (0 < q2 e)%Q.
Proof. apply Qpower_0_lt. reflexivity. Qed.

Lemma q2_plus a b : (q2 (a + b) == q2 a * q2 b)%Q.
Proof. apply Qpower_plus. discriminate. Qed.

Lemma q2_Z k : 0 <= k -> (inject_Z (2 ^ k) == q2 k)%Q.
Proof. intros H. apply Zpower_Qpower. exact H. Qed.

Lemma q2_mono a b : a <= b -> (q2 a <= q2 b)%Q.
Proof. intros H. apply Qpower_le_compat_l; [exact H|]. unfold Qle; simpl; lia. Qed.

Lemma q2_ratio s : (inject_Z (2 ^ Z.max s 0) / inject_Z (2 ^ Z.max (- s) 0) == q2 s)%Q.
Proof.
  pose proof (q2_pos s) as Hp.
  destruct (Z.le_ge_cases 0 s) as [H|H].
  - rewrite Z.max_l, Z.max_r by lia. rewrite Z.pow_0_r, q2_Z by lia. field.
  - rewrite Z.max_r, Z.max_l by lia. rewrite Z.pow_0_r, q2_Z by lia.
    rewrite Qpower_opp. field. intros E. rewrite E in Hp. discriminate.
Qed.

Lemma fval_finite (neg : bool) m e :
  (fval (FFinite neg m e) == inject_Z (if neg then - m else m) * q2 e)%Q.
Proof.
  unfold fval, float_frac. cbn [fst snd]. rewrite inject_Z_mult, <- q2_ratio.
  assert (H : ~ inject_Z (2 ^ Z.max (- e) 0) == 0%Q).
  { rewrite q2_Z by lia. pose proof (q2_pos (Z.max (- e) 0)) as Hp. intros E. rewrite E in Hp. discriminate. }
  field. exact H.
Qed.

Lemma Qabs_inject_Z z : (Qabs (inject_Z z) == inject_Z (Z.abs z))%Q.
Proof.
  destruct (Z.le_ge_cases 0 z) as [H|H].
  - rewrite Z.abs_eq by lia. apply Qabs_pos. change 0%Q with (inject_Z 0).
    rewrite <- Zle_Qle. exact H.
  - rewrite Z.abs_neq by lia. rewrite Qabs_neg. rewrite inject_Z_opp. reflexivity.
    change 0%Q with (inject_Z 0). rewrite <- Zle_Qle. exact H.
Qed.

Lemma scale_bound (w c P : Q) : (0 < P)%Q -> (Qabs (w * P) <= c * P)%Q -> (Qabs w <= c)%Q.
Proof.
  intros HP H. rewrite Qabs_Qmult, (Qabs_pos P) in H by lra.
  apply Qmult_le_r in H; [exact H|exact HP].
Qed.

Lemma round_div_ne_spec a b :
  0 <= a -> 0 < b -> 2 * Z.abs (round_div_ne a b * b - a) <= b /\ 0 <= round_div_ne a b.
Proof.
  intros Ha Hb. unfold round_div_ne.
  pose proof (Z.div_mod a b ltac:(lia)) as Hd. pose proof (Z.mod_pos_bound a b Hb) as Hr.
  pose proof (Z.div_pos a b Ha Hb) as Hq.
  set (q := a / b) in *. set (r := a mod b) in *.
  destruct (2 * r <? b) eqn:E1; [apply Z.ltb_lt in E1; split; nia|apply Z.ltb_ge in E1].
  destruct (b <? 2 * r) eqn:E2; [apply Z.ltb_lt in E2; split; nia|apply Z.ltb_ge in E2].
  destruct (Z.even q); split; nia.
Qed.

Lemma log2_lower num den :
  0 < num -> 0 < den -> (q2 (Z.log2 num - Z.log2 den - 1) * inject_Z den <= inject_Z num)%Q.
Proof.
  intros Hn Hd.
  destruct (Z.log2_spec num Hn) as [Hn1 _]. destruct (Z.log2_spec den Hd) as [_ Hd2].
  pose proof (Z.log2_nonneg num). pose proof (Z.log2_nonneg den).
  pose proof (q2_pos (Z.log2 num - Z.log2 den - 1)) as Hp.
  apply Qle_trans with (q2 (Z.log2 num - Z.log2 den - 1) * q2 (Z.succ (Z.log2 den)))%Q.
  - apply Qmult_le_l; [exact Hp|]. rewrite <- q2_Z by lia. rewrite <- Zle_Qle. lia.
  - rewrite <- q2_plus. replace (Z.log2 num - Z.log2 den - 1 + Z.succ (Z.log2 den)) with (Z.log2 num) by lia.
    rewrite <- q2_Z by lia. rewrite <- Zle_Qle. exact Hn1.
Qed.

Lemma qlog2_lower num den :
  0 < num -> 0 < den -> (q2 (qlog2 num den) * inject_Z den <= inject_Z num)%Q.
Proof.
  intros Hn Hd. unfold qlog2.
  set (g := Z.log2 num - Z.log2 den).
  destruct (0 <=? g) eqn:Hg.
  - apply Z.leb_le in Hg. destruct (den * 2 ^ g <=? num) eqn:Hc.
    + apply Z.leb_le in Hc. rewrite <- q2_Z by lia. rewrite <- inject_Z_mult, <- Zle_Qle. lia.
    + apply log2_lower; assumption.
  - apply Z.leb_gt in Hg. destruct (den <=? num * 2 ^ (- g)) eqn:Hc.
    + apply Z.leb_le in Hc.
      assert (E : (q2 g == / q2 (- g))%Q) by (rewrite <- Qpower_opp, Z.opp_involutive; reflexivity).
      rewrite E. rewrite <- q2_Z by lia. rewrite Zle_Qle, inject_Z_mult in Hc.
      pose proof (q2_pos (- g)) as Hp. rewrite <- q2_Z in Hp by lia.
      apply Qle_shift_div_r in Hc; [|exact Hp].
      rewrite Qmult_comm. exact Hc.
    + apply log2_lower; assumption.
Qed.

Lemma inject_Z_pos z : 0 < z -> (0 < inject_Z z)%Q.
Proof. intros H. change 0%Q with (inject_Z 0). rewrite <- Zlt_Qlt. exact H. Qed.

Lemma inject_Z_nonneg z : 0 <= z -> (0 <= inject_Z z)%Q.
Proof. intros H. change 0%Q with (inject_Z 0). rewrite <- Zle_Qle. exact H. Qed.

Lemma binary64_round_fin neg num den :
  0 <= num -> 0 < den -> (inject_Z num < inject_Z den * q2 1000)%Q ->
  exists m e, binary64_round neg num den = FFinite neg m e /\ 0 <= m /\
    (Qabs (inject_Z m * q2 e - inject_Z num / inject_Z den)
     <= (inject_Z num / inject_Z den + 1) * (1 # 9007199254740992))%Q.
Proof.
  intros Hn Hd Hbig. unfold binary64_round.
  pose proof (inject_Z_pos den Hd) as Hd'.
  assert (Hdnz : ~ (inject_Z den == 0)%Q) by (intros E; rewrite E in Hd'; discriminate).
  assert (Hv0 : (0 <= inject_Z num / inject_Z den)%Q).
  { apply Qle_shift_div_l; [exact Hd'|]. rewrite Qmult_0_l. apply inject_Z_nonneg. exact Hn. }
  destruct (Z.eqb_spec num 0) as [->|Hn0].
  - exists 0, (-1074). split; [reflexivity|]. split; [lia|].
    assert (E : (inject_Z 0 * q2 (-1074) - inject_Z 0 / inject_Z den == 0)%Q) by (field; exact Hdnz).
    rewrite E. cbn [Qabs Z.abs]. lra.
  - set (q := qlog2 num den). set (e := Z.max (q - 52) (-1074)).
    pose proof (qlog2_lower num den ltac:(lia) Hd) as Hq. fold q in Hq.
    assert (Hq1000 : q < 1000).
    { destruct (Z.lt_ge_cases q 1000) as [H|H]; [exact H|exfalso].
      pose proof (q2_mono _ _ H) as Hm.
      apply (Qmult_le_compat_r _ _ (inject_Z den)) in Hm; [|lra].
      rewrite (Qmult_comm (inject_Z den)) in Hbig. lra. }
    set (a := num * 2 ^ (- Z.min e 0)). set (b := den * 2 ^ Z.max e 0).
    assert (Ha : 0 <= a) by (unfold a; apply Z.mul_nonneg_nonneg; [lia|apply Z.pow_nonneg; lia]).
    assert (Hb : 0 < b) by (unfold b; apply Z.mul_pos_pos; [lia|apply Z.pow_pos_nonneg; lia]).
    destruct (round_div_ne_spec a b Ha Hb) as [Hr Hm0].
    set (m0 := round_div_ne a b) in *.
    assert (Herr : (Qabs (inject_Z m0 * q2 e - inject_Z num / inject_Z den) <= q2 e * (1#2))%Q).
    { set (K := q2 (- Z.min e 0)). set (M := q2 (Z.max e 0)).
      assert (HK : (0 < K)%Q) by apply q2_pos. assert (HM : (0 < M)%Q) by apply q2_pos.
      assert (HeKM : (q2 e * K == M)%Q).
      { unfold K, M. rewrite <- q2_plus. replace (e + - Z.min e 0) with (Z.max e 0) by lia. reflexivity. }
      assert (HA : (inject_Z a == inject_Z num * K)%Q) by (unfold a, K; rewrite inject_Z_mult, q2_Z by lia; reflexivity).
      assert (HB : (inject_Z b == inject_Z den * M)%Q) by (unfold b, M; rewrite inject_Z_mult, q2_Z by lia; reflexivity).
      apply (scale_bound _ _ (inject_Z den * K)); [apply Qmult_lt_0_compat; assumption|].
      assert (E : ((inject_Z m0 * q2 e - inject_Z num / inject_Z den) * (inject_Z den * K)
                   == inject_Z (m0 * b - a))%Q).
      { unfold Z.sub. rewrite inject_Z_plus, inject_Z_opp, inject_Z_mult, HA, HB, <- HeKM.
        field. exact Hdnz. }
      rewrite E, Qabs_inject_Z.
      assert (E2 : (q2 e * (1#2) * (inject_Z den * K) == inject_Z b * (1#2))%Q)
        by (rewrite HB, <- HeKM; ring).
      rewrite E2. rewrite Zle_Qle, inject_Z_mult in Hr. change (inject_Z 2) with (2#1)%Q in Hr. lra. }
    assert (Hbound : (q2 e * (1#2) <= (inject_Z num / inject_Z den + 1) * (1 # 9007199254740992))%Q).
    { unfold e. destruct (Z.le_ge_cases (-1074) (q - 52)) as [H|H].
      - rewrite Z.max_l by lia. unfold Z.sub. rewrite q2_plus.
        assert (Hqv : (q2 q <= inject_Z num / inject_Z den)%Q) by (apply Qle_shift_div_l; [exact Hd'|exact Hq]).
        assert (E52 : (q2 (-52) == 1 # 4503599627370496)%Q) by reflexivity.
        rewrite E52. pose proof (q2_pos q). lra.
      - rewrite Z.max_r by lia.
        assert (E : (q2 (-1074) <= 1 # 4503599627370496)%Q) by (vm_compute; discriminate).
        lra. }
    assert (He947 : e <= 947) by (unfold e; lia).
    destruct (Z.eqb_spec m0 (2 ^ 53)) as [Hm53|Hm53]; cbn [fst snd].
    + destruct (Z.ltb_spec 971 (e + 1)) as [Hlt|_]; [lia|].
      exists (2 ^ 52), (e + 1). split; [reflexivity|]. split; [lia|].
      assert (E : (inject_Z (2 ^ 52) * q2 (e + 1) == inject_Z m0 * q2 e)%Q).
      { rewrite Hm53, q2_plus, !q2_Z by lia.
        replace 53 with (52 + 1) by lia. rewrite q2_plus. ring. }
      rewrite E. eapply Qle_trans; [exact Herr|exact Hbound].
    + destruct (Z.ltb_spec 971 e) as [Hlt|_]; [lia|].
      exists m0, e. split; [reflexivity|]. split; [exact Hm0|].
      eapply Qle_trans; [exact Herr|exact Hbound].
Qed.

Lemma q2_nz e : ~ (q2 e == 0)%Q.
Proof. pose proof (q2_pos e) as H. intros E. rewrite E in H. discriminate. Qed.

Lemma float_mul_fin m e n f :
  0 <= m -> 0 <= n ->
  (inject_Z m * q2 e * (inject_Z n * q2 f) < q2 1000)%Q ->
  exists m' e', float_mul (FFinite false m e) (FFinite false n f) = FFinite false m' e' /\ 0 <= m' /\
    (Qabs (inject_Z m' * q2 e' - inject_Z m * q2 e * (inject_Z n * q2 f))
     <= (inject_Z m * q2 e * (inject_Z n * q2 f) + 1) * (1 # 9007199254740992))%Q.
Proof.
  intros Hm Hn Hlt. unfold float_mul. cbn [xorb].
  set (num := m * n * 2 ^ Z.max (e + f) 0). set (den := 2 ^ Z.max (- (e + f)) 0).
  assert (Hden : 0 < den) by (unfold den; apply Z.pow_pos_nonneg; lia).
  pose proof (inject_Z_pos den Hden) as Hden'.
  assert (Hv : (inject_Z num / inject_Z den == inject_Z m * q2 e * (inject_Z n * q2 f))%Q).
  { unfold num, den. rewrite !inject_Z_mult.
    assert (E : (inject_Z m * inject_Z n * inject_Z (2 ^ Z.max (e + f) 0) / inject_Z (2 ^ Z.max (- (e + f)) 0)
                 == inject_Z m * inject_Z n * (inject_Z (2 ^ Z.max (e + f) 0) / inject_Z (2 ^ Z.max (- (e + f)) 0)))%Q).
    { field. intros E. fold den in E. rewrite E in Hden'. discriminate. }
    rewrite E, q2_ratio, q2_plus. ring. }
  destruct (binary64_round_fin false num den) as (m' & e' & Hr & Hm' & Herr).
  - unfold num. apply Z.mul_nonneg_nonneg; [nia|apply Z.pow_nonneg; lia].
  - exact Hden.
  - assert (E : (inject_Z num == inject_Z num / inject_Z den * inject_Z den)%Q).
    { field. intros E. rewrite E in Hden'. discriminate. }
    rewrite E, Hv, Qmult_comm. apply Qmult_lt_l; [exact Hden'|exact Hlt].
  - exists m', e'. split; [exact Hr|]. split; [exact Hm'|]. rewrite <- Hv. exact Herr.
Qed.

Lemma float_modf_fin m e :
  0 <= m ->
  exists i r e', float_modf (FFinite false m e) = Ok (i, FFinite false r e') /\ 0 <= i /\ 0 <= r /\
    (inject_Z i + inject_Z r * q2 e' == inject_Z m * q2 e)%Q /\ (inject_Z r * q2 e' < 1)%Q.
Proof.
  intros Hm. unfold float_modf. destruct (Z.leb_spec 0 e) as [He|He].
  - exists (m * 2 ^ e), 0, (-1074). split; [reflexivity|].
    split; [apply Z.mul_nonneg_nonneg; [lia|apply Z.pow_nonneg; lia]|]. split; [lia|].
    split; [rewrite inject_Z_mult, q2_Z by lia; ring|].
    rewrite Qmult_0_l. reflexivity.
  - set (P := 2 ^ (- e)). assert (HP : 0 < P) by (unfold P; apply Z.pow_pos_nonneg; lia).
    exists (m / P), (m mod P), e. split; [reflexivity|].
    split; [apply Z.div_pos; lia|]. pose proof (Z.mod_pos_bound m P HP) as Hb.
    split; [lia|].
    assert (HPq : (inject_Z P * q2 e == 1)%Q).
    { unfold P. rewrite q2_Z by lia. rewrite <- q2_plus. replace (- e + e) with 0 by lia. reflexivity. }
    pose proof (q2_pos e) as He'.
    split.
    + rewrite (Z.div_mod m P) at 3 by lia. rewrite inject_Z_plus, inject_Z_mult.
      transitivity (inject_Z (m / P) * (inject_Z P * q2 e) + inject_Z (m mod P) * q2 e)%Q; [|ring].
      rewrite HPq. ring.
    + rewrite <- HPq. apply Qmult_lt_r; [exact He'|]. rewrite <- Zlt_Qlt. lia.
Qed.

Lemma c_round_nonneg n d : 0 <= n -> 0 < d -> 0 <= c_round n d.
Proof. intros Hn Hd. unfold c_round. destruct (Z.leb_spec 0 n); [apply Z.div_pos; lia|lia]. Qed.

Lemma c_round_spec n d : 0 <= n -> 0 < d -> 2 * Z.abs (c_round n d * d - n) <= d.
Proof.
  intros Hn Hd. unfold c_round. destruct (Z.leb_spec 0 n) as [_|]; [|lia].
  pose proof (Z.div_mod (2 * n + d) (2 * d) ltac:(lia)) as E.
  pose proof (Z.mod_pos_bound (2 * n + d) (2 * d) ltac:(lia)).
  set (q := (2 * n + d) / (2 * d)) in *. set (r := (2 * n + d) mod (2 * d)) in *.
  nia.
Qed.

Lemma round_leftover_Z x n d :
  0 <= n -> 0 < d ->
  let w := (let whole_us := c_round n d in
            if Z.abs (2 * (whole_us * d - n)) =? d then
              let x_is_odd := Z.land x 1 in 2 * c_round (n + x_is_odd * d) (2 * d) - x_is_odd
            else whole_us) in
  0 <= w /\ 2 * Z.abs (w * d - n) <= d.
Proof.
  intros Hn Hd w. unfold w. clear w.
  pose proof (c_round_nonneg n d Hn Hd). pose proof (c_round_spec n d Hn Hd).
  set (w0 := c_round n d) in *.
  destruct (Z.eqb_spec (Z.abs (2 * (w0 * d - n))) d) as [Ht|Ht]; [|split; lia].
  assert (Hod : Z.land x 1 = x mod 2) by (apply (Z.land_ones x 1); lia).
  pose proof (Z.mod_pos_bound x 2 ltac:(lia)).
  set (od := Z.land x 1) in *.
  assert (HJ : exists J, 2 * n = J * d /\ 1 <= J /\ Z.odd J = true).
  { destruct (Z.abs_spec (2 * (w0 * d - n))) as [[_ Ha]|[_ Ha]]; rewrite Ha in Ht.
    - exists (2 * w0 - 1). split; [lia|]. split; [nia|].
      rewrite Z.odd_sub, Z.odd_mul. reflexivity.
    - exists (2 * w0 + 1). split; [lia|]. split; [lia|].
      rewrite Z.odd_add, Z.odd_mul. reflexivity. }
  destruct HJ as (J & HnJ & HJ1 & HJodd).
  unfold c_round. destruct (Z.leb_spec 0 (n + od * d)) as [_|]; [|nia].
  pose proof (Z.div_mod (2 * (n + od * d) + 2 * d) (2 * (2 * d)) ltac:(lia)) as E.
  pose proof (Z.mod_pos_bound (2 * (n + od * d) + 2 * d) (2 * (2 * d)) ltac:(lia)).
  set (q := (2 * (n + od * d) + 2 * d) / (2 * (2 * d))) in *.
  set (r := (2 * (n + od * d) + 2 * d) mod (2 * (2 * d))) in *.
  set (j := J + 2 * od + 2).
  assert (Hj : (2 * (n + od * d) + 2 * d) = j * d) by (unfold j; lia).
  assert (Hb : 4 * q <= j < 4 * q + 4) by nia.
  assert (Hjodd : Z.odd j = true).
  { unfold j. rewrite Z.odd_add, Z.odd_add, HJodd, Z.odd_mul. reflexivity. }
  assert (Hjc : j = 4 * q + 1 \/ j = 4 * q + 3).
  { destruct (Z.eq_dec j (4 * q)) as [Ej|Ej].
    - rewrite Ej, Z.odd_mul in Hjodd. discriminate.
    - destruct (Z.eq_dec j (4 * q + 2)) as [Ej2|Ej2].
      + rewrite Ej2, Z.odd_add, Z.odd_mul in Hjodd. discriminate.
      + lia. }
  split.
  - unfold j in Hjc. lia.
  - destruct Hjc as [Ej|Ej]; nia.
Qed.

Lemma round_leftover_spec x r e :
  0 <= r ->
  0 <= round_leftover x (FFinite false r e) /\
  (Qabs (inject_Z (round_leftover x (FFinite false r e)) - inject_Z r * q2 e) <= 1 # 2)%Q.
Proof.
  intros Hr. unfold round_leftover, float_frac. cbn zeta.
  set (n := r * 2 ^ Z.max e 0). set (d := 2 ^ Z.max (- e) 0).
  assert (Hn : 0 <= n) by (unfold n; apply Z.mul_nonneg_nonneg; [lia|apply Z.pow_nonneg; lia]).
  assert (Hd : 0 < d) by (unfold d; apply Z.pow_pos_nonneg; lia).
  destruct (round_leftover_Z x n d Hn Hd) as [Hw0 Hw]. cbn zeta in Hw0, Hw.
  set (w := (if Z.abs (2 * (c_round n d * d - n)) =? d
             then 2 * c_round (n + Z.land x 1 * d) (2 * d) - Z.land x 1 else c_round n d)) in *.
  split; [exact Hw0|].
  assert (Hv : (inject_Z r * q2 e == inject_Z n / inject_Z d)%Q).
  { unfold n, d. rewrite inject_Z_mult, <- q2_ratio. field. rewrite q2_Z by lia. apply q2_nz. }
  rewrite Hv. pose proof (inject_Z_pos d Hd) as Hd'.
  apply (scale_bound _ _ (inject_Z d)); [exact Hd'|].
  assert (E : ((inject_Z w - inject_Z n / inject_Z d) * inject_Z d == inject_Z (w * d - n))%Q).
  { unfold Z.sub. rewrite inject_Z_plus, inject_Z_opp, inject_Z_mult. field.
    intros E. rewrite E in Hd'. discriminate. }
  rewrite E, Qabs_inject_Z. rewrite Zle_Qle, inject_Z_mult in Hw.
  change (inject_Z 2) with (2 # 1)%Q in Hw. lra.
Qed.

Lemma float_of_int_86400 : float_of_int 86400 = FFinite false 5937362789990400 (-36).
Proof. vm_compute. reflexivity. Qed.

Lemma float_of_int_1000000 : float_of_int 1000000 = FFinite false 8589934592000000 (-33).
Proof. vm_compute. reflexivity. Qed.

Lemma q2_86400 : (inject_Z 5937362789990400 * q2 (-36) == 86400)%Q.
Proof. reflexivity. Qed.

Lemma q2_1000000 : (inject_Z 8589934592000000 * q2 (-33) == 1000000)%Q.
Proof. reflexivity. Qed.

Lemma timedelta_ole days m1 e1 :
  0 <= m1 -> (inject_Z m1 * q2 e1 < 2)%Q ->
  exists t, 0 <= t /\
    (Qabs (inject_Z t - inject_Z us_per_day * (inject_Z m1 * q2 e1)) <= (1 # 2) + (1 # 10000))%Q /\
    timedelta_us days (float_mul (float_of_int 86400) (FFinite false m1 e1)) = td_result (days * us_per_day + t).
Proof.
  intros Hm1 Hf1. rewrite float_of_int_86400.
  set (f1 := (inject_Z m1 * q2 e1)%Q) in *.
  assert (Hf1p : (0 <= f1)%Q) by (unfold f1; apply Qmult_le_0_compat; [apply inject_Z_nonneg; exact Hm1|apply Qlt_le_weak, q2_pos]).
  destruct (float_mul_fin 5937362789990400 (-36) m1 e1) as (m2 & e2 & Hmul & Hm2 & Herr2);
    [lia|exact Hm1| |].
  { rewrite q2_86400. fold f1. assert (H1000 : (1000 <= q2 1000)%Q) by (vm_compute; discriminate). lra. }
  rewrite q2_86400 in Herr2. fold f1 in Herr2.
  unfold timedelta_us. rewrite Hmul.
  destruct (float_modf_fin m2 e2 Hm2) as (i & r & e' & Hmodf & Hi & Hr & Hsum & Hfr).
  rewrite Hmodf.
  assert (Hupd : (inject_Z us_per_day == 86400000000)%Q) by reflexivity.
  set (S := (inject_Z m2 * q2 e2)%Q) in *. set (FR := (inject_Z r * q2 e')%Q) in *.
  assert (HFR0 : (0 <= FR)%Q) by (unfold FR; apply Qmult_le_0_compat; [apply inject_Z_nonneg; exact Hr|apply Qlt_le_weak, q2_pos]).
  apply Qabs_Qle_condition in Herr2. 
  unfold float_is_zero at 1. destruct (Z.eqb_spec r 0) as [Hr0|Hr0].
  - cbn [bind fst snd float_is_zero Z.eqb]. exists (i * 1000000). split; [lia|]. split.
    + rewrite Hupd, inject_Z_mult. apply Qabs_Qle_condition.
      assert (HFRz : (FR == 0)%Q) by (unfold FR; rewrite Hr0; apply Qmult_0_l).
      change (inject_Z 1000000) with (1000000 # 1)%Q. split; lra.
    + unfold td_result. replace (i * 1000000 + days * us_per_day) with (days * us_per_day + i * 1000000) by lia.
      reflexivity.
  - rewrite float_of_int_1000000.
    destruct (float_mul_fin 8589934592000000 (-33) r e') as (m3 & e3 & Hmul3 & Hm3 & Herr3);
      [lia|exact Hr| |].
    { rewrite q2_1000000. fold FR. assert (H1000 : (1000000 <= q2 1000)%Q) by (vm_compute; discriminate). lra. }
    rewrite q2_1000000 in Herr3. fold FR in Herr3. rewrite Hmul3.
    destruct (float_modf_fin m3 e3 Hm3) as (i2 & r2 & e4 & Hmodf3 & Hi2 & Hr2 & Hsum3 & Hfr3).
    rewrite Hmodf3. cbn [bind fst snd float_is_zero].
    set (P := (inject_Z m3 * q2 e3)%Q) in *. set (F4 := (inject_Z r2 * q2 e4)%Q) in *.
    assert (HF40 : (0 <= F4)%Q) by (unfold F4; apply Qmult_le_0_compat; [apply inject_Z_nonneg; exact Hr2|apply Qlt_le_weak, q2_pos]).
    apply Qabs_Qle_condition in Herr3. 
    destruct (Z.eqb_spec r2 0) as [Hr20|Hr20].
    + exists (i * 1000000 + i2). split; [lia|]. split.
      * rewrite Hupd, inject_Z_plus, inject_Z_mult. apply Qabs_Qle_condition.
        assert (HF4z : (F4 == 0)%Q) by (unfold F4; rewrite Hr20; apply Qmult_0_l).
        change (inject_Z 1000000) with (1000000 # 1)%Q. split; lra.
      * unfold td_result. replace (i * 1000000 + i2 + days * us_per_day) with (days * us_per_day + (i * 1000000 + i2)) by lia.
        reflexivity.
    + destruct (round_leftover_spec (i * 1000000 + i2 + days * us_per_day) r2 e4 Hr2) as [Hw0 Hw].
      set (w := round_leftover (i * 1000000 + i2 + days * us_per_day) (FFinite false r2 e4)) in *.
      fold F4 in Hw. apply Qabs_Qle_condition in Hw.
      exists (i * 1000000 + i2 + w). split; [lia|]. split.
      * rewrite Hupd, !inject_Z_plus, inject_Z_mult. apply Qabs_Qle_condition.
        change (inject_Z 1000000) with (1000000 # 1)%Q. split; lra.
      * unfold td_result.
        replace (i * 1000000 + i2 + days * us_per_day + w) with (days * us_per_day + (i * 1000000 + i2 + w)) by lia.
        reflexivity.
Qed.

(** ** Strings of ASCII digits *)

Lemma split_on_nosep sep a : ~ In sep a -> split_on sep a = [a].
Proof.
  induction a as [|c a IH]; intros Hn; [reflexivity|]. cbn [split_on].
  destruct (Z.eqb_spec c sep) as [->|_]; [exfalso; apply Hn; left; reflexivity|].
  rewrite IH by (intros H; apply Hn; right; exact H). reflexivity.
Qed.

Lemma split_on_one sep a b :
  ~ In sep a -> ~ In sep b -> split_on sep (a ++ sep :: b) = [a; b].
Proof.
  intros Ha Hb. induction a as [|c a IH]; cbn [app split_on].
  - rewrite Z.eqb_refl, split_on_nosep by exact Hb. reflexivity.
  - destruct (Z.eqb_spec c sep) as [->|_]; [exfalso; apply Ha; left; reflexivity|].
    rewrite IH by (intros H; apply Ha; right; exact H). reflexivity.
Qed.

Lemma transform_ascii s : forallb (fun c => c <? 127) s = true -> transform_decimal_space s = s.
Proof.
  intros H. unfold transform_decimal_space. rewrite <- (map_id s) at 2. apply map_ext_in.
  intros c Hc. rewrite forallb_forall in H. rewrite (H c Hc). reflexivity.
Qed.

Lemma lstrip_space_id s : (match s with c :: _ => py_isspace c = false | [] => True end) -> lstrip_space s = s.
Proof. destruct s as [|c r]; [reflexivity|]. intros H. cbn [lstrip_space]. rewrite H. reflexivity. Qed.

Lemma strip_space_id s : forallb (fun c => negb (py_isspace c)) s = true -> strip_space s = s.
Proof.
  intros H. rewrite forallb_forall in H. unfold strip_space.
  assert (Hh : forall l, (forall c, In c l -> negb (py_isspace c) = true) ->
                (match l with c :: _ => py_isspace c = false | [] => True end)).
  { intros [|c l] Hl; [exact I|]. specialize (Hl c (or_introl eq_refl)). destruct (py_isspace c); [discriminate|reflexivity]. }
  rewrite (lstrip_space_id s) by (apply Hh; exact H).
  rewrite (lstrip_space_id (rev s)) by (apply Hh; intros c Hc; apply H; apply in_rev; exact Hc).
  apply rev_involutive.
Qed.

Lemma underscores_ok_no95 prev s :
  prev <> 95 -> ~ In 95 s -> underscores_ok prev s = true.
Proof.
  revert prev. induction s as [|c s IH]; intros prev Hp Hs; cbn [underscores_ok].
  - destruct (Z.eqb_spec prev 95); [contradiction|reflexivity].
  - destruct (Z.eqb_spec c 95) as [->|Hc]; [exfalso; apply Hs; left; reflexivity|].
    destruct (Z.eqb_spec prev 95); [contradiction|]. cbn [negb orb andb].
    apply IH; [exact Hc|intros H; apply Hs; right; exact H].
Qed.

Lemma span_digits_all s : forallb is_digit s = true -> span_digits s = (s, []).
Proof.
  induction s as [|c s IH]; intros H; [reflexivity|]. cbn [forallb] in H.
  apply andb_prop in H as [Hc Hs]. cbn [span_digits]. rewrite Hc, IH by exact Hs. reflexivity.
Qed.

Lemma digits_value_snoc l c : digits_value (l ++ [c]) = digits_value l * 10 + (c - 48).
Proof. unfold digits_value. rewrite fold_left_app. reflexivity. Qed.

Lemma digits_value_bounds ds :
  forallb is_digit ds = true -> 0 <= digits_value ds < 10 ^ Z.of_nat (List.length ds).
Proof.
  induction ds as [|c ds IH] using rev_ind; intros H; [cbn; lia|].
  rewrite forallb_app in H. apply andb_prop in H as [H1 H2]. cbn [forallb] in H2.
  rewrite andb_true_r in H2. unfold is_digit in H2. apply andb_prop in H2 as [Ha Hb].
  apply Z.leb_le in Ha. apply Z.leb_le in Hb. specialize (IH H1).
  rewrite digits_value_snoc, length_app, Nat2Z.inj_add, Z.pow_add_r by lia. cbn [List.length]. nia.
Qed.

Lemma digits_ascii ds : forallb is_digit ds = true -> forallb (fun c => c <? 127) ds = true.
Proof.
  rewrite !forallb_forall. intros H c Hc. specialize (H c Hc). unfold is_digit in H.
  apply andb_prop in H as [_ H]. apply Z.leb_le in H. apply Z.ltb_lt. lia.
Qed.

Lemma digits_nospace ds : forallb is_digit ds = true -> forallb (fun c => negb (py_isspace c)) ds = true.
Proof.
  rewrite !forallb_forall. intros H c Hc. specialize (H c Hc). unfold is_digit in H.
  apply andb_prop in H as [H1 H2]. apply Z.leb_le in H1. apply Z.leb_le in H2.
  unfold py_isspace. destruct (Z.leb_spec 9 c), (Z.leb_spec c 13), (Z.eqb_spec c 32); cbn; lia || reflexivity.
Qed.

Lemma digits_no95 ds : forallb is_digit ds = true -> ~ In 95 ds.
Proof.
  rewrite forallb_forall. intros H Hin. specialize (H 95 Hin). discriminate.
Qed.

Lemma py_int_of_str_digits (neg : bool) td :
  td <> [] -> forallb is_digit td = true -> (List.length td <= 4300)%nat ->
  py_int_of_str ((if neg then [45] else []) ++ td) =
  Ok (if neg then - digits_value td else digits_value td).
Proof.
  intros Hne Hd Hlen. unfold py_int_of_str.
  set (s := (if neg then [45] else []) ++ td).
  assert (Hs : forallb is_digit td = true) by exact Hd.
  rewrite transform_ascii, strip_space_id.
  2: { unfold s. rewrite forallb_app, (digits_nospace td Hd). destruct neg; reflexivity. }
  2: { unfold s. rewrite forallb_app, (digits_ascii td Hd). destruct neg; reflexivity. }
  destruct td as [|c r]; [contradiction|].
  assert (Hc : is_digit c = true) by (cbn [forallb] in Hd; apply andb_prop in Hd; apply Hd).
  assert (Hsg : sign_of s = (neg, c :: r)).
  { unfold s. destruct neg; [reflexivity|]. cbn [app sign_of].
    unfold is_digit in Hc. apply andb_prop in Hc as [H1 H2]. apply Z.leb_le in H1. apply Z.leb_le in H2.
    destruct (Z.eqb_spec c 45); [lia|]. destruct (Z.eqb_spec c 43); [lia|]. reflexivity. }
  rewrite Hsg. rewrite Hc, underscores_ok_no95 by (lia || exact (digits_no95 _ Hd)).
  assert (Hf : forallb (fun c => is_digit c || (c =? 95)) (c :: r) = true).
  { rewrite forallb_forall in Hd |- *. intros x Hx. rewrite (Hd x Hx). reflexivity. }
  rewrite Hf. cbn [andb].
  assert (Hfil : filter is_digit (c :: r) = c :: r).
  { apply forallb_filter_id. exact Hd. }
  rewrite Hfil. destruct (Z.ltb_spec 4300 (Z.of_nat (List.length (c :: r)))) as [Hl|_]; [lia|]. reflexivity.
Qed.

Lemma py_float_of_str_frac ts :
  ts <> [] -> forallb is_digit ts = true ->
  py_float_of_str (lit "0." ++ ts) =
  Ok (binary64_round false (digits_value ts) (10 ^ Z.of_nat (List.length ts))).
Proof.
  intros Hne Hd. unfold py_float_of_str.
  change (lit "0." ++ ts) with (48 :: 46 :: ts).
  rewrite transform_ascii, strip_space_id.
  2: { cbn [forallb]. rewrite digits_nospace by exact Hd. reflexivity. }
  2: { cbn [forallb]. rewrite digits_ascii by exact Hd. reflexivity. }
  rewrite underscores_ok_no95.
  2: lia.
  2: { intros [H|[H|H]]; [discriminate|discriminate|exact (digits_no95 _ Hd H)]. }
  cbn [negb].
  assert (Hfil : filter (fun c => negb (c =? 95)) (48 :: 46 :: ts) = 48 :: 46 :: ts).
  { apply forallb_filter_id. apply forallb_forall. rewrite forallb_forall in Hd.
    intros x [<-|[<-|Hx]]; [reflexivity|reflexivity|]. specialize (Hd x Hx). destruct (Z.eqb_spec x 95) as [->|]; [discriminate|reflexivity]. }
  rewrite Hfil. cbn [sign_of Z.eqb Pos.eqb].
  unfold parse_decimal. cbn [span_digits is_digit Z.leb]. cbn - [span_digits digits_value].
  rewrite span_digits_all by exact Hd.
  destruct ts as [|c r]; [contradiction|]. cbn [List.length Nat.add Nat.eqb].
  change (digits_value (48 :: c :: r)) with (digits_value (c :: r)).
  destruct (Z.eqb_spec (digits_value (c :: r)) 0) as [H0|H0].
  - rewrite H0. reflexivity.
  - destruct (Z.leb_spec 0 (- Z.of_nat (List.length (c :: r)))) as [Hl|_]; [cbn [List.length] in Hl; lia|].
    rewrite Z.opp_involutive. reflexivity.
Qed.

Lemma datetime_add_ole_epoch x :
  datetime_add ole_epoch x =
  (let ord := 693594 + x / us_per_day in
   let s := (x mod us_per_day) / 1000000 in
   if (1 <=? ord) && (ord <=? MAXORDINAL)
   then Ok (DT (fst (fst (ord_to_ymd ord))) (snd (fst (ord_to_ymd ord))) (snd (ord_to_ymd ord))
               (s / 3600) (s / 60 mod 60) (s mod 60) (x mod 1000000))
   else Raise (Exn OverflowError (lit "date value out of range"))).
Proof.
  unfold datetime_add, ole_epoch. cbn [dt_year dt_month dt_day dt_hour dt_minute dt_second dt_microsecond].
  assert (Hymd : ymd_to_ord 1899 12 1 = 693565) by reflexivity. rewrite Hymd.
  unfold us_per_day.
  pose proof (Z.mod_pos_bound x 86400000000 ltac:(lia)) as Hr.
  pose proof (Z.mod_pos_bound x 1000000 ltac:(lia)) as Hu.
  set (s := x mod 86400000000 / 1000000).
  assert (Hs : 0 <= s < 86400) by (unfold s; split; [apply Z.div_pos; lia|apply Z.div_lt_upper_bound; lia]).
  rewrite !Z.add_0_l. rewrite (Z.div_small (x mod 1000000) 1000000) by lia. rewrite Z.add_0_r.
  rewrite (Z.div_div s 60 60) by lia. change (60 * 60) with 3600.
  rewrite (Z.div_small (s / 3600) 24) by (split; [apply Z.div_pos; lia|apply Z.div_lt_upper_bound; lia]).
  rewrite (Z.mod_small (s / 3600) 24) by (split; [apply Z.div_pos; lia|apply Z.div_lt_upper_bound; lia]).
  rewrite Z.add_0_r, Z.mod_mod by lia.
  replace (693565 + (30 + x / 86400000000) - 1) with (693594 + x / 86400000000) by lia.
  reflexivity.
Qed.

Lemma ole_fraction_us days ts :
  ts <> [] -> forallb is_digit ts = true ->
  exists t, 0 <= t /\
    Z.abs (t * 10 ^ Z.of_nat (List.length ts) - us_per_day * digits_value ts) < 10 ^ Z.of_nat (List.length ts) /\
    (let* frac := py_float_of_str (lit "0." ++ ts) in
     timedelta_us days (float_mul (float_of_int 86400) frac)) = td_result (days * us_per_day + t).
Proof.
  intros Hne Hd. rewrite py_float_of_str_frac by assumption. cbn [bind].
  set (V := digits_value ts). set (D := 10 ^ Z.of_nat (List.length ts)).
  destruct (digits_value_bounds ts Hd) as [HV0 HV1]. fold V D in HV0, HV1.
  assert (HD : 0 < D) by (unfold D; apply Z.pow_pos_nonneg; lia).
  pose proof (inject_Z_pos D HD) as HD'.
  assert (HDnz : ~ (inject_Z D == 0)%Q) by (intros E; rewrite E in HD'; discriminate).
  set (v := (inject_Z V / inject_Z D)%Q).
  assert (Hv0 : (0 <= v)%Q) by (apply Qle_shift_div_l; [exact HD'|]; rewrite Qmult_0_l; apply inject_Z_nonneg; exact HV0).
  assert (Hv1 : (v < 1)%Q).
  { apply Qlt_shift_div_r; [exact HD'|]. rewrite Qmult_1_l, <- Zlt_Qlt. exact HV1. }
  destruct (binary64_round_fin false V D HV0 HD) as (m1 & e1 & Hr1 & Hm1 & Herr1).
  { assert (H1000 : (1 <= q2 1000)%Q) by (vm_compute; discriminate).
    apply Qlt_le_trans with (inject_Z D); [rewrite <- Zlt_Qlt; exact HV1|].
    rewrite <- (Qmult_1_r (inject_Z D)) at 1. apply Qmult_le_l; [exact HD'|exact H1000]. }
  fold v in Herr1. rewrite Hr1.
  set (f1 := (inject_Z m1 * q2 e1)%Q) in *.
  apply Qabs_Qle_condition in Herr1. 
  destruct (timedelta_ole days m1 e1 Hm1) as (t & Ht0 & Herr & Htd); [fold f1; lra|].
  fold f1 in Herr. exists t. split; [exact Ht0|]. split; [|exact Htd].
  assert (Hupd : (inject_Z us_per_day == 86400000000)%Q) by reflexivity.
  rewrite Hupd in Herr. apply Qabs_Qle_condition in Herr.
  assert (Hq : (Qabs (inject_Z t - 86400000000 * v) < 1)%Q).
  { apply Qabs_Qlt_condition. split; lra. }
  rewrite Zlt_Qlt, <- Qabs_inject_Z.
  assert (E : (inject_Z (t * D - us_per_day * V) == (inject_Z t - 86400000000 * v) * inject_Z D)%Q).
  { unfold v. unfold Z.sub. rewrite inject_Z_plus, inject_Z_opp, !inject_Z_mult, Hupd. field. exact HDnz. }
  rewrite E, Qabs_Qmult, (Qabs_pos (inject_Z D)) by lra.
  rewrite <- (Qmult_1_l (inject_Z D)) at 2. apply Qmult_lt_r; [exact HD'|exact Hq].
Qed.

Lemma bind_assoc {A B C} (m : res A) (f : A -> res B) (g : B -> res C) :
  bind (bind m f) g = bind m (fun a => bind (f a) g).
Proof. destruct m; reflexivity. Qed.

End FloatFacts.

Section OleSpec.
Context `{EX : Externals}.

Lemma ole_timestamp_try_split blob :
  List.length blob = 8%nat ->
  ole_timestamp_try blob =
  match split_on 46 (float_repr (float_of_bits64 (le_value blob))) with
  | [td; ts] =>
      let* days := py_int_of_str td in
      let* frac := py_float_of_str (lit "0." ++ ts) in
      let* us := timedelta_us days (float_mul (float_of_int 86400) frac) in
      datetime_add ole_epoch us
  | parts =>
      Raise (Exn ValueError (if (List.length parts <? 2)%nat
                             then lit "not enough values to unpack (expected 2, got 1)"
                             else lit "too many values to unpack (expected 2)"))
  end.
Proof. intros H. unfold ole_timestamp_try, unpack_le. rewrite H. reflexivity. Qed.

(** C5. [_ole_timestamp] never raises: a blob that is not 8 bytes long, or
    whose double's [str] does not split at ['.'] into exactly two parts,
    gives the text ["Invalid OLE Timestamp"], and the decoder returns what
    it returns.  When the [str] of the double is [[-]td.ts] with decimal
    digits [td] and [ts], the result is 1899-12-30 00:00:00 plus [int(td)]
    days plus [t] microseconds, [t] within one microsecond of
    [86400 * 0.ts] seconds ([timedelta]'s rounding to microseconds),
    or ["Invalid OLE Timestamp"] when that date lies outside [datetime]'s
    range (ordinal 693594 is 1899-12-30); the double 0.0, whose [str] is
    ["0.0"], gives 1899-12-30 00:00:00 exactly. *)
Theorem ole_timestamp_spec :
  (forall blob, List.length blob <> 8%nat -> _ole_timestamp blob = PStr (lit "Invalid OLE Timestamp")) /\
  (forall blob, List.length blob = 8%nat ->
     List.length (split_on 46 (float_repr (float_of_bits64 (le_value blob)))) <> 2%nat ->
     _ole_timestamp blob = PStr (lit "Invalid OLE Timestamp")) /\
  (forall blob, decode_typed DATE_TIME blob = Ok (Some (_ole_timestamp blob)) /\
     (_ole_timestamp blob = PStr (lit "Invalid OLE Timestamp") \/ exists dt, _ole_timestamp blob = PDatetime dt)) /\
  (forall blob (neg : bool) td ts,
     List.length blob = 8%nat ->
     float_repr (float_of_bits64 (le_value blob)) = (if neg then [45] else []) ++ td ++ 46 :: ts ->
     td <> [] -> forallb is_digit td = true -> (List.length td <= 4300)%nat ->
     ts <> [] -> forallb is_digit ts = true ->
     exists t, 0 <= t /\
       Z.abs (t * 10 ^ Z.of_nat (List.length ts) - us_per_day * digits_value ts) < 10 ^ Z.of_nat (List.length ts) /\
       let x := (if neg then - digits_value td else digits_value td) * us_per_day + t in
       let ord := 693594 + x / us_per_day in
       let s := (x mod us_per_day) / 1000000 in
       _ole_timestamp blob =
       if (1 <=? ord) && (ord <=? MAXORDINAL)
       then PDatetime (DT (fst (fst (ord_to_ymd ord))) (snd (fst (ord_to_ymd ord))) (snd (ord_to_ymd ord))
                          (s / 3600) (s / 60 mod 60) (s mod 60) (x mod 1000000))
       else PStr (lit "Invalid OLE Timestamp")) /\
  (float_repr (FFinite false 0 (-1074)) = lit "0.0" ->
     _ole_timestamp [0; 0; 0; 0; 0; 0; 0; 0] = PDatetime (DT 1899 12 30 0 0 0 0)).
Proof.
  split; [|split; [|split; [|split]]].
  - intros blob Hl. unfold _ole_timestamp, ole_timestamp_try, unpack_le.
    destruct (Nat.eqb_spec (List.length blob) 8); [contradiction|reflexivity].
  - intros blob Hl Hs. unfold _ole_timestamp. rewrite ole_timestamp_try_split by exact Hl.
    destruct (split_on 46 _) as [|a [|b [|c l]]]; try reflexivity. cbn in Hs. contradiction.
  - intros blob. split; [reflexivity|]. unfold _ole_timestamp.
    destruct (ole_timestamp_try blob) as [dt|e]; [right; exists dt; reflexivity|left; reflexivity].
  - intros blob neg td ts Hl Hrepr Htd Htdd Htdl Hts Htsd.
    destruct (ole_fraction_us (if neg then - digits_value td else digits_value td) ts Hts Htsd)
      as (t & Ht0 & Hbound & Hfrac).
    exists t. split; [exact Ht0|]. split; [exact Hbound|]. cbn zeta.
    unfold _ole_timestamp. rewrite ole_timestamp_try_split by exact Hl. rewrite Hrepr.
    assert (Hno : forall ds, forallb is_digit ds = true -> ~ In 46 ds).
    { intros ds Hds Hin. rewrite forallb_forall in Hds. specialize (Hds 46 Hin). discriminate. }
    rewrite app_assoc, split_on_one.
    2: { destruct neg; cbn [app]; [intros [H|H]; [discriminate|exact (Hno td Htdd H)]|exact (Hno td Htdd)]. }
    2: exact (Hno ts Htsd).
    rewrite py_int_of_str_digits by assumption. cbn [bind].
    rewrite <- bind_assoc, Hfrac.
    set (x := (if neg then - digits_value td else digits_value td) * us_per_day + t).
    unfold td_result.
    destruct ((-999999999 <=? x / us_per_day) && (x / us_per_day <=? 999999999)) eqn:Htr; cbn [bind].
    + rewrite datetime_add_ole_epoch. cbn zeta.
      destruct ((1 <=? 693594 + x / us_per_day) && (693594 + x / us_per_day <=? MAXORDINAL)); reflexivity.
    + destruct ((1 <=? 693594 + x / us_per_day) && (693594 + x / us_per_day <=? MAXORDINAL)) eqn:Hrng;
        [|reflexivity].
      exfalso. apply andb_prop in Hrng as [Hr1 Hr2]. apply Z.leb_le in Hr1. apply Z.leb_le in Hr2.
      unfold MAXORDINAL in Hr2.
      assert (Ht : ((-999999999 <=? x / us_per_day) && (x / us_per_day <=? 999999999)) = true)
        by (apply andb_true_intro; split; apply Z.leb_le; lia).
      rewrite Ht in Htr. discriminate.
  - intros Hz. unfold _ole_timestamp, ole_timestamp_try.
    change (unpack_le 8 [0; 0; 0; 0; 0; 0; 0; 0]) with (Ok (A := Z) 0). cbn [bind].
    change (float_of_bits64 0) with (FFinite false 0 (-1074)). rewrite Hz.
    vm_compute. reflexivity.
Qed.
End OleSpec.

Lemma ole_timestamp_spec_witness :
  List.length [0; 0; 0; 0; 0; 0; 248; 63] = 8%nat /\
  py_float_repr (float_of_bits64 (le_value [0; 0; 0; 0; 0; 0; 248; 63])) = lit "1.5" /\
  @_ole_timestamp cpython_externals [0; 0; 0; 0; 0; 0; 248; 63] = PDatetime (DT 1899 12 31 12 0 0 0) /\
  @_ole_timestamp cpython_externals [0; 0; 0; 0; 0; 0; 0; 0] = PDatetime (DT 1899 12 30 0 0 0 0).
Proof.
  destruct (@ole_timestamp_spec cpython_externals) as (_ & _ & _ & H4 & H5).
  split; [reflexivity|]. split; [vm_compute; reflexivity|]. split.
  - destruct (H4 [0; 0; 0; 0; 0; 0; 248; 63] false [49] [53] eq_refl ltac:(vm_compute; reflexivity)
                ltac:(discriminate) eq_refl ltac:(cbn; lia) ltac:(discriminate) eq_refl)
      as (t & Ht0 & Hb & Heq).
    cbn [List.length Z.of_nat digits_value fold_left] in Hb. unfold us_per_day in Hb.
    assert (Ht : t = 43200000000) by lia. subst t.
    rewrite Heq. vm_compute. reflexivity.
  - apply H5. vm_compute. reflexivity.
Defined.

(** X23. A double whose [str] uses exponent notation: 1.5e-05 is split
    into ["1"] and ["5e-05"], read as one day plus [86400 * 0.5e-05]
    seconds (1899-12-31 00:00:00.432000); 1e+16 has no ['.'] and gives
    ["Invalid OLE Timestamp"]. *)
Theorem ole_timestamp_exponent_notation :
  py_float_repr (float_of_bits64 (le_value [105; 29; 85; 77; 16; 117; 239; 62])) = lit "1.5e-05" /\
  @_ole_timestamp cpython_externals [105; 29; 85; 77; 16; 117; 239; 62]
  = PDatetime (DT 1899 12 31 0 0 0 432000) /\
  py_float_repr (float_of_bits64 (le_value [0; 128; 224; 55; 121; 195; 65; 67])) = lit "1e+16" /\
  @_ole_timestamp cpython_externals [0; 128; 224; 55; 121; 195; 65; 67]
  = PStr (lit "Invalid OLE Timestamp").
Proof. vm_compute. repeat split. Qed.

(** ** Blob/Text Normalizer *)

Section BlobProofs.
Context `{EX : Externals}.

Lemma encode_utf16le_latin1 (s : pystr) :
  Forall (fun c => 1 <= c <= 255) s ->
  encode_utf16le s = flat_map (fun c => [c; 0]) s.
Proof.
  unfold encode_utf16le.
  induction 1 as [|c s Hc _ IH]; [reflexivity|].
  cbn [flat_map]. rewrite IH.
  assert (Hlt : (c <? 65536) = true) by (apply Z.ltb_lt; lia). rewrite Hlt.
  rewrite Z.mod_small by lia. rewrite Z.div_small by lia. reflexivity.
Qed.

Lemma match_utf16le_pairs (s : pystr) :
  s <> [] -> Forall (fun c => c <> 0) s ->
  match_utf16le (flat_map (fun c => [c; 0]) s ++ [0; 0]) = true.
Proof.
  induction s as [|c s IH]; intros Hne Hnz; [congruence|].
  inversion Hnz as [|? ? Hc Hs]; subst.
  cbn [flat_map app match_utf16le].
  assert (Hc' : (c =? 0) = false) by (apply Z.eqb_neq; exact Hc). rewrite Hc'.
  destruct s as [|c' s'].
  - reflexivity.
  - rewrite (IH ltac:(discriminate) Hs). rewrite orb_true_r. reflexivity.
Qed.

Lemma utf16_units_pairs (s : pystr) :
  utf16_units true (flat_map (fun c => [c; 0]) s ++ [0; 0]) = Some (s ++ [0]).
Proof.
  induction s as [|c s IH]; [reflexivity|].
  cbn [flat_map app utf16_units]. rewrite IH. reflexivity.
Qed.

Lemma utf16_combine_bmp (s : pystr) :
  Forall (fun c => 0 <= c <= 255) s -> utf16_combine s = Some s.
Proof.
  induction 1 as [|c s Hc _ IH]; [reflexivity|].
  cbn [utf16_combine].
  assert (Hh : is_high c = false) by (unfold is_high; apply andb_false_iff; left; apply Z.leb_gt; lia).
  assert (Hl : is_low c = false) by (unfold is_low; apply andb_false_iff; left; apply Z.leb_gt; lia).
  rewrite Hh, Hl, IH. reflexivity.
Qed.

Lemma lstrip0_nonzero (s : pystr) : Forall (fun c => c <> 0) s -> lstrip0 s = s.
Proof.
  intros H. destruct H as [|c s Hc _]; [reflexivity|].
  cbn. apply Z.eqb_neq in Hc. rewrite Hc. reflexivity.
Qed.

Lemma lstrip0_head (c : Z) (r : pystr) : c <> 0 -> lstrip0 (c :: r) = c :: r.
Proof. intros Hc. cbn. apply Z.eqb_neq in Hc. rewrite Hc. reflexivity. Qed.

Lemma strip0_trailing_null (s : pystr) :
  s <> [] -> Forall (fun c => c <> 0) s -> strip0 (s ++ [0]) = s.
Proof.
  intros Hne Hnz. unfold strip0.
  destruct s as [|c s']; [congruence|].
  inversion Hnz as [|? ? Hc Hs]; subst.
  assert (Hl : lstrip0 ((c :: s') ++ [0]) = (c :: s') ++ [0])
    by (apply lstrip0_head; assumption).
  rewrite Hl, rev_app_distr. cbn [rev app lstrip0 Z.eqb].
  rewrite lstrip0_nonzero.
  - change (rev s' ++ [c]) with (rev (c :: s')). apply rev_involutive.
  - change (rev s' ++ [c]) with (rev (c :: s')). apply Forall_rev. assumption.
Qed.

(** C6: UTF-16LE text with a trailing double null round-trips. *)
Theorem blob_to_string_utf16le_roundtrip (s : pystr) :
  s <> [] -> Forall (fun c => 1 <= c <= 255) s ->
  _blob_to_string (BBytes (encode_utf16le s ++ [0; 0])) = s.
Proof.
  intros Hne Hrange.
  assert (Hnz : Forall (fun c => c <> 0) s)
    by (eapply Forall_impl; [|exact Hrange]; cbn; intros; lia).
  assert (Hbyte : Forall (fun c => 0 <= c <= 255) s)
    by (eapply Forall_impl; [|exact Hrange]; cbn; intros; lia).
  rewrite encode_utf16le_latin1 by exact Hrange.
  unfold _blob_to_string, decode_chrblob, utf16_decode.
  rewrite match_utf16le_pairs by assumption.
  rewrite utf16_units_pairs, utf16_combine_bmp.
  - cbn [bind]. rewrite strip0_trailing_null by assumption. reflexivity.
  - apply Forall_app. split; [exact Hbyte|]. constructor; [lia|constructor].
Qed.
End BlobProofs.

(** ** Binary SID decoder *)

Lemma skipn_nth_cons {A} (l : list A) (a : nat) (d : A) :
  (a < List.length l)%nat -> skipn a l = nth a l d :: skipn (S a) l.
Proof.
  revert l. induction a as [|a IH]; intros [|x l] H; cbn in *; try lia.
  - reflexivity.
  - apply IH. lia.
Qed.

Lemma firstn_skipn_nth (l : bytes) (a n : nat) :
  (a + n <= List.length l)%nat ->
  firstn n (skipn a l) = map (fun k => nth (a + k) l 0) (seq 0 n).
Proof.
  revert a. induction n as [|n IH]; intros a H; [reflexivity|].
  rewrite (skipn_nth_cons l a 0) by lia. cbn [firstn seq map].
  rewrite Nat.add_0_r, IH by lia. f_equal.
  rewrite <- seq_shift, map_map. apply map_ext. intros k. f_equal. lia.
Qed.

Lemma length_slice {A} (l : list A) (a b : nat) :
  List.length (slice l a b) = Nat.min (b - a) (List.length l - a).
Proof. unfold slice. rewrite length_firstn, length_skipn. reflexivity. Qed.

Lemma index_ok (l : bytes) (i : nat) :
  (i < List.length l)%nat -> index l i = Ok (nth i l 0).
Proof. intros H. unfold index. rewrite (nth_error_nth' l 0 H). reflexivity. Qed.

Lemma sid_sub_auths_ok (sid : bytes) (n : nat) :
  forall i acc, (8 + 4 * (i + n) <= List.length sid)%nat ->
  sid_sub_auths sid i n acc
  = Ok (acc ++ flat_map (fun k => [45] ++ dec_str (spec_sid_sub_authority sid k)) (seq i n)).
Proof.
  induction n as [|n IH]; intros i acc H.
  - cbn. rewrite app_nil_r. reflexivity.
  - cbn [sid_sub_auths].
    assert (Hs : slice sid (8 + 4 * i) (12 + 4 * i)
                 = map (fun k => nth (8 + 4 * i + k) sid 0) (seq 0 4)).
    { unfold slice. replace (12 + 4 * i - (8 + 4 * i))%nat with 4%nat by lia.
      apply firstn_skipn_nth. lia. }
    rewrite Hs. unfold unpack_le. cbn [map seq List.length Nat.eqb bind].
    rewrite IH by lia. cbn [seq flat_map]. rewrite !app_assoc. do 3 f_equal.
    unfold spec_sid_sub_authority, le_value. cbn [fold_right].
    replace (8 + 4 * i + 0)%nat with (8 + 4 * i)%nat by lia.
    replace (8 + 4 * i + 1)%nat with (9 + 4 * i)%nat by lia.
    replace (8 + 4 * i + 2)%nat with (10 + 4 * i)%nat by lia.
    replace (8 + 4 * i + 3)%nat with (11 + 4 * i)%nat by lia.
    f_equal. lia.
Qed.

Lemma sid_sub_auths_fail (sid : bytes) (n : nat) :
  forall i acc, (0 < n)%nat -> (List.length sid < 8 + 4 * (i + n))%nat ->
  exists e, sid_sub_auths sid i n acc = Raise e.
Proof.
  induction n as [|n IH]; intros i acc Hn H; [lia|].
  cbn [sid_sub_auths]. unfold unpack_le.
  destruct (Nat.eqb (List.length (slice sid (8 + 4 * i) (12 + 4 * i))) 4) eqn:E.
  - apply Nat.eqb_eq in E. rewrite length_slice in E. cbn [bind].
    apply IH; lia.
  - cbn. eauto.
Qed.

Section SidProofs.
Context `{EX : Externals}.

Lemma sid_authority_ok (bs : bytes) :
  (8 <= List.length bs)%nat ->
  unpack_be 8 ([0; 0] ++ slice bs 2 8) = Ok (spec_sid_authority bs).
Proof.
  intros H. unfold slice. replace (8 - 2)%nat with 6%nat by lia.
  rewrite firstn_skipn_nth by lia.
  unfold unpack_be. cbn [map seq app List.length Nat.eqb].
  f_equal. unfold be_value, spec_sid_authority. cbn [fold_left Nat.add]. lia.
Qed.

(** C4: the SID decoder on a non-empty hex string: the standard
    [S-rev-auth-sub...] text with the Known-SIDS name when the decoded
    buffer holds the declared sub-authorities, "Invalid SID" otherwise. *)
Theorem binary_sid_to_string_sid_spec (self : analyzer) (s : pystr) :
  s <> [] ->
  _binary_sid_to_string_sid self (PStr s) =
    match hex_decode s with
    | Ok bs =>
        if (8 + 4 * spec_sid_count bs <=? List.length bs)%nat
        then spec_sid_string self bs else lit "Invalid SID"
    | Raise _ => lit "Invalid SID"
    end.
Proof.
  intros Hne. unfold _binary_sid_to_string_sid.
  destruct s as [|c s']; [congruence|]. cbn [py_truthy negb].
  unfold sid_try. destruct (hex_decode (c :: s')) as [bs|e]; cbn [bind]; [|reflexivity].
  destruct (Nat.leb_spec (8 + 4 * spec_sid_count bs) (List.length bs)) as [Hok|Hbad].
  - rewrite !index_ok by lia. cbn [bind].
    rewrite sid_authority_ok by lia. cbn [bind].
    fold (spec_sid_count bs).
    rewrite sid_sub_auths_ok by lia. cbn [bind].
    assert (E : ((lit "S-" ++ dec_str (nth 0 bs 0)) ++ [45] ++ dec_str (spec_sid_authority bs))
                ++ flat_map (fun k => [45] ++ dec_str (spec_sid_sub_authority bs k))
                     (seq 0 (spec_sid_count bs))
                = spec_sid_text bs).
    { unfold spec_sid_text. rewrite <- !app_assoc. reflexivity. }
    rewrite E. reflexivity.
  - destruct bs as [|b0 [|b1 rest]]; [reflexivity|reflexivity|].
    cbn [index nth_error bind].
    unfold unpack_be.
    destruct (Nat.eqb (List.length ([0; 0] ++ slice (b0 :: b1 :: rest) 2 8)) 8) eqn:E8.
    + apply Nat.eqb_eq in E8. rewrite length_app, length_slice in E8.
      cbn [bind].
      destruct (sid_sub_auths_fail (b0 :: b1 :: rest) (Z.to_nat b1) 0
                  (lit "S-" ++ dec_str b0 ++ [45]
                   ++ dec_str (be_value ([0; 0] ++ slice (b0 :: b1 :: rest) 2 8))))
        as [e He].
      * unfold spec_sid_count in Hbad. cbn [nth] in Hbad. cbn [List.length] in *. lia.
      * unfold spec_sid_count in Hbad. cbn [nth] in Hbad. lia.
      * rewrite <- app_assoc. rewrite He. reflexivity.
    + reflexivity.
Qed.
End SidProofs.

(** ** Table processor *)

Lemma pystr_eqb_spec (s t : pystr) : pystr_eqb s t = true <-> s = t.
Proof. unfold pystr_eqb. destruct (list_eq_dec Z.eq_dec s t); split; congruence. Qed.

Lemma pystr_eqb_refl (s : pystr) : pystr_eqb s s = true.
Proof. apply pystr_eqb_spec. reflexivity. Qed.

Lemma dict_get_set_str {V} (k k' : pystr) (v : V) (d : dict pystr V) :
  dict_get pystr_eqb k (dict_set pystr_eqb k' v d)
  = if pystr_eqb k' k then Some v else dict_get pystr_eqb k d.
Proof.
  induction d as [|[k'' v''] d IH]; cbn.
  - reflexivity.
  - destruct (pystr_eqb k'' k') eqn:E1; cbn.
    + apply pystr_eqb_spec in E1. subst k''. destruct (pystr_eqb k' k); reflexivity.
    + rewrite IH. destruct (pystr_eqb k'' k) eqn:E2, (pystr_eqb k' k) eqn:E3; try reflexivity.
      apply pystr_eqb_spec in E2, E3. subst. rewrite pystr_eqb_refl in E1. discriminate.
Qed.

Section ProcessorProofs.
Context `{EX : Externals}.

Lemma process_rows_filter (self : analyzer) (t : ese_table) (names : list pystr)
    (rows : list nat) :
  process_rows self t names rows
  = map_res (fun i => process_cells self t names i (seq 0 (number_of_columns t)))
      (filter (has_record t) rows).
Proof.
  induction rows as [|i rows IH]; [reflexivity|].
  cbn [process_rows filter]. unfold has_record at 1.
  destruct (_ese_table_get_record t i); [|exact IH].
  cbn [map_res]. rewrite IH. reflexivity.
Qed.

Lemma map_res_length {A B} (f : A -> res B) (l : list A) (out : list B) :
  map_res f l = Ok out -> List.length out = List.length l.
Proof.
  revert out. induction l as [|x l IH]; intros out H; cbn in H.
  - inversion H. reflexivity.
  - destruct (f x); [|discriminate]. cbn in H.
    destruct (map_res f l) eqn:E; [|discriminate]. cbn in H. inversion H; subst.
    cbn. f_equal. apply IH. reflexivity.
Qed.

(** C10: a record whose fetch fails is left out of the table (no row is
    emitted for it), the later records are still processed, so the table
    has one data row per record that could be fetched. *)
Theorem process_table_omits_unfetchable_records (self : analyzer) (t : ese_table) :
  process_table self t
    = (let* rows := fetched_rows self t in Ok (header_row self t :: rows))
  /\ (forall out, process_table self t = Ok out ->
      exists rows, out = header_row self t :: rows
        /\ List.length rows
           = List.length (filter (has_record t)
                            (seq 0 (Z.to_nat (_ese_table_record_count t))))
        /\ (List.length rows <= Z.to_nat (_ese_table_record_count t))%nat).
Proof.
  assert (Eq : process_table self t
               = (let* rows := fetched_rows self t in Ok (header_row self t :: rows))).
  { unfold process_table, fetched_rows. rewrite process_rows_filter. reflexivity. }
  split; [exact Eq|].
  intros out H. rewrite Eq in H. unfold fetched_rows in H.
  destruct (map_res _ _) as [rows|e] eqn:Er; cbn in H; [|discriminate].
  inversion H; subst. exists rows. split; [reflexivity|].
  apply map_res_length in Er. split; [exact Er|].
  rewrite Er. etransitivity; [apply filter_length_le|]. rewrite length_seq. lia.
Qed.

Lemma tables_loop_filter (self : analyzer) (skip : list pystr) (tables : list ese_table)
    (acc : output_t) :
  tables_loop self skip tables acc = store_tables self (filter (eligible skip) tables) acc.
Proof.
  revert acc. induction tables as [|t tables IH]; intros acc; [reflexivity|].
  cbn [tables_loop filter]. unfold eligible at 1.
  destruct (in_list (t_name t) skip); cbn [negb andb]; [apply IH|].
  destruct (_ese_table_record_count t =? 0); cbn [negb]; [apply IH|].
  cbn [store_tables]. destruct (process_table self t); cbn [bind]; [apply IH|reflexivity].
Qed.

Lemma store_tables_keys (self : analyzer) (tables : list ese_table) (acc m : output_t) :
  store_tables self tables acc = Ok m ->
  forall k, (exists d, dict_get pystr_eqb k m = Some d)
    <-> (exists d, dict_get pystr_eqb k acc = Some d)
       \/ exists t, In t tables /\ _ese_table_guid_to_name self t = k.
Proof.
  revert acc. induction tables as [|t tables IH]; intros acc H k; cbn in H.
  - inversion H; subst. split; [tauto|]. intros [Hd|[t [[] _]]]. exact Hd.
  - destruct (process_table self t) as [d|e]; cbn in H; [|discriminate].
    rewrite (IH _ H k). rewrite dict_get_set_str.
    destruct (pystr_eqb (_ese_table_guid_to_name self t) k) eqn:E.
    + apply pystr_eqb_spec in E. split.
      * intros _. right. exists t. split; [left; reflexivity|exact E].
      * intros _. left. exists d. reflexivity.
    + split.
      * intros [Hd|[t' [Hin Ht']]]; [left; exact Hd|].
        right. exists t'. split; [right; exact Hin|exact Ht'].
      * intros [Hd|[t' [[<-|Hin] Ht']]]; [left; exact Hd| |].
        -- rewrite Ht', pystr_eqb_refl in E. discriminate.
        -- right. exists t'. split; assumption.
Qed.

(** C2: the tables processed are exactly those outside the skip-list with
    a non-zero record count; the keys of the result are their names. *)
Theorem process_srum_tables_filters (self : analyzer) (db : ese_db) :
  _process_srum_tables self db skip_tables
    = (let* m := store_tables self (filter (eligible skip_tables) (db_tables db)) [] in
       Ok (m, finished_msg))
  /\ (forall m msg, _process_srum_tables self db skip_tables = Ok (m, msg) ->
      forall k, (exists d, dict_get pystr_eqb k m = Some d)
        <-> exists t, In t (db_tables db) /\ in_list (t_name t) skip_tables = false
              /\ _ese_table_record_count t <> 0 /\ _ese_table_guid_to_name self t = k).
Proof.
  assert (Eq : _process_srum_tables self db skip_tables
               = (let* m := store_tables self (filter (eligible skip_tables) (db_tables db)) [] in
                  Ok (m, finished_msg))).
  { unfold _process_srum_tables. rewrite tables_loop_filter. reflexivity. }
  split; [exact Eq|].
  intros m msg H k. rewrite Eq in H.
  destruct (store_tables _ _ _) as [m'|e] eqn:Es; cbn in H; [|discriminate].
  inversion H; subst m'.
  rewrite (store_tables_keys _ _ _ _ Es k). split.
  - intros [[d Hd]|[t [Hin Hk]]]; [discriminate|].
    apply filter_In in Hin as [Hin He]. unfold eligible in He.
    apply andb_true_iff in He as [Hs1 Hs2]. apply negb_true_iff in Hs1, Hs2.
    exists t. repeat split; try assumption. apply Z.eqb_neq. exact Hs2.
  - intros [t [Hin [Hs1 [Hs2 Hk]]]]. right. exists t. split; [|exact Hk].
    apply filter_In. split; [exact Hin|]. unfold eligible. rewrite Hs1.
    apply Z.eqb_neq in Hs2. rewrite Hs2. reflexivity.
Qed.
End ProcessorProofs.

(** ** Exceptions raised after both files are open

    Every exception raised after the two opens is either not an [OSError]
    or the pyesedb record error; none of them carries the "Could not open"
    messages. *)

Definition late (e : exn) : Prop := exn_type e <> OSError \/ e = libesedb_error.

Definition late_res {A} (r : res A) : Prop := forall e, r = Raise e -> late e.

Lemma late_ok {A} (a : A) : late_res (Ok a).
Proof. intros e H. discriminate. Qed.

Lemma late_bind {A B} (m : res A) (k : A -> res B) :
  late_res m -> (forall a, late_res (k a)) -> late_res (bind m k).
Proof.
  intros Hm Hk e. destruct m as [a|e']; cbn; [apply Hk|].
  intros H. inversion H; subst. apply Hm. reflexivity.
Qed.

Lemma late_res_raise {A} (e : exn) : late_res (@Raise A e) <-> late e.
Proof.
  split; intros H; [apply H; reflexivity|].
  intros e' He. inversion He; subst. exact H.
Qed.

Lemma late_kind {A} (k : exn_kind) (msg : pystr) :
  k <> OSError -> late_res (@Raise A (Exn k msg)).
Proof. intros Hk e H. inversion H; subst. left. exact Hk. Qed.

Lemma late_libesedb {A} : late_res (@Raise A libesedb_error).
Proof. intros e H. inversion H; subst. right. reflexivity. Qed.

Create HintDb late.
#[local] Hint Resolve late_ok late_bind late_libesedb : late.
#[local] Hint Extern 1 (late_res (Raise (Exn _ _))) => apply late_kind; discriminate : late.

Ltac late_step :=
  match goal with
  | |- late_res (bind _ _) => apply late_bind; [|intro]
  | |- late_res (match ?x with _ => _ end) => destruct x
  | |- late_res (if ?b then _ else _) => destruct b
  end.

Ltac late_auto := repeat (late_step || eauto with late).

Lemma late_unpack_le n d : late_res (unpack_le n d).
Proof. unfold unpack_le, struct_error. late_auto. Qed.

Lemma late_unpack_le_signed n d : late_res (unpack_le_signed n d).
Proof. unfold unpack_le_signed. apply late_bind; [apply late_unpack_le|]. intros; apply late_ok. Qed.

Lemma late_uuid_str d : late_res (uuid_str d).
Proof. unfold uuid_str. late_auto. Qed.

Lemma late_get_column_type t c : late_res (get_column_type t c).
Proof. unfold get_column_type. late_auto. Qed.

Lemma late_get_value_data r c : late_res (get_value_data r c).
Proof. unfold get_value_data. late_auto. Qed.

Lemma late_column_index cl n : late_res (column_index cl n).
Proof. unfold column_index. late_auto. Qed.

Lemma late_split_dash_1 n : late_res (split_dash_1 n).
Proof. unfold split_dash_1. late_auto. Qed.

#[local] Hint Resolve late_unpack_le late_unpack_le_signed late_uuid_str late_get_column_type
  late_get_value_data late_column_index late_split_dash_1 : late.

Section LateProofs.
Context `{EX : Externals}.

Lemma late_decode_typed ct d : late_res (decode_typed ct d).
Proof. destruct ct; cbn [decode_typed]; late_auto. Qed.

Lemma late_smart_retrieve t r c : late_res (_smart_retrieve t r c).
Proof.
  unfold _smart_retrieve. destruct (_ese_table_get_record t r) as [rec|]; [|apply late_ok].
  apply late_bind; [apply late_get_column_type|intros ct].
  apply late_bind; [apply late_get_value_data|intros [d|]]; [|apply late_ok].
  pose proof (late_decode_typed ct d) as Hd.
  destruct (decode_typed ct d) as [[v|]|e]; try apply late_ok.
  destruct (caught_by_decoder e); [apply late_ok|].
  apply late_res_raise. apply late_res_raise in Hd. exact Hd.
Qed.

#[local] Hint Resolve late_smart_retrieve : late.

Lemma late_format self v f : late_res (_format_output_for_gui self v f).
Proof. unfold _format_output_for_gui. late_auto. Qed.

#[local] Hint Resolve late_format : late.

Lemma late_srumid self db : late_res (_load_srumid_lookups self db).
Proof.
  unfold _load_srumid_lookups. destruct (get_table_by_name db id_map_table) as [t|]; [|apply late_ok].
  generalize (@nil (pyval * pyval)).
  induction (seq 0 (Z.to_nat (_ese_table_record_count t))) as [|i l IH]; intros acc;
    cbn [srumid_loop]; late_auto.
Qed.

Lemma late_lookups wb : late_res (_load_template_lookups wb).
Proof.
  unfold _load_template_lookups. generalize (@nil (pystr * dict pyval pyval)).
  induction (wb_sheets wb) as [|sh l IH]; intros acc; cbn [load_lookups_loop]; late_auto.
Qed.

Lemma late_process_cells self t names row cols : late_res (process_cells self t names row cols).
Proof.
  induction cols as [|c cols IH]; cbn [process_cells]; [apply late_ok|].
  apply late_bind; [|intros; apply late_bind; [exact IH|intros; apply late_ok]].
  unfold process_cell. late_auto.
Qed.

#[local] Hint Resolve late_process_cells : late.

Lemma late_process_srum_tables self db skip : late_res (_process_srum_tables self db skip).
Proof.
  unfold _process_srum_tables. apply late_bind; [|intros; apply late_ok].
  generalize (@nil (pystr * list (list pyval))).
  induction (db_tables db) as [|t l IH]; intros acc; cbn [tables_loop]; [apply late_ok|].
  destruct (in_list (t_name t) skip); [apply IH|].
  destruct (_ese_table_record_count t =? 0); [apply IH|].
  apply late_bind; [|intros; apply IH].
  unfold process_table. apply late_bind; [|intros; apply late_ok].
  induction (seq 0 (Z.to_nat (_ese_table_record_count t))) as [|r rs IHr];
    cbn [process_rows]; late_auto.
Qed.
End LateProofs.

(** ** [analyze] *)

Lemma late_not_open_error (e : exn) : late e -> open_error e = false.
Proof.
  intros [Hk|He].
  - unfold open_error. destruct (exn_type e); try reflexivity. congruence.
  - subst. vm_compute. reflexivity.
Qed.

Section AnalyzeProofs.
Context `{EX : Externals}.

(** Once both files are open, [analyze] runs the loaders and the table
    processor; it closes the database only when they all return. *)
Lemma analyze_opened (db : ese_db) (wb : workbook) (reg : option hive) :
  analyze (Ok db) (Ok wb) reg closed_handles
  = match (let* tl := _load_template_lookups wb in
           let self := with_templates (init_analyzer reg) (_load_template_tables wb) tl in
           let* idt := _load_srumid_lookups self db in
           _process_srum_tables (with_id_table self idt) db skip_tables) with
    | Ok r => (Ok r, {| db_is_open := false |})
    | Raise e => (Raise e, {| db_is_open := true |})
    end.
Proof.
  unfold analyze, mbind, try_except, open_db, load_workbook, lift, close_db, mret.
  cbn [db_is_open closed_handles].
  destruct (_load_template_lookups wb) as [tl|e]; cbn [bind]; [|reflexivity].
  destruct (_load_srumid_lookups _ db) as [idt|e]; cbn [bind]; [|reflexivity].
  destruct (_process_srum_tables _ db skip_tables); reflexivity.
Qed.

(** C3: [analyze] raises the I/O error naming the SRUM file exactly when
    the database fails to open, and the one naming the template file
    exactly when the workbook fails to open (after closing the database);
    no other exception of [analyze] carries either message. *)
Theorem analyze_fatal_open_errors (srum : res ese_db) (tmpl : res workbook)
    (reg : option hive) :
  (forall e, srum = Raise e ->
     analyze srum tmpl reg closed_handles
     = (Raise (Exn OSError (srum_open_prefix ++ exn_msg e)), closed_handles))
  /\ (forall db e, srum = Ok db -> tmpl = Raise e ->
     analyze srum tmpl reg closed_handles
     = (Raise (Exn OSError (template_open_prefix ++ exn_msg e)), closed_handles))
  /\ (forall db wb e h, srum = Ok db -> tmpl = Ok wb ->
     analyze srum tmpl reg closed_handles = (Raise e, h) -> open_error e = false).
Proof.
  split; [|split].
  - intros e ->. reflexivity.
  - intros db e -> ->. reflexivity.
  - intros db wb e h -> ->. rewrite analyze_opened.
    destruct (_load_template_lookups wb) as [tl|e'] eqn:E1; cbn [bind].
    2:{ intros H. inversion H; subst. apply late_not_open_error.
        apply (late_lookups wb). exact E1. }
    destruct (_load_srumid_lookups _ db) as [idt|e'] eqn:E2; cbn [bind].
    2:{ intros H. inversion H; subst. apply late_not_open_error.
        eapply late_srumid. exact E2. }
    destruct (_process_srum_tables _ db skip_tables) as [r|e'] eqn:E3.
    + intros H. discriminate.
    + intros H. inversion H; subst. apply late_not_open_error.
      eapply late_process_srum_tables. exact E3.
Qed.

(** C8: [analyze] closes the database before it returns a result and
    before it propagates the error of a template that does not open, and
    leaves nothing open when the database does not open; but an exception
    of the template loaders, the ID-map resolver or the table processor
    leaves [analyze] with the database still open. *)
Theorem analyze_handles (srum : res ese_db) (tmpl : res workbook) (reg : option hive)
    (r : res (output_t * pystr)) (h : handles) :
  analyze srum tmpl reg closed_handles = (r, h) ->
  ((exists x, r = Ok x) -> h = closed_handles)
  /\ (forall e, srum = Raise e -> h = closed_handles)
  /\ (forall db e, srum = Ok db -> tmpl = Raise e -> h = closed_handles)
  /\ (forall db wb e, srum = Ok db -> tmpl = Ok wb -> r = Raise e -> db_is_open h = true).
Proof.
  intros H.
  destruct srum as [db|e].
  2:{ cbn in H. inversion H; subst. split; [intros [x Hx]; discriminate|].
      split; [reflexivity|]. split; intros; discriminate. }
  destruct tmpl as [wb|e].
  2:{ cbn in H. inversion H; subst. split; [intros [x Hx]; discriminate|].
      split; [intros; discriminate|]. split; [reflexivity|intros; discriminate]. }
  rewrite analyze_opened in H.
  split; [|split; [intros; discriminate|split; [intros; discriminate|]]].
  - intros [x ->]. destruct (let* tl := _ in _) in H; inversion H; reflexivity.
  - intros db' wb' e _ _ ->. destruct (let* tl := _ in _) in H; inversion H; reflexivity.
Qed.
End AnalyzeProofs.

(** ** Dict entries *)

Lemma dict_set_In {K V} (keq : K -> K -> bool) (k : K) (v : V) (d : dict K V) x y :
  In (x, y) (dict_set keq k v d) ->
  In (x, y) d \/ (x = k /\ y = v) \/ (keq x k = true /\ y = v /\ exists y', In (x, y') d).
Proof.
  induction d as [|[k' v'] d IH]; cbn; intros H.
  - destruct H as [H|[]]. inversion H; subst. right. left. split; reflexivity.
  - destruct (keq k' k) eqn:E; cbn in H.
    + destruct H as [H|H].
      * inversion H; subst. right. right. split; [exact E|split; [reflexivity|]].
        exists v'. left. reflexivity.
      * left. right. exact H.
    + destruct H as [H|H]; [left; left; exact H|].
      destruct (IH H) as [H'|[H'|[Hk [Hy [y' Hy']]]]].
      * left. right. exact H'.
      * right. left. exact H'.
      * right. right. split; [exact Hk|split; [exact Hy|]]. exists y'. right. exact Hy'.
Qed.

Lemma dict_set_keeps_keys {K V} (keq : K -> K -> bool) (k : K) (v : V) (d : dict K V) x y :
  In (x, y) d -> exists y', In (x, y') (dict_set keq k v d).
Proof.
  induction d as [|[k' v'] d IH]; cbn; intros H; [destruct H|].
  destruct (keq k' k); destruct H as [H|H].
  - inversion H; subst. exists v. left. reflexivity.
  - exists y. right. exact H.
  - inversion H; subst. exists y. left. reflexivity.
  - destruct (IH H) as [y' Hy']. exists y'. right. exact Hy'.
Qed.

Lemma dict_set_has_key {K V} (keq : K -> K -> bool) (k : K) (v : V) (d : dict K V) :
  exists x y, In (x, y) (dict_set keq k v d) /\ (x = k \/ keq x k = true).
Proof.
  induction d as [|[k' v'] d IH]; cbn.
  - exists k, v. split; [left; reflexivity|left; reflexivity].
  - destruct (keq k' k) eqn:E.
    + exists k', v. split; [left; reflexivity|right; exact E].
    + destruct IH as [x [y [Hin Hx]]]. exists x, y. split; [right; exact Hin|exact Hx].
Qed.

Lemma dict_get_In {K V} (keq : K -> K -> bool) (k : K) (d : dict K V) v :
  dict_get keq k d = Some v -> exists x, In (x, v) d /\ keq x k = true.
Proof.
  induction d as [|[k' v'] d IH]; cbn; intros H; [discriminate|].
  destruct (keq k' k) eqn:E.
  - inversion H; subst. exists k'. split; [left; reflexivity|exact E].
  - destruct (IH H) as [x [Hx Hk]]. exists x. split; [right; exact Hx|exact Hk].
Qed.

(** ** Schema Template Loader, lookup sheets *)

Section LookupProofs.
Context `{EX : Externals}.

Lemma load_lookups_loop_get (sheets : list sheet) :
  forall acc lookups n, load_lookups_loop sheets acc = Ok lookups ->
  dict_get pystr_eqb n lookups
  = fold_left (fun cur sh =>
      if is_lookup_sheet sh then
        match split_dash_1 (sh_name sh) with
        | Ok w => if pystr_eqb w n then Some (lookup_rows (iter_rows2 sh)) else cur
        | Raise _ => cur
        end
      else cur) sheets (dict_get pystr_eqb n acc).
Proof.
  induction sheets as [|sh sheets IH]; intros acc lookups n H; cbn in H |- *.
  - inversion H; subst. reflexivity.
  - destruct (is_lookup_sheet sh); [|apply IH; exact H].
    destruct (split_dash_1 (sh_name sh)) as [w|e]; cbn in H; [|discriminate].
    rewrite (IH _ _ n H). f_equal. rewrite dict_get_set_str. reflexivity.
Qed.

Lemma lookup_step_eq (table : dict pyval pyval) (row : pyval * pyval) :
  match fst row with
  | PNone => table
  | k => dict_set py_eq k (snd row) table
  end
  = if match fst row with PNone => true | _ => false end then table
    else dict_set py_eq (fst row) (snd row) table.
Proof. destruct (fst row); reflexivity. Qed.

Lemma lookup_rows_entries_gen (rows rest : list (pyval * pyval)) (acc : dict pyval pyval) :
  (forall r, In r rest -> In r rows) ->
  (forall k v, In (k, v) acc -> row_entry rows k v) ->
  forall k v, In (k, v) (fold_left (fun table row =>
                 match fst row with
                 | PNone => table
                 | k => dict_set py_eq k (snd row) table
                 end) rest acc) -> row_entry rows k v.
Proof.
  revert acc. induction rest as [|[a b] rest IH]; intros acc Hsub Hacc; cbn [fold_left]; [exact Hacc|].
  apply IH; [intros r Hr; apply Hsub; right; exact Hr|].
  assert (Hab : In (a, b) rows) by (apply Hsub; left; reflexivity).
  rewrite lookup_step_eq. cbn [fst snd].
  destruct (match a with PNone => true | _ => false end) eqn:Ea; [exact Hacc|].
  assert (Ha : a <> PNone) by (intros ->; discriminate).
  intros k v Hin. apply dict_set_In in Hin as [Hin|[[-> ->]|[Hk [-> [y' Hy']]]]].
  - apply Hacc. exact Hin.
  - split; [split; [exact Ha|exists b; exact Hab]|].
    exists (a, b). cbn. repeat split; [exact Hab|exact Ha|left; reflexivity].
  - split; [apply (Hacc k y' Hy')|].
    exists (a, b). cbn. repeat split; [exact Hab|exact Ha|right; exact Hk].
Qed.

Lemma lookup_rows_keys_gen (rest : list (pyval * pyval)) (acc : dict pyval pyval) :
  forall x y, In (x, y) acc ->
  exists y', In (x, y') (fold_left (fun table row =>
               match fst row with
               | PNone => table
               | k => dict_set py_eq k (snd row) table
               end) rest acc).
Proof.
  revert acc. induction rest as [|row rest IH]; intros acc x y H; cbn [fold_left]; [eauto|].
  rewrite lookup_step_eq.
  destruct (match fst row with PNone => true | _ => false end); [apply (IH _ x y H)|].
  destruct (dict_set_keeps_keys py_eq (fst row) (snd row) acc x y H) as [y' Hy'].
  apply (IH _ x y' Hy').
Qed.

Lemma lookup_rows_complete (rows : list (pyval * pyval)) :
  forall r, In r rows -> fst r <> PNone ->
  exists k v, In (k, v) (lookup_rows rows) /\ (k = fst r \/ py_eq k (fst r) = true).
Proof.
  unfold lookup_rows. generalize (@nil (pyval * pyval)) as acc.
  induction rows as [|row rows IH]; intros acc r Hr Hne; [destruct Hr|].
  cbn [fold_left]. rewrite lookup_step_eq.
  destruct Hr as [Heq|Hr]; [subst row|apply IH; assumption].
  destruct (match fst r with PNone => true | _ => false end) eqn:Ea.
  { destruct (fst r); try discriminate. congruence. }
  destruct (dict_set_has_key py_eq (fst r) (snd r) acc) as [x [y [Hin Hx]]].
  destruct (lookup_rows_keys_gen rows _ x y Hin) as [y' Hy'].
  exists x, y'. split; [exact Hy'|exact Hx].
Qed.

(** Python's [==] on these values is symmetric and transitive. *)
Lemma numval_eqb_sym (x y : numval) : numval_eqb x y = numval_eqb y x.
Proof.
  destruct x as [a|a|], y as [b|b|]; cbn; try reflexivity.
  - destruct (Qeq_bool a b) eqn:E, (Qeq_bool b a) eqn:E'; try reflexivity.
    + apply Qeq_bool_iff in E.
      assert (Qeq_bool b a = true) by (apply Qeq_bool_iff; symmetry; exact E). congruence.
    + apply Qeq_bool_iff in E'.
      assert (Qeq_bool a b = true) by (apply Qeq_bool_iff; symmetry; exact E'). congruence.
  - destruct a, b; reflexivity.
Qed.

Lemma numval_eqb_trans (x y z : numval) :
  numval_eqb x y = true -> numval_eqb y z = true -> numval_eqb x z = true.
Proof.
  destruct x as [a|a|], y as [b|b|], z as [c|c|]; cbn; try discriminate.
  - intros H1 H2. apply Qeq_bool_iff. apply Qeq_bool_iff in H1, H2.
    exact (Qeq_trans _ _ _ H1 H2).
  - destruct a, b, c; cbn; congruence.
Qed.

Lemma pystr_eqb_sym (s t : pystr) : pystr_eqb s t = pystr_eqb t s.
Proof.
  unfold pystr_eqb. destruct (list_eq_dec Z.eq_dec s t), (list_eq_dec Z.eq_dec t s);
    congruence.
Qed.

Lemma dt_eqb_sym (d e : datetime) : dt_eqb d e = dt_eqb e d.
Proof.
  unfold dt_eqb. rewrite (Z.eqb_sym (dt_year d)), (Z.eqb_sym (dt_month d)),
    (Z.eqb_sym (dt_day d)), (Z.eqb_sym (dt_hour d)), (Z.eqb_sym (dt_minute d)),
    (Z.eqb_sym (dt_second d)), (Z.eqb_sym (dt_microsecond d)). reflexivity.
Qed.

Lemma dt_eqb_eq (d e : datetime) : dt_eqb d e = true -> d = e.
Proof.
  destruct d, e. unfold dt_eqb. cbn. intros H.
  repeat (apply andb_prop in H as [H ?]); repeat match goal with
  | H : (_ =? _) = true |- _ => apply Z.eqb_eq in H end. subst. reflexivity.
Qed.

Lemma py_eq_sym (a b : pyval) : py_eq a b = py_eq b a.
Proof.
  unfold py_eq.
  destruct a as [| | |fa|sa|da], b as [| | |fb|sb|db];
    try (destruct fa); try (destruct fb); cbn -[numval_eqb pystr_eqb dt_eqb];
    try reflexivity; try apply numval_eqb_sym; try apply pystr_eqb_sym; apply dt_eqb_sym.
Qed.

Lemma py_eq_trans (a b c : pyval) :
  py_eq a b = true -> py_eq b c = true -> py_eq a c = true.
Proof.
  unfold py_eq.
  destruct a as [| | |fa|sa|da], b as [| | |fb|sb|db], c as [| | |fc|sc|dc];
    try (destruct fa); try (destruct fb); try (destruct fc); cbn -[numval_eqb pystr_eqb dt_eqb];
    try discriminate; try reflexivity; try apply numval_eqb_trans.
  - intros H1 H2. apply pystr_eqb_spec in H1, H2. subst. apply pystr_eqb_refl.
  - intros H1 H2. apply dt_eqb_eq in H1. subst. exact H2.
Qed.

(** Reading a key after [d[k'] = v]. *)
Lemma dict_get_set_py_eq {V} (k k' : pyval) (v : V) (d : dict pyval V) :
  dict_get py_eq k (dict_set py_eq k' v d)
  = if py_eq k' k then Some v else dict_get py_eq k d.
Proof.
  induction d as [|[x w] d IH]; cbn [dict_set dict_get].
  - destruct (py_eq k' k); reflexivity.
  - destruct (py_eq x k') eqn:E1; cbn [dict_get].
    + destruct (py_eq x k) eqn:E2, (py_eq k' k) eqn:E3; try reflexivity.
      * rewrite py_eq_sym in E1. rewrite (py_eq_trans _ _ _ E1 E2) in E3. discriminate.
      * rewrite (py_eq_trans _ _ _ E1 E3) in E2. discriminate.
    + rewrite IH. destruct (py_eq x k) eqn:E2, (py_eq k' k) eqn:E3; try reflexivity.
      rewrite py_eq_sym in E3. rewrite (py_eq_trans _ _ _ E2 E3) in E1. discriminate.
Qed.

Lemma find_app_l {A} (f : A -> bool) (l1 l2 : list A) :
  find f (l1 ++ l2) = match find f l1 with Some x => Some x | None => find f l2 end.
Proof.
  induction l1 as [|x l1 IH]; cbn; [reflexivity|]. destruct (f x); [reflexivity|exact IH].
Qed.

Lemma lookup_rows_get_gen (rows : list (pyval * pyval)) (k : pyval) :
  forall acc,
  dict_get py_eq k (fold_left (fun table row =>
                      match fst row with
                      | PNone => table
                      | k => dict_set py_eq k (snd row) table
                      end) rows acc)
  = match last_row_value rows k with
    | Some v => Some v
    | None => dict_get py_eq k acc
    end.
Proof.
  unfold last_row_value.
  induction rows as [|row rows IH]; intros acc; [reflexivity|].
  cbn [fold_left rev]. rewrite IH, find_app_l. cbn [find].
  destruct (find _ (rev rows)) as [r|]; [reflexivity|].
  rewrite lookup_step_eq.
  destruct (fst row) eqn:E; cbn [negb]; try reflexivity;
    rewrite dict_get_set_py_eq; rewrite <- E; destruct (py_eq (fst row) k); reflexivity.
Qed.

(** C9 (as amended): a sheet whose lowercased title starts with
    "lookup-" registers, under [title.split("-")[1]], the table of its
    rows from row 1 with a non-null first cell (first cell -> second
    cell); the last such sheet with a given lookup name wins, and in a
    table a key reads the second cell of the last row whose first cell
    equals it. *)
Theorem load_template_lookups_spec (wb : workbook) (lookups : template_lookups_t) :
  _load_template_lookups wb = Ok lookups ->
  (forall n, dict_get pystr_eqb n lookups = last_lookup_table n (wb_sheets wb))
  /\ (forall sh k v, In (k, v) (lookup_rows (iter_rows2 sh)) -> row_entry (iter_rows2 sh) k v)
  /\ (forall sh r, In r (iter_rows2 sh) -> fst r <> PNone ->
       exists k v, In (k, v) (lookup_rows (iter_rows2 sh)) /\ (k = fst r \/ py_eq k (fst r) = true))
  /\ (forall sh k, dict_get py_eq k (lookup_rows (iter_rows2 sh))
                   = last_row_value (iter_rows2 sh) k).
Proof.
  intros H. split; [|split; [|split]].
  - intros n. unfold last_lookup_table. apply (load_lookups_loop_get _ [] lookups n H).
  - intros sh k v Hin. unfold lookup_rows in Hin.
    apply (lookup_rows_entries_gen (iter_rows2 sh) (iter_rows2 sh) []); auto.
    intros k' v' [].
  - intros sh r Hr Hne. apply lookup_rows_complete; assumption.
  - intros sh k. unfold lookup_rows. rewrite lookup_rows_get_gen.
    destruct (last_row_value _ k); reflexivity.
Qed.
End LookupProofs.

(** ** ID-map resolver *)

Section SrumidProofs.
Context `{EX : Externals}.
Variable self : analyzer.
Variable t : ese_table.

Lemma srumid_loop_entries (recs : list nat) :
  forall acc m, srumid_loop self t (column_lookup t) recs acc = Ok m ->
  (forall j, In j recs -> (j < Z.to_nat (_ese_table_record_count t))%nat) ->
  (forall k v, In (k, v) acc -> srumid_entry self t k v) ->
  forall k v, In (k, v) m -> srumid_entry self t k v.
Proof.
  induction recs as [|j rest IH]; intros acc m H Hrecs Hacc; cbn [srumid_loop] in H.
  - inversion H; subst. exact Hacc.
  - destruct (column_index (column_lookup t) (lit "IdBlob")) as [ib|] eqn:Eib; cbn [bind] in H; [|discriminate].
    destruct (_smart_retrieve t j ib) as [blob|] eqn:Eb; cbn [bind] in H; [|discriminate].
    destruct (column_index (column_lookup t) (lit "IdType")) as [it|] eqn:Eit; cbn [bind] in H; [|discriminate].
    destruct (_smart_retrieve t j it) as [ty|] eqn:Et; cbn [bind] in H; [|discriminate].
    destruct (column_index (column_lookup t) (lit "IdIndex")) as [ii|] eqn:Eii; cbn [bind] in H; [|discriminate].
    destruct (_smart_retrieve t j ii) as [idx|] eqn:Ei; cbn [bind] in H; [|discriminate].
    assert (Hj : (j < Z.to_nat (_ese_table_record_count t))%nat) by (apply Hrecs; left; reflexivity).
    apply (IH _ _ H); [intros j' Hj'; apply Hrecs; right; exact Hj'|].
    intros k v Hin. apply dict_set_In in Hin as [Hin|[[-> ->]|[Hk [-> [y' Hy']]]]].
    + apply Hacc. exact Hin.
    + split.
      * exists j. split; [exact Hj|exists ii; split; assumption].
      * exists j, blob, ty, idx. repeat split; try exact Hj; try (eexists; split; eassumption).
        left. reflexivity.
    + split; [apply (Hacc k y' Hy')|].
      exists j, blob, ty, idx. repeat split; try exact Hj; try (eexists; split; eassumption).
      right. exact Hk.
Qed.

Lemma srumid_loop_keys (recs : list nat) :
  forall acc m, srumid_loop self t (column_lookup t) recs acc = Ok m ->
  forall x y, In (x, y) acc -> exists y', In (x, y') m.
Proof.
  induction recs as [|j rest IH]; intros acc m H x y Hin; cbn [srumid_loop] in H.
  - inversion H; subst. eauto.
  - destruct (column_index (column_lookup t) (lit "IdBlob")) as [ib|]; cbn [bind] in H; [|discriminate].
    destruct (_smart_retrieve t j ib) as [blob|]; cbn [bind] in H; [|discriminate].
    destruct (column_index (column_lookup t) (lit "IdType")) as [it|]; cbn [bind] in H; [|discriminate].
    destruct (_smart_retrieve t j it) as [ty|]; cbn [bind] in H; [|discriminate].
    destruct (column_index (column_lookup t) (lit "IdIndex")) as [ii|]; cbn [bind] in H; [|discriminate].
    destruct (_smart_retrieve t j ii) as [idx|]; cbn [bind] in H; [|discriminate].
    destruct (dict_set_keeps_keys py_eq idx (resolve_id_blob self ty blob) acc x y Hin) as [y' Hy'].
    apply (IH _ _ H x y' Hy').
Qed.

Lemma srumid_loop_complete (recs : list nat) :
  forall acc m, srumid_loop self t (column_lookup t) recs acc = Ok m ->
  forall j, In j recs ->
  exists k v idx, In (k, v) m /\ id_column_value t (lit "IdIndex") j idx
                  /\ (k = idx \/ py_eq k idx = true).
Proof.
  induction recs as [|j0 rest IH]; intros acc m H j Hj; [destruct Hj|]. cbn [srumid_loop] in H.
  destruct (column_index (column_lookup t) (lit "IdBlob")) as [ib|]; cbn [bind] in H; [|discriminate].
  destruct (_smart_retrieve t j0 ib) as [blob|]; cbn [bind] in H; [|discriminate].
  destruct (column_index (column_lookup t) (lit "IdType")) as [it|]; cbn [bind] in H; [|discriminate].
  destruct (_smart_retrieve t j0 it) as [ty|]; cbn [bind] in H; [|discriminate].
  destruct (column_index (column_lookup t) (lit "IdIndex")) as [ii|] eqn:Eii; cbn [bind] in H; [|discriminate].
  destruct (_smart_retrieve t j0 ii) as [idx|] eqn:Ei; cbn [bind] in H; [|discriminate].
  destruct Hj as [<-|Hj]; [|apply (IH _ _ H j Hj)].
  destruct (dict_set_has_key py_eq idx (resolve_id_blob self ty blob) acc) as [x [y [Hin Hx]]].
  destruct (srumid_loop_keys rest _ _ H x y Hin) as [y' Hy'].
  exists x, y', idx. split; [exact Hy'|split; [exists ii; split; assumption|exact Hx]].
Qed.

Lemma srumid_loop_missing_column (rest : list nat) (acc : dict pyval pyval) :
  Exists (fun name => dict_get pystr_eqb name (column_lookup t) = None)
    [lit "IdBlob"; lit "IdType"; lit "IdIndex"] ->
  exists e, srumid_loop self t (column_lookup t) (0%nat :: rest) acc = Raise e.
Proof.
  intros Hmiss. cbn [srumid_loop].
  unfold column_index.
  destruct (dict_get pystr_eqb (lit "IdBlob") (column_lookup t)) as [ib|] eqn:Eib; cbn [bind]; [|eauto].
  destruct (_smart_retrieve t 0 ib) as [blob|e]; cbn [bind]; [|eauto].
  destruct (dict_get pystr_eqb (lit "IdType") (column_lookup t)) as [it|] eqn:Eit; cbn [bind]; [|eauto].
  destruct (_smart_retrieve t 0 it) as [ty|e]; cbn [bind]; [|eauto].
  destruct (dict_get pystr_eqb (lit "IdIndex") (column_lookup t)) as [ii|] eqn:Eii; cbn [bind]; [|eauto].
  exfalso. inversion Hmiss as [? ? Hm|? ? Hm]; subst; [congruence|].
  inversion Hm as [? ? Hm'|? ? Hm']; subst; [congruence|].
  inversion Hm' as [? ? Hm''|? ? Hm'']; subst; [congruence|].
  inversion Hm''.
Qed.
End SrumidProofs.

Section SrumidSpec.
Context `{EX : Externals}.

(** C7 (as amended): with no 'SruDbIdMapTable' the resolver returns an
    empty map; when the table has records but lacks one of the columns
    'IdBlob', 'IdType', 'IdIndex', the resolver raises; when it returns a
    map, every entry is stored under a record's decoded IdIndex with that
    record's blob resolved (IdType 3: SID decoder; other non-sentinel
    blobs: Blob/Text Normalizer), and every record's IdIndex is a key. *)
Theorem load_srumid_lookups_spec (self : analyzer) (db : ese_db) :
  (get_table_by_name db id_map_table = None -> _load_srumid_lookups self db = Ok [])
  /\ (forall t, get_table_by_name db id_map_table = Some t ->
        0 < _ese_table_record_count t ->
        Exists (fun name => dict_get pystr_eqb name (column_lookup t) = None)
          [lit "IdBlob"; lit "IdType"; lit "IdIndex"] ->
        exists e, _load_srumid_lookups self db = Raise e)
  /\ (forall t m, get_table_by_name db id_map_table = Some t ->
        _load_srumid_lookups self db = Ok m ->
        (forall k v, In (k, v) m -> srumid_entry self t k v)
        /\ (forall j, (j < Z.to_nat (_ese_table_record_count t))%nat ->
              exists k v idx, In (k, v) m /\ id_column_value t (lit "IdIndex") j idx
                              /\ (k = idx \/ py_eq k idx = true))).
Proof.
  unfold _load_srumid_lookups. split; [|split].
  - intros ->. reflexivity.
  - intros t Ht Hpos Hmiss. rewrite Ht.
    destruct (Z.to_nat (_ese_table_record_count t)) as [|n] eqn:En; [lia|].
    cbn [seq]. apply srumid_loop_missing_column. exact Hmiss.
  - intros t m Ht H. rewrite Ht in H. split.
    + apply (srumid_loop_entries self t _ _ _ H).
      * intros j Hj. apply in_seq in Hj. lia.
      * intros k v [].
    + intros j Hj. apply (srumid_loop_complete self t _ _ _ H). apply in_seq. lia.
Qed.
End SrumidSpec.

(** * Properties of the rest of the code *)

(** ** Decoder byte layouts, blobs and SIDs *)

Lemma le_value_le_bytes (n : nat) : forall v, le_value (le_bytes n v) = v mod 2 ^ (8 * Z.of_nat n).
Proof.
  induction n as [|n IH]; intros v.
  - cbn. rewrite Z.mod_1_r. reflexivity.
  - cbn [le_bytes le_value fold_right]. fold (le_value (le_bytes n (v / 256))).
    rewrite IH.
    replace (2 ^ (8 * Z.of_nat (S n))) with (256 * 2 ^ (8 * Z.of_nat n))
      by (rewrite Nat2Z.inj_succ, Z.mul_succ_r, Z.pow_add_r by lia; lia).
    rewrite Z.rem_mul_r by (try lia; apply Z.pow_pos_nonneg; lia).
    lia.
Qed.

Lemma length_le_bytes (n : nat) : forall v, List.length (le_bytes n v) = n.
Proof. induction n as [|n IH]; intros v; cbn; [reflexivity|rewrite IH; reflexivity]. Qed.

Lemma le_bytes_bytes (n : nat) : forall v, Forall is_byte (le_bytes n v).
Proof.
  induction n as [|n IH]; intros v; cbn; constructor; [|apply IH].
  unfold is_byte. pose proof (Z.mod_pos_bound v 256). lia.
Qed.

Lemma hex_digit_value (d : Z) : 0 <= d < 16 -> hex_value (hex_digit d) = Some d.
Proof.
  intros Hd. unfold hex_digit, hex_value.
  destruct (Z.ltb_spec d 10);
  repeat match goal with |- context [?a <=? ?b] => destruct (Z.leb_spec a b) end;
  cbn [andb].
  all: try lia.
  all: try (f_equal; lia).
Qed.

Lemma hex_decode_encode (bs : bytes) : Forall is_byte bs -> hex_decode (hex_encode bs) = Ok bs.
Proof.
  induction 1 as [|b bs Hb _ IH]; [reflexivity|].
  unfold is_byte in Hb. cbn [hex_encode flat_map app hex_decode].
  fold (hex_encode bs).
  rewrite !hex_digit_value
    by (first [split; [apply Z.div_pos; lia|apply Z.div_lt_upper_bound; lia]
              |apply Z.mod_pos_bound; lia]).
  rewrite IH. cbn [bind]. f_equal. f_equal. pose proof (Z.div_mod b 16). lia.
Qed.

Lemma strip0_nonzero (s : pystr) : Forall (fun c => c <> 0) s -> strip0 s = s.
Proof.
  intros H. unfold strip0. rewrite (lstrip0_nonzero s H).
  rewrite lstrip0_nonzero by (apply Forall_rev; exact H). apply rev_involutive.
Qed.

Lemma match_utf16le_pairs_nl (s : pystr) :
  s <> [] -> Forall (fun c => c <> 0) s ->
  match_utf16le (flat_map (fun c => [c; 0]) s ++ [0; 0; 10]) = true.
Proof.
  induction s as [|c s IH]; intros Hne Hnz; [congruence|].
  inversion Hnz as [|? ? Hc Hs]; subst.
  cbn [flat_map app match_utf16le].
  assert (Hc' : (c =? 0) = false) by (apply Z.eqb_neq; exact Hc). rewrite Hc'.
  destruct s as [|c' s'].
  - reflexivity.
  - rewrite (IH ltac:(discriminate) Hs). rewrite orb_true_r. reflexivity.
Qed.

Lemma utf16_units_pairs_nl (s : pystr) :
  utf16_units true (flat_map (fun c => [c; 0]) s ++ [0; 0; 10]) = None.
Proof.
  induction s as [|c s IH]; [reflexivity|].
  cbn [flat_map app utf16_units]. rewrite IH. reflexivity.
Qed.

Lemma match_utf16be_pairs (s : pystr) :
  s <> [] -> Forall (fun c => c <> 0) s ->
  match_utf16be (flat_map (fun c => [0; c]) s ++ [0; 0]) = true.
Proof.
  induction s as [|c s IH]; intros Hne Hnz; [congruence|].
  inversion Hnz as [|? ? Hc Hs]; subst.
  cbn [flat_map app match_utf16be].
  assert (Hc' : (c =? 0) = false) by (apply Z.eqb_neq; exact Hc). rewrite Hc'.
  destruct s as [|c' s'].
  - reflexivity.
  - rewrite (IH ltac:(discriminate) Hs). rewrite orb_true_r. reflexivity.
Qed.

Lemma utf16_units_pairs_be (s : pystr) :
  utf16_units false (flat_map (fun c => [0; c]) s ++ [0; 0]) = Some (s ++ [0]).
Proof.
  induction s as [|c s IH]; [reflexivity|].
  cbn [flat_map app utf16_units]. rewrite IH. cbn. f_equal.
Qed.

Lemma match_utf16le_no_zero (bs : bytes) :
  Forall (fun c => c <> 0) bs -> match_utf16le bs = false.
Proof.
  intros H. destruct bs as [|x [|y r]]; [reflexivity|reflexivity|].
  inversion H as [|? ? _ H']; inversion H' as [|? ? Hy _]; subst.
  cbn [match_utf16le]. apply Z.eqb_neq in Hy. rewrite Hy, andb_false_r. reflexivity.
Qed.

Lemma match_utf16be_no_zero (bs : bytes) :
  Forall (fun c => c <> 0) bs -> match_utf16be bs = false.
Proof.
  intros H. destruct bs as [|x [|y r]]; [reflexivity|reflexivity|].
  inversion H as [|? ? Hx _]; subst.
  cbn [match_utf16be]. apply Z.eqb_neq in Hx. rewrite Hx. reflexivity.
Qed.

Lemma blob_no_zero_identity (bs : bytes) :
  Forall (fun c => c <> 0) bs -> _blob_to_string (BBytes bs) = bs.
Proof.
  intros H. unfold _blob_to_string, decode_chrblob.
  rewrite match_utf16le_no_zero, match_utf16be_no_zero, strip0_nonzero by exact H.
  reflexivity.
Qed.

Section ExtraBlob.
Context `{EX : Externals}.

(** _blob_to_string given the hex text of some bytes returns what it returns for the bytes themselves. *)
Theorem blob_to_string_hex_text (bs : bytes) :
  Forall is_byte bs ->
  _blob_to_string (BVal (PStr (hex_encode bs))) = _blob_to_string (BBytes bs).
Proof.
  intros H. cbn [_blob_to_string]. rewrite hex_decode_encode by exact H.
  destruct (decode_chrblob bs); reflexivity.
Qed.

(** A UTF-16LE blob ending in 00 00 and a newline byte passes the pattern test (its [$] matches before a final newline) but fails to decode, so _blob_to_string returns the blob's hex text. *)
Theorem blob_to_string_utf16le_newline (s : pystr) :
  s <> [] -> Forall (fun c => c <> 0) s ->
  _blob_to_string (BBytes (flat_map (fun c => [c; 0]) s ++ [0; 0; 10]))
  = hex_encode (flat_map (fun c => [c; 0]) s ++ [0; 0; 10]).
Proof.
  intros Hne Hnz. unfold _blob_to_string, decode_chrblob, utf16_decode.
  rewrite match_utf16le_pairs_nl, utf16_units_pairs_nl by assumption. reflexivity.
Qed.

(** A non-empty text of characters 1..255 encoded as UTF-16BE and ended by 00 00 is decoded back to the text. *)
Theorem blob_to_string_utf16be_roundtrip (s : pystr) :
  s <> [] -> Forall (fun c => 1 <= c <= 255) s ->
  _blob_to_string (BBytes (flat_map (fun c => [0; c]) s ++ [0; 0])) = s.
Proof.
  intros Hne Hrange.
  assert (Hnz : Forall (fun c => c <> 0) s)
    by (eapply Forall_impl; [|exact Hrange]; cbn; intros; lia).
  assert (Hbyte : Forall (fun c => 0 <= c <= 255) s)
    by (eapply Forall_impl; [|exact Hrange]; cbn; intros; lia).
  unfold _blob_to_string, decode_chrblob, utf16_decode.
  assert (Hle : match_utf16le (flat_map (fun c => [0; c]) s ++ [0; 0]) = false)
    by (destruct s; [congruence|reflexivity]).
  rewrite Hle, match_utf16be_pairs by assumption.
  rewrite utf16_units_pairs_be, utf16_combine_bmp.
  - cbn [bind]. rewrite strip0_trailing_null by assumption. reflexivity.
  - apply Forall_app. split; [exact Hbyte|]. constructor; [lia|constructor].
Qed.

(** A blob without zero bytes comes back unchanged, one character per byte (latin-1). *)
Theorem blob_to_string_latin1 (bs : bytes) :
  Forall (fun c => c <> 0) bs -> _blob_to_string (BBytes bs) = bs.
Proof.
  exact (blob_no_zero_identity bs).
Qed.
End ExtraBlob.

Lemma signed_of_unsigned (n : nat) (v : Z) :
  (0 < n)%nat -> in_int_range n true v ->
  (if v mod 2 ^ (8 * Z.of_nat n) >=? 2 ^ (8 * Z.of_nat n - 1)
   then v mod 2 ^ (8 * Z.of_nat n) - 2 ^ (8 * Z.of_nat n) else v mod 2 ^ (8 * Z.of_nat n)) = v.
Proof.
  intros Hn Hr. unfold in_int_range in Hr.
  assert (HM : 2 ^ (8 * Z.of_nat n) = 2 * 2 ^ (8 * Z.of_nat n - 1)).
  { replace (8 * Z.of_nat n) with (Z.succ (8 * Z.of_nat n - 1)) at 1 by lia.
    apply Z.pow_succ_r. lia. }
  assert (HH : 0 < 2 ^ (8 * Z.of_nat n - 1)) by (apply Z.pow_pos_nonneg; lia).
  rewrite HM. destruct (Z.leb_spec 0 v) as [Hv|Hv].
  - rewrite Z.mod_small by lia.
    destruct (Z.geb_spec v (2 ^ (8 * Z.of_nat n - 1))); lia.
  - rewrite <- (Z_mod_plus_full v 1), Z.mod_small by lia.
    destruct (Z.geb_spec (v + 1 * (2 * 2 ^ (8 * Z.of_nat n - 1))) (2 ^ (8 * Z.of_nat n - 1))); lia.
Qed.

Lemma slice_incl {A} (l : list A) (a b : nat) : incl (slice l a b) l.
Proof.
  unfold slice. intros x Hx.
  assert (H : In x (skipn a l)).
  { rewrite <- (firstn_skipn (b - a) (skipn a l)). apply in_or_app. left. exact Hx. }
  rewrite <- (firstn_skipn a l). apply in_or_app. right. exact H.
Qed.

Lemma hex_digit_range (d : Z) : 0 <= d < 16 -> 48 <= hex_digit d <= 57 \/ 97 <= hex_digit d <= 102.
Proof. intros H. unfold hex_digit. destruct (Z.ltb_spec d 10); lia. Qed.

Lemma filter_hex_encode (bs : bytes) :
  Forall is_byte bs -> filter (fun ch => negb (ch =? 45)) (hex_encode bs) = hex_encode bs.
Proof.
  induction 1 as [|b bs Hb _ IH]; [reflexivity|].
  unfold is_byte in Hb. cbn [hex_encode flat_map app filter]. fold (hex_encode bs).
  pose proof (hex_digit_range (b / 16) ltac:(split; [apply Z.div_pos; lia|apply Z.div_lt_upper_bound; lia])).
  pose proof (hex_digit_range (b mod 16) ltac:(apply Z.mod_pos_bound; lia)).
  destruct (Z.eqb_spec (hex_digit (b / 16)) 45); [lia|].
  destruct (Z.eqb_spec (hex_digit (b mod 16)) 45); [lia|].
  cbn [negb]. rewrite IH. reflexivity.
Qed.

Section ExtraDecoder.
Context `{EX : Externals}.

Lemma smart_retrieve_cell (t : ese_table) (i c : nat) (r : ese_record) (nm : pystr)
    (ct : coltype) (d : bytes) :
  _ese_table_get_record t i = Some r -> nth_error (t_columns t) c = Some (Column nm ct) ->
  nth_error r c = Some (Some d) ->
  _smart_retrieve t i c
  = match decode_typed ct d with
    | Ok (Some v) => Ok v
    | Ok None => Ok (PStr (_blob_to_string (BBytes d)))
    | Raise e => if caught_by_decoder e then Ok (PStr (_blob_to_string (BBytes d))) else Raise e
    end.
Proof.
  intros Hr Hc Hd. unfold _smart_retrieve, get_column_type, get_value_data.
  rewrite Hr, Hc. cbn [bind col_type]. rewrite Hd. reflexivity.
Qed.

(** For a binary column, _smart_retrieve returns the hex text of the cell bytes, and bytes.fromhex of that text gives the bytes back. *)
Theorem smart_retrieve_binary_hex (t : ese_table) (i c : nat) (r : ese_record) (nm : pystr)
    (ct : coltype) (d : bytes) :
  _ese_table_get_record t i = Some r -> nth_error (t_columns t) c = Some (Column nm ct) ->
  In ct [BINARY_DATA; LARGE_BINARY_DATA; SUPER_LARGE_VALUE] ->
  nth_error r c = Some (Some d) -> Forall is_byte d ->
  _smart_retrieve t i c = Ok (PStr (hex_encode d)) /\ hex_decode (hex_encode d) = Ok d.
Proof.
  intros Hr Hc Hct Hd Hb. rewrite (smart_retrieve_cell t i c r nm ct d Hr Hc Hd).
  split; [|apply hex_decode_encode; exact Hb].
  destruct Hct as [<-|[<-|[<-|[]]]]; reflexivity.
Qed.

(** For an integer column, a cell holding the little-endian bytes of a value in the type's range decodes to that value. *)
Theorem smart_retrieve_int_roundtrip (t : ese_table) (i c : nat) (r : ese_record) (nm : pystr)
    (ct : coltype) (w : nat) (signed : bool) (v : Z) :
  _ese_table_get_record t i = Some r -> nth_error (t_columns t) c = Some (Column nm ct) ->
  int_layout ct = Some (w, signed) ->
  nth_error r c = Some (Some (le_bytes w v)) -> in_int_range w signed v ->
  _smart_retrieve t i c = Ok (PInt v).
Proof.
  intros Hr Hc Hl Hd Hv. rewrite (smart_retrieve_cell t i c r nm ct _ Hr Hc Hd).
  assert (Hu : unpack_le w (le_bytes w v) = Ok (v mod 2 ^ (8 * Z.of_nat w))).
  { unfold unpack_le. rewrite length_le_bytes, Nat.eqb_refl, le_value_le_bytes. reflexivity. }
  destruct ct; cbn in Hl; try discriminate; inversion Hl; subst w signed;
    cbn [decode_typed]; unfold unpack_le_signed; rewrite Hu; cbn [bind];
    try (rewrite signed_of_unsigned by (lia || exact Hv); reflexivity);
    unfold in_int_range in Hv; rewrite Z.mod_small by lia; reflexivity.
Qed.

(** For a fixed-width column, a cell of another byte length is shown through _blob_to_string instead of as a number. *)
Theorem smart_retrieve_bad_width (t : ese_table) (i c : nat) (r : ese_record) (nm : pystr)
    (ct : coltype) (w : nat) (d : bytes) :
  _ese_table_get_record t i = Some r -> nth_error (t_columns t) c = Some (Column nm ct) ->
  struct_width ct = Some w -> nth_error r c = Some (Some d) -> List.length d <> w ->
  _smart_retrieve t i c = Ok (PStr (_blob_to_string (BBytes d))).
Proof.
  intros Hr Hc Hw Hd Hlen. rewrite (smart_retrieve_cell t i c r nm ct d Hr Hc Hd).
  apply Nat.eqb_neq in Hlen.
  destruct ct; cbn in Hw; try discriminate; inversion Hw; subst w;
    cbn [decode_typed]; unfold unpack_le_signed, unpack_le; rewrite Hlen; reflexivity.
Qed.

(** For a GUID column with a 16-byte cell, _smart_retrieve returns 36 characters with dashes at 8, 13, 18 and 23, and without the dashes the hex text of the bytes in stored order. *)
Theorem smart_retrieve_guid_text (t : ese_table) (i c : nat) (r : ese_record) (nm : pystr)
    (d : bytes) :
  _ese_table_get_record t i = Some r -> nth_error (t_columns t) c = Some (Column nm GUID) ->
  nth_error r c = Some (Some d) -> List.length d = 16%nat -> Forall is_byte d ->
  exists s, _smart_retrieve t i c = Ok (PStr s)
    /\ List.length s = 36%nat
    /\ nth 8 s 0 = 45 /\ nth 13 s 0 = 45 /\ nth 18 s 0 = 45 /\ nth 23 s 0 = 45
    /\ filter (fun ch => negb (ch =? 45)) s = hex_encode d.
Proof.
  intros Hr Hc Hd Hlen Hb. rewrite (smart_retrieve_cell t i c r nm GUID d Hr Hc Hd).
  cbn [decode_typed]. unfold uuid_str. rewrite Hlen. cbn [Nat.eqb bind].
  eexists. split; [reflexivity|].
  assert (Hs : forall a b, Forall is_byte (slice d a b))
    by (intros a b; eapply incl_Forall; [apply slice_incl|exact Hb]).
  assert (Hf : filter (fun ch => negb (ch =? 45))
                 (hex_encode (slice d 0 4) ++ [45] ++ hex_encode (slice d 4 6) ++ [45]
                  ++ hex_encode (slice d 6 8) ++ [45] ++ hex_encode (slice d 8 10) ++ [45]
                  ++ hex_encode (slice d 10 16))
               = hex_encode (slice d 0 4 ++ slice d 4 6 ++ slice d 6 8 ++ slice d 8 10
                             ++ slice d 10 16)).
  { rewrite !filter_app, !filter_hex_encode by apply Hs. cbn [filter Z.eqb negb].
    unfold hex_encode. rewrite !flat_map_app. reflexivity. }
  rewrite Hf. clear Hf Hs Hb Hd Hr Hc.
  do 16 (destruct d as [|? d]; [discriminate|]). destruct d; [|discriminate].
  cbn. repeat split; reflexivity.
Qed.
End ExtraDecoder.

Lemma skipn_length_app {A} (l1 l2 : list A) : skipn (List.length l1) (l1 ++ l2) = l2.
Proof. induction l1 as [|x l1 IH]; [reflexivity|exact IH]. Qed.

Lemma firstn_length_app {A} (l1 l2 : list A) : firstn (List.length l1) (l1 ++ l2) = l1.
Proof. induction l1 as [|x l1 IH]; [reflexivity|cbn; f_equal; exact IH]. Qed.

Lemma fold_be_rev (l : bytes) : forall a,
  fold_left (fun acc b => acc * 256 + b) (rev l) a = a * 256 ^ Z.of_nat (List.length l) + le_value l.
Proof.
  induction l as [|x l IH]; intros a.
  - cbn. lia.
  - cbn [rev List.length]. rewrite fold_left_app, IH. cbn [fold_left le_value fold_right].
    fold (le_value l). rewrite Nat2Z.inj_succ, Z.pow_succ_r by lia. lia.
Qed.

Lemma sid_sub_auths_bytes (subs : list Z) :
  Forall (fun x => 0 <= x < 2 ^ 32) subs ->
  forall pre i acc, List.length pre = (8 + 4 * i)%nat ->
  sid_sub_auths (pre ++ flat_map (le_bytes 4) subs) i (List.length subs) acc
  = Ok (acc ++ flat_map (fun x => [45] ++ dec_str x) subs).
Proof.
  induction 1 as [|x subs Hx _ IH]; intros pre i acc Hpre.
  - cbn. rewrite app_nil_r. reflexivity.
  - cbn [List.length sid_sub_auths flat_map].
    assert (Hs : slice (pre ++ le_bytes 4 x ++ flat_map (le_bytes 4) subs) (8 + 4 * i) (12 + 4 * i)
                 = le_bytes 4 x).
    { unfold slice. replace (12 + 4 * i - (8 + 4 * i))%nat with 4%nat by lia.
      rewrite <- Hpre, skipn_length_app.
      rewrite <- (length_le_bytes 4 x) at 1. apply firstn_length_app. }
    rewrite Hs. unfold unpack_le. rewrite length_le_bytes, le_value_le_bytes. cbn [Nat.eqb bind].
    rewrite (Z.mod_small x) by (cbn; lia).
    rewrite app_assoc. rewrite (IH (pre ++ le_bytes 4 x) (S i)).
    + rewrite <- !app_assoc. reflexivity.
    + rewrite length_app, length_le_bytes. lia.
Qed.

Section ExtraSid.
Context `{EX : Externals}.

(** The hex text of a well-formed binary SID is turned into [S-rev-auth-sub1-...] followed by its Known SIDS name in parentheses. *)
Theorem binary_sid_roundtrip (self : analyzer) (revision auth : Z) (subs : list Z) :
  0 <= revision <= 255 -> 0 <= auth < 2 ^ 48 -> (List.length subs <= 255)%nat ->
  Forall (fun x => 0 <= x < 2 ^ 32) subs ->
  _binary_sid_to_string_sid self (PStr (hex_encode (sid_bytes revision auth subs)))
  = sid_text revision auth subs ++ lit " ("
    ++ known_sid_name self (sid_text revision auth subs) ++ lit ")".
Proof.
  intros Hr Ha Hn Hs.
  assert (Hb : Forall is_byte (sid_bytes revision auth subs)).
  { unfold sid_bytes. apply Forall_app. split.
    - repeat constructor; unfold is_byte; lia.
    - apply Forall_app. split; [apply Forall_rev, le_bytes_bytes|].
      apply Forall_flat_map. apply Forall_forall. intros x _. apply le_bytes_bytes. }
  unfold _binary_sid_to_string_sid, sid_try.
  assert (Hne : exists c s', hex_encode (sid_bytes revision auth subs) = c :: s')
    by (eexists; eexists; reflexivity).
  destruct Hne as [c [s' Hcs]]. rewrite Hcs. cbn [py_truthy negb]. rewrite <- Hcs.
  rewrite hex_decode_encode by exact Hb. cbn [bind].
  unfold sid_bytes at 1 2. cbn [app index nth_error bind].
  assert (Hsl : slice (sid_bytes revision auth subs) 2 8 = rev (le_bytes 6 auth)).
  { unfold slice, sid_bytes. cbn [app skipn]. replace (8 - 2)%nat with 6%nat by lia.
    rewrite <- (length_le_bytes 6 auth) at 1. rewrite <- length_rev. apply firstn_length_app. }
  rewrite Hsl.
  unfold unpack_be. cbn [List.length]. rewrite length_rev, length_le_bytes. cbn [Nat.eqb bind].
  unfold be_value. cbn [fold_left]. rewrite fold_be_rev, le_value_le_bytes.
  rewrite (Z.mod_small auth) by (cbn; lia). cbn [bind].
  rewrite Nat2Z.id.
  assert (Hpre : List.length ([revision; Z.of_nat (List.length subs)] ++ rev (le_bytes 6 auth))
                 = (8 + 4 * 0)%nat)
    by (rewrite length_app, length_rev, length_le_bytes; reflexivity).
  assert (Hsb : sid_bytes revision auth subs
                = ([revision; Z.of_nat (List.length subs)] ++ rev (le_bytes 6 auth))
                  ++ flat_map (le_bytes 4) subs)
    by (unfold sid_bytes; rewrite app_assoc; reflexivity).
  rewrite Hsb, (sid_sub_auths_bytes subs Hs _ 0 _ Hpre). cbn [bind].
  replace (((0 * 256 + 0) * 256 + 0) * 256 ^ Z.of_nat 6 + auth) with auth by lia.
  unfold sid_text. rewrite <- !app_assoc. reflexivity.
Qed.
End ExtraSid.

(** ** Known SIDS, template tables, table processor *)

Lemma py_eq_str_r (v : pyval) (s : pystr) : py_eq v (PStr s) = true -> v = PStr s.
Proof.
  destruct v as [| | |f|t|]; cbn; try discriminate;
    try (destruct f; cbn; discriminate).
  intros H. apply pystr_eqb_spec in H. subst. reflexivity.
Qed.

Lemma dict_get_set_pstr {V} (s : pystr) (k : pyval) (v : V) (d : dict pyval V) :
  dict_get py_eq (PStr s) (dict_set py_eq k v d)
  = if py_eq k (PStr s) then Some v else dict_get py_eq (PStr s) d.
Proof.
  induction d as [|[k' v'] d IH]; cbn [dict_set dict_get].
  - destruct (py_eq k (PStr s)); reflexivity.
  - destruct (py_eq k' k) eqn:E; cbn [dict_get].
    + destruct (py_eq k' (PStr s)) eqn:E'.
      * apply py_eq_str_r in E'. subst k'.
        destruct k as [| | |f|t|]; cbn in E; try discriminate;
          try (destruct f; cbn in E; discriminate).
        apply pystr_eqb_spec in E. subst. cbn. rewrite pystr_eqb_refl. reflexivity.
      * destruct (py_eq k (PStr s)) eqn:E''; [|reflexivity].
        apply py_eq_str_r in E''. subst k.
        destruct k' as [| | |f|t|]; cbn in E; try discriminate;
          try (destruct f; cbn in E; discriminate).
        apply pystr_eqb_spec in E. subst. cbn in E'. rewrite pystr_eqb_refl in E'. discriminate.
    + destruct (py_eq k' (PStr s)) eqn:E'.
      * destruct (py_eq k (PStr s)) eqn:E''; [|reflexivity].
        apply py_eq_str_r in E'. apply py_eq_str_r in E''. subst.
        cbn in E. rewrite pystr_eqb_refl in E. discriminate.
      * exact IH.
Qed.

Lemma dict_get_update_pstr {V} (s : pystr) (e : dict pyval V) :
  NoDup (map fst e) -> forall d,
  dict_get py_eq (PStr s) (dict_update py_eq d e)
  = match dict_get py_eq (PStr s) e with
    | Some v => Some v
    | None => dict_get py_eq (PStr s) d
    end.
Proof.
  induction e as [|[k v] e IH]; intros Hnd d; [reflexivity|].
  inversion Hnd as [|? ? Hk Hnd']; subst.
  unfold dict_update. cbn [fold_left fst snd]. fold (dict_update py_eq (dict_set py_eq k v d) e).
  rewrite (IH Hnd'), dict_get_set_pstr. cbn [dict_get].
  destruct (py_eq k (PStr s)) eqn:E; [|reflexivity].
  apply py_eq_str_r in E. subst k.
  destruct (dict_get py_eq (PStr s) e) as [w|] eqn:Eg; [|reflexivity].
  exfalso. apply dict_get_In in Eg. destruct Eg as [x [Hx Hxk]].
  apply py_eq_str_r in Hxk. subst x. apply Hk. apply (in_map fst) in Hx. exact Hx.
Qed.

Section ExtraSids.
Context `{EX : Externals}.

(** After [analyze] merges the registry SIDs into 'Known SIDS', a SID is named by the registry first, then by the template sheet, else 'unknown'. *)
Theorem known_sid_name_registry_first (self : analyzer) (tt : template_tables_t)
    (tl : template_lookups_t) (s : pystr) :
  NoDup (map fst (regsids self)) ->
  known_sid_name (with_templates self tt tl) s
  = match dict_get py_eq (PStr s) (regsids self) with
    | Some v => py_str v
    | None =>
        match dict_get pystr_eqb known_sids tl with
        | Some tbl => match dict_get py_eq (PStr s) tbl with
                      | Some v => py_str v
                      | None => lit "unknown"
                      end
        | None => lit "unknown"
        end
    end.
Proof.
  intros Hnd. unfold known_sid_name, with_templates. cbn [template_lookups].
  destruct (regsids self) as [|kv sids] eqn:E; [reflexivity|].
  rewrite <- E. unfold merge_known_sids.
  rewrite dict_get_set_str, pystr_eqb_refl, dict_get_update_pstr by (rewrite E; exact Hnd).
  destruct (dict_get py_eq (PStr s) (regsids self)); [reflexivity|].
  destruct (dict_get pystr_eqb known_sids tl); reflexivity.
Qed.
End ExtraSids.

Section ExtraTemplates.
Context `{EX : Externals}.

Lemma template_fields_In (sh : sheet) (cols : list nat) :
  forall acc f e, In (f, e) (template_fields sh cols acc) ->
  In (f, e) acc \/
  exists pre col post, cols = pre ++ col :: post
    /\ Forall (fun c => py_truthy (cell_value sh 2 c) = true) pre
    /\ py_truthy (cell_value sh 2 col) = true
    /\ (f = cell_value sh 2 col \/ py_eq f (cell_value sh 2 col) = true)
    /\ e = (cell_style sh 4 col, cell_value sh 3 col,
            py_or (cell_value sh 4 col) (cell_value sh 2 col)).
Proof.
  induction cols as [|c cols IH]; intros acc f e H; cbn [template_fields] in H; [left; exact H|].
  destruct (py_truthy (cell_value sh 2 c)) eqn:Ht; cbn [negb] in H; [|left; exact H].
  destruct (IH _ _ _ H) as [H'|[pre [col [post [Hc [Hpre [Hcol [Hf He]]]]]]]].
  - apply dict_set_In in H'. destruct H' as [H'|[[Hf He]|[Hf [He _]]]].
    + left. exact H'.
    + right. exists [], c, cols. subst. repeat split; auto.
    + right. exists [], c, cols. subst. repeat split; auto.
  - right. exists (c :: pre), col, post. subst. repeat split; auto.
Qed.

Lemma template_tables_loop_In (sheets : list sheet) :
  forall acc k title fields,
  In (k, (title, fields)) (fold_left (fun tables sh =>
    if is_lookup_sheet sh then tables
    else
      let ese_table := cell_value sh 1 1 in
      if negb (py_truthy ese_table) then tables
      else dict_set py_eq ese_table
             (sh_name sh, template_fields sh (seq 1 (max_column sh)) []) tables) sheets acc) ->
  In (k, (title, fields)) acc \/
  exists sh, In sh sheets /\ is_lookup_sheet sh = false
    /\ py_truthy (cell_value sh 1 1) = true
    /\ (k = cell_value sh 1 1 \/ py_eq k (cell_value sh 1 1) = true)
    /\ title = sh_name sh /\ fields = template_fields sh (seq 1 (max_column sh)) [].
Proof.
  induction sheets as [|sh sheets IH]; intros acc k title fields H; cbn [fold_left] in H;
    [left; exact H|].
  destruct (IH _ _ _ _ H) as [H'|[sh' [Hin Hrest]]]; [|right; exists sh'; split; [right; exact Hin|exact Hrest]].
  destruct (is_lookup_sheet sh) eqn:El; [left; exact H'|].
  destruct (py_truthy (cell_value sh 1 1)) eqn:Et; cbn [negb] in H'; [|left; exact H'].
  apply dict_set_In in H'. destruct H' as [H'|[[Hk Hv]|[Hk [Hv _]]]].
  - left. exact H'.
  - inversion Hv; subst. right. exists sh. repeat split; auto. left. reflexivity.
  - inversion Hv; subst. right. exists sh. repeat split; auto. left. reflexivity.
Qed.

(** Every entry of _load_template_tables comes from a non-lookup sheet whose A1 value is its key, and every field from a column of the first run of named columns in row 2, holding (row-4 style, row-3 directive, row-4 value or the field name). *)
Theorem load_template_tables_entries (wb : workbook) (k : pyval) (title : pystr)
    (fields : dict pyval (style * pyval * pyval)) :
  In (k, (title, fields)) (_load_template_tables wb) ->
  exists sh, In sh (wb_sheets wb) /\ is_lookup_sheet sh = false
    /\ py_truthy (cell_value sh 1 1) = true
    /\ (k = cell_value sh 1 1 \/ py_eq k (cell_value sh 1 1) = true)
    /\ title = sh_name sh
    /\ forall f e, In (f, e) fields ->
       exists pre col post, seq 1 (max_column sh) = pre ++ col :: post
         /\ Forall (fun c => py_truthy (cell_value sh 2 c) = true) pre
         /\ py_truthy (cell_value sh 2 col) = true
         /\ (f = cell_value sh 2 col \/ py_eq f (cell_value sh 2 col) = true)
         /\ e = (cell_style sh 4 col, cell_value sh 3 col,
                 py_or (cell_value sh 4 col) (cell_value sh 2 col)).
Proof.
  intros H. unfold _load_template_tables in H.
  destruct (template_tables_loop_In _ _ _ _ _ H) as [[]|[sh [Hin [Hl [Ht [Hk [Hti Hf]]]]]]].
  exists sh. repeat split; auto. intros f e Hfe. subst fields.
  destruct (template_fields_In _ _ _ _ _ Hfe) as [[]|Hx]. exact Hx.
Qed.
End ExtraTemplates.

Section ExtraProcessor.
Context `{EX : Externals}.

Lemma process_cell_str (self : analyzer) (t : ese_table) (names : list pystr) (i c : nat)
    (v : pyval) :
  process_cell self t names i c = Ok v -> exists s, v = PStr s.
Proof.
  unfold process_cell. destruct (_smart_retrieve t i c) as [val|e]; cbn [bind]; [|discriminate].
  destruct (py_eq val (PStr (lit "Error"))); [intros H; inversion H; eauto|].
  destruct val; try (intros H; inversion H; eauto; fail);
  destruct (template_entry self (t_name t)) as [[? tf]|]; try (intros H; inversion H; eauto; fail);
  destruct (dict_get py_eq (PStr (nth c names [])) tf) as [[[? cf] ?]|];
    try (intros H; inversion H; eauto; fail);
  destruct (_format_output_for_gui self _ cf); cbn [bind]; intros H; inversion H; eauto.
Qed.

Lemma process_cells_shape (self : analyzer) (t : ese_table) (names : list pystr) (i : nat)
    (cols : list nat) :
  forall vs, process_cells self t names i cols = Ok vs ->
  List.length vs = List.length cols /\ Forall (fun v => exists s, v = PStr s) vs.
Proof.
  induction cols as [|c cols IH]; intros vs H; cbn [process_cells] in H.
  - inversion H; subst. split; [reflexivity|constructor].
  - destruct (process_cell self t names i c) as [v|e] eqn:Ec; cbn [bind] in H; [|discriminate].
    destruct (process_cells self t names i cols) as [ws|e] eqn:Ew; cbn [bind] in H; [|discriminate].
    inversion H; subst. destruct (IH ws eq_refl) as [Hl Hf].
    split; [cbn; f_equal; exact Hl|]. constructor; [|exact Hf].
    eapply process_cell_str. exact Ec.
Qed.

Lemma process_rows_shape (self : analyzer) (t : ese_table) (names : list pystr) (rows : list nat) :
  forall out, process_rows self t names rows = Ok out ->
  Forall (fun row => List.length row = number_of_columns t
                     /\ Forall (fun v => exists s, v = PStr s) row) out.
Proof.
  induction rows as [|i rows IH]; intros out H; cbn [process_rows] in H.
  - inversion H; subst. constructor.
  - destruct (_ese_table_get_record t i) as [rec|]; [|exact (IH out H)].
    destruct (process_cells self t names i (seq 0 (number_of_columns t))) as [row|e] eqn:Er;
      cbn [bind] in H; [|discriminate].
    destruct (process_rows self t names rows) as [rest|e] eqn:Erest; cbn [bind] in H; [|discriminate].
    inversion H; subst. constructor; [|exact (IH rest eq_refl)].
    destruct (process_cells_shape _ _ _ _ _ _ Er) as [Hl Hf].
    rewrite length_seq in Hl. split; assumption.
Qed.

Lemma header_row_length (self : analyzer) (t : ese_table) :
  List.length (header_row self t) = number_of_columns t.
Proof.
  unfold header_row, number_of_columns.
  destruct (template_entry self (t_name t)) as [[? ?]|]; apply length_map.
Qed.

(** A processed table is a header with one label per column followed by rows of one string per column. *)
Theorem process_table_shape (self : analyzer) (t : ese_table) (out : list (list pyval)) :
  process_table self t = Ok out ->
  exists hdr rows, out = hdr :: rows
    /\ List.length hdr = number_of_columns t
    /\ Forall (fun row => List.length row = number_of_columns t
                          /\ Forall (fun v => exists s, v = PStr s) row) rows.
Proof.
  unfold process_table.
  destruct (process_rows _ _ _ _) as [rows|err] eqn:E; cbn [bind]; [|discriminate].
  intros H. inversion H; subst. exists (header_row self t), rows.
  split; [reflexivity|]. split; [apply header_row_length|].
  exact (process_rows_shape _ _ _ _ _ E).
Qed.

(** A TEXT or LARGE_TEXT cell holding the text 'Error' is displayed as the invalid-column warning. *)
Theorem process_cell_text_error (self : analyzer) (t : ese_table) (i c : nat)
    (r : ese_record) (nm : pystr) (ct : coltype) :
  _ese_table_get_record t i = Some r -> nth_error (t_columns t) c = Some (Column nm ct) ->
  In ct [TEXT; LARGE_TEXT] -> nth_error r c = Some (Some (lit "Error")) ->
  process_cell self t (map col_name (t_columns t)) i c = Ok (PStr (warning_cell nm)).
Proof.
  intros Hr Hc Hct Hd. unfold process_cell.
  rewrite (smart_retrieve_cell t i c r nm ct _ Hr Hc Hd).
  assert (Hb : _blob_to_string (BBytes (lit "Error")) = lit "Error")
    by (apply blob_no_zero_identity; cbn; repeat constructor; discriminate).
  assert (Hn : nth c (map col_name (t_columns t)) [] = nm).
  { apply nth_error_nth. exact (map_nth_error col_name c (t_columns t) Hc). }
  destruct Hct as [<-|[<-|[]]]; cbn [decode_typed bind]; rewrite Hb, Hn;
    cbn [py_eq num_of]; rewrite pystr_eqb_refl; reflexivity.
Qed.
End ExtraProcessor.

Lemma dict_set_str_keys {V} (k : pystr) (v : V) (d : dict pystr V) x :
  In x (map fst (dict_set pystr_eqb k v d)) -> In x (map fst d) \/ x = k.
Proof.
  intros H. apply in_map_iff in H. destruct H as [[x' y] [Hx Hin]]. cbn in Hx. subst x'.
  apply dict_set_In in Hin. destruct Hin as [H|[[Hk _]|[_ [_ [y' Hy']]]]].
  - left. apply (in_map fst) in H. exact H.
  - right. exact Hk.
  - left. apply (in_map fst) in Hy'. exact Hy'.
Qed.

Lemma dict_set_str_NoDup {V} (k : pystr) (v : V) (d : dict pystr V) :
  NoDup (map fst d) -> NoDup (map fst (dict_set pystr_eqb k v d)).
Proof.
  induction d as [|[k' v'] d IH]; intros Hnd; cbn [dict_set].
  - repeat constructor. intros [].
  - inversion Hnd as [|? ? Hk Hnd']; subst.
    destruct (pystr_eqb k' k) eqn:E; cbn [map fst]; [exact Hnd|].
    constructor; [|exact (IH Hnd')].
    intros Hin. destruct (dict_set_str_keys _ _ _ _ Hin) as [H|H]; [exact (Hk H)|].
    subst. rewrite pystr_eqb_refl in E. discriminate.
Qed.

Section ExtraOutput.
Context `{EX : Externals}.

Lemma tables_loop_NoDup (self : analyzer) (skip : list pystr) (tables : list ese_table) :
  forall acc m, NoDup (map fst acc) -> tables_loop self skip tables acc = Ok m ->
  NoDup (map fst m).
Proof.
  induction tables as [|t tables IH]; intros acc m Hnd H; cbn [tables_loop] in H.
  - inversion H; subst. exact Hnd.
  - destruct (in_list (t_name t) skip); [exact (IH _ _ Hnd H)|].
    destruct (_ese_table_record_count t =? 0); [exact (IH _ _ Hnd H)|].
    destruct (process_table self t); cbn [bind] in H; [|discriminate].
    exact (IH _ _ (dict_set_str_NoDup _ _ _ Hnd) H).
Qed.

End ExtraOutput.

(** ** The SRUM and USB views *)

Lemma starts_with_app (s p : pystr) : starts_with s p = true <-> exists y, s = p ++ y.
Proof.
  revert s. induction p as [|x p IH]; intros s.
  - destruct s; cbn; split; (intros _; reflexivity) || (intros _; eexists; reflexivity).
  - destruct s as [|y s]; cbn.
    + split; [discriminate|intros [z Hz]; discriminate].
    + rewrite andb_true_iff, Z.eqb_eq, IH. split.
      * intros [-> [z ->]]. exists z. reflexivity.
      * intros [z Hz]. inversion Hz; subst. split; [reflexivity|exists z; reflexivity].
Qed.

Lemma str_contains_app (a b : pystr) : str_contains a b = true <-> exists x y, b = x ++ a ++ y.
Proof.
  induction b as [|c b IH]; cbn [str_contains].
  - rewrite orb_false_r, starts_with_app. split.
    + intros [y Hy]. exists [], y. exact Hy.
    + intros [x [y Hxy]]. destruct x; [|discriminate]. exists y. exact Hxy.
  - rewrite orb_true_iff, starts_with_app, IH. split.
    + intros [[y Hy]|[x [y Hxy]]].
      * exists [], y. exact Hy.
      * exists (c :: x), y. rewrite Hxy. reflexivity.
    + intros [x [y Hxy]]. destruct x as [|c' x].
      * left. exists y. exact Hxy.
      * right. inversion Hxy; subst. exists x, y. reflexivity.
Qed.

Lemma str_contains_trans (a b c : pystr) :
  str_contains a b = true -> str_contains b c = true -> str_contains a c = true.
Proof.
  rewrite !str_contains_app. intros [x [y ->]] [x' [y' ->]].
  exists (x' ++ x), (y ++ y'). rewrite <- !app_assoc. reflexivity.
Qed.

Lemma str_contains_nil (s : pystr) : str_contains [] s = true.
Proof. apply str_contains_app. exists [], s. reflexivity. Qed.

Section ExtraFilter.
Context `{EX : Externals}.

(** If the old lowered search text occurs in the new one, every row hidden by filter_srum_table under the old text is hidden under the new one. *)
Theorem filter_srum_table_narrowing (table : table_widget) (s1 s2 : pystr) :
  str_contains (str_lower s1) (str_lower s2) = true ->
  Forall2 (fun h1 h2 => h1 = true -> h2 = true)
    (fst (filter_srum_table table s1)) (fst (filter_srum_table table s2)).
Proof.
  intros Hc. unfold filter_srum_table. cbn [fst].
  induction (table_items table) as [|row rows IH]; cbn [map]; constructor; [|exact IH].
  destruct (row_visible (str_lower s1) _ row) eqn:E1; cbn [negb]; [discriminate|].
  intros _. destruct (row_visible (str_lower s2) _ row) eqn:E2; [|reflexivity].
  exfalso. unfold row_visible in E1, E2. apply existsb_exists in E2.
  destruct E2 as [col [Hin Hm]]. rewrite <- Bool.not_true_iff_false in E1. apply E1.
  apply existsb_exists. exists col. split; [exact Hin|].
  destruct (nth col row None) as [text|]; [|discriminate].
  exact (str_contains_trans _ _ _ Hc Hm).
Qed.

(** An empty (lowered) search hides exactly the rows without any item. *)
Theorem filter_srum_table_empty_search (table : table_widget) (search : pystr) :
  str_lower search = [] ->
  fst (filter_srum_table table search)
  = map (fun row => negb (existsb (fun col => match nth col row None with
                                               | Some _ => true
                                               | None => false
                                               end) (seq 0 (column_count table))))
      (table_items table).
Proof.
  intros H. unfold filter_srum_table, row_visible. cbn [fst]. rewrite H.
  apply map_ext. intros row. f_equal.
  induction (seq 0 (column_count table)) as [|col cs IHc]; [reflexivity|].
  cbn [existsb]. rewrite IHc.
  destruct (nth col row None); [rewrite str_contains_nil|]; reflexivity.
Qed.
End ExtraFilter.


Section ExtraView.
Context `{EX : Externals}.

Lemma header_labels_cases (hs : list pyval) :
  forall i,
  match header_labels_from i hs with
  | Ok _ => Forall (fun v => is_pystr v = true) hs
  | Raise e => exn_type e = TypeError /\ Exists (fun v => is_pystr v = false) hs
  end.
Proof.
  induction hs as [|v hs IH]; intros i; cbn [header_labels_from]; [constructor|].
  destruct v; try (split; [reflexivity|apply Exists_cons_hd; reflexivity]).
  specialize (IH (i + 1)). destruct (header_labels_from (i + 1) hs).
  - constructor; [reflexivity|exact IH].
  - destruct IH as [H1 H2]. split; [exact H1|apply Exists_cons_tl; exact H2].
Qed.

Lemma srum_tab_of_cases (tname : pystr) (td : list (list pyval)) :
  match srum_tab_of tname td with
  | Ok None => (List.length td < 2)%nat
  | Ok (Some tb) =>
      (2 <= List.length td)%nat /\ Forall (fun v => is_pystr v = true) (hd [] td)
      /\ tb = {| tab_name := tname; tab_records := List.length td - 1;
                 tab_headings := hd [] td; tab_cells := map (map py_str) (tl td) |}
  | Raise e =>
      (2 <= List.length td)%nat /\ exn_type e = TypeError
      /\ Exists (fun v => is_pystr v = false) (hd [] td)
  end.
Proof.
  unfold srum_tab_of. destruct td as [|h rows]; [cbn; lia|].
  destruct (Nat.ltb_spec (List.length (h :: rows)) 2) as [Hl|Hl]; [exact Hl|].
  unfold setHorizontalHeaderLabels. pose proof (header_labels_cases h 0) as Hh.
  destruct (header_labels_from 0 h); cbn [bind hd tl].
  - split; [exact Hl|]. split; [exact Hh|reflexivity].
  - destruct Hh as [H1 H2]. split; [exact Hl|]. split; assumption.
Qed.

Lemma display_tables_cases (tables : output_t) :
  forall p,
  match display_tables p tables with
  | Ok p' =>
      Forall (fun kv => header_row_ok (snd kv)) tables
      /\ shown_view p' = shown_view p /\ placeholder_text p' = placeholder_text p
      /\ critical_boxes p' = critical_boxes p
      /\ exists tabs, srum_tabs p' = srum_tabs p ++ tabs
         /\ (forall x, In x (map tab_name tabs) -> In x (map fst tables))
         /\ (NoDup (map fst tables) -> NoDup (map tab_name tabs))
  | Raise e => exn_type e = TypeError /\ ~ Forall (fun kv => header_row_ok (snd kv)) tables
  end.
Proof.
  induction tables as [|[tname td] rest IH]; intros p; cbn [display_tables].
  - split; [constructor|]. split; [reflexivity|]. split; [reflexivity|].
    split; [reflexivity|]. exists []. rewrite app_nil_r.
    split; [reflexivity|]. split; [intros x []|intros _; constructor].
  - pose proof (srum_tab_of_cases tname td) as Hc.
    destruct (srum_tab_of tname td) as [[tb|]|e]; cbn [bind].
    + destruct Hc as [Hl [Hh Htb]].
      assert (Hname : tab_name tb = tname) by (rewrite Htb; reflexivity).
      pose proof (IH (set_srum_tabs p (srum_tabs p ++ [tb]))) as IH'.
      destruct (display_tables _ rest) as [p'|e].
      * destruct IH' as [Hf [Hv [Hpt [Hcb [tabs [Ht [Hin Hnd]]]]]]].
        cbn [shown_view placeholder_text critical_boxes srum_tabs set_srum_tabs] in Hv, Hpt, Hcb, Ht.
        split; [constructor; [intros _; exact Hh|exact Hf]|].
        split; [exact Hv|]. split; [exact Hpt|]. split; [exact Hcb|].
        exists (tb :: tabs). split; [rewrite Ht, <- app_assoc; reflexivity|]. split.
        -- intros x [Hx|Hx]; [left; rewrite <- Hx; symmetry; exact Hname|right; apply Hin; exact Hx].
        -- intros Hnd0. inversion Hnd0 as [|? ? Hnot Hnd1]; subst. cbn [map].
           constructor; [|exact (Hnd Hnd1)]. rewrite Hname. intros Hx. exact (Hnot (Hin _ Hx)).
      * destruct IH' as [He Hnf]. split; [exact He|].
        intros Hf. apply Hnf. inversion Hf; assumption.
    + pose proof (IH p) as IH'. destruct (display_tables p rest) as [p'|e].
      * destruct IH' as [Hf [Hv [Hpt [Hcb [tabs [Ht [Hin Hnd]]]]]]].
        split; [constructor; [intros H2; cbn [snd] in H2; lia|exact Hf]|].
        split; [exact Hv|]. split; [exact Hpt|]. split; [exact Hcb|].
        exists tabs. split; [exact Ht|]. split.
        -- intros x Hx. right. apply Hin. exact Hx.
        -- intros Hnd0. inversion Hnd0; subst. apply Hnd. assumption.
      * destruct IH' as [He Hnf]. split; [exact He|].
        intros Hf. apply Hnf. inversion Hf; assumption.
    + destruct Hc as [Hl [He Hex]]. split; [exact He|].
      intros Hf. inversion Hf as [|? ? Hk _]; subst. specialize (Hk Hl).
      apply Exists_exists in Hex as [v [Hv Hs]].
      rewrite Forall_forall in Hk. rewrite (Hk v Hv) in Hs. discriminate.
Qed.

(** After a successful analysis, [on_srum_analysis_finished] either ends on
    the SRUM tab widget (with no tab and the 'No data found' text on the
    hidden placeholder when there is no data) or raises TypeError; it
    completes exactly when every table with a row has [str] header labels. *)
Theorem srum_success_shows_tabs (p : page) (data : output_t) (message : pystr) :
  match on_srum_analysis_finished p (SrumSuccess data message) with
  | Ok p' =>
      shown_view p' = SrumTabView
      /\ (data = [] -> srum_tabs p' = []
                       /\ placeholder_text p' = lit "No data found in SRUM database.")
  | Raise e => exn_type e = TypeError
  end
  /\ ((exists p', on_srum_analysis_finished p (SrumSuccess data message) = Ok p')
      <-> Forall (fun kv => header_row_ok (snd kv)) data).
Proof.
  unfold on_srum_analysis_finished, display_srum_data.
  destruct data as [|kv data'].
  - cbn. split; [split; [reflexivity|intros _; split; reflexivity]|].
    split; [intros _; constructor|intros _; eexists; reflexivity].
  - pose proof (display_tables_cases (kv :: data') (set_srum_tabs p [])) as Hd.
    cbn -[display_tables].
    destruct (display_tables _ (kv :: data')) as [p'|e]; cbn [bind].
    + destruct Hd as [Hf _]. split; [split; [reflexivity|discriminate]|].
      split; [intros _; exact Hf|intros _; eexists; reflexivity].
    + destruct Hd as [He Hnf]. split; [exact He|].
      split; [intros [p'' H]; discriminate|intros Hf; contradiction].
Qed.

(** A processed table gets a tab exactly when one of its records can be
    fetched and its header labels are all [str]; the tab counts the
    fetchable records and has the header row and one cell per column in
    each row.  A fetchable table with a label of another type makes
    [setHorizontalHeaderLabels] raise TypeError. *)
Theorem srum_tab_of_process_table (self : analyzer) (t : ese_table) (tname : pystr)
    (out : list (list pyval)) :
  process_table self t = Ok out ->
  let n := List.length (filter (has_record t) (seq 0 (Z.to_nat (_ese_table_record_count t)))) in
  match srum_tab_of tname out with
  | Ok None => n = 0%nat
  | Ok (Some tb) => (0 < n)%nat /\ Forall (fun v => is_pystr v = true) (header_row self t)
               /\ tab_name tb = tname /\ tab_records tb = n
               /\ tab_headings tb = header_row self t
               /\ Forall (fun row => List.length row = number_of_columns t) (tab_cells tb)
  | Raise e => (0 < n)%nat /\ exn_type e = TypeError
               /\ Exists (fun v => is_pystr v = false) (header_row self t)
  end.
Proof.
  intros H. cbn zeta. unfold process_table in H. rewrite process_rows_filter in H.
  destruct (map_res _ _) as [rows|err] eqn:E; cbn [bind] in H; [|discriminate].
  inversion H; subst out. clear H.
  pose proof (map_res_length _ _ _ E) as Hlen.
  pose proof (process_rows_shape self t (map col_name (t_columns t))
                (seq 0 (Z.to_nat (_ese_table_record_count t))) rows) as Hs.
  rewrite process_rows_filter in Hs. specialize (Hs E).
  pose proof (srum_tab_of_cases tname (header_row self t :: rows)) as Hc.
  destruct (srum_tab_of tname _) as [[tb|]|e]; cbn [List.length hd tl] in Hc.
  - destruct Hc as [Hl [Hh ->]]. cbn [tab_name tab_records tab_headings tab_cells].
    split; [lia|]. split; [exact Hh|]. split; [reflexivity|]. split; [lia|].
    split; [reflexivity|].
    apply Forall_map. eapply Forall_impl; [|exact Hs]. intros row [Hl' _].
    rewrite length_map. exact Hl'.
  - lia.
  - destruct Hc as [Hl [He Hex]]. split; [lia|]. split; assumption.
Qed.

(** When the SRUM file does not open, the placeholder shows the analysis
    error with the open-failure message and one critical box reports it. *)
Theorem srum_open_failure_reported (p : page) (e : exn) (tmpl : res workbook)
    (reg : option hive) :
  exists p',
  on_srum_analysis_finished p (srum_thread_run (fst (analyze (Raise e) tmpl reg closed_handles)))
  = Ok p'
  /\ shown_view p' = PlaceholderView
  /\ placeholder_text p' = lit "SRUM Analysis Error: " ++ srum_open_prefix ++ exn_msg e
  /\ critical_boxes p' = critical_boxes p ++ [(lit "SRUM Analysis Failed",
                                               srum_open_prefix ++ exn_msg e)]
  /\ srum_tabs p' = srum_tabs p.
Proof.
  unfold analyze, mbind, try_except, open_db, mraise. cbn [fst].
  eexists. split; [reflexivity|]. repeat split; reflexivity.
Qed.

(** After a successful [analyze], when the SRUM view completes, it shows
    the tab widget and no two of its tabs have the same label. *)
Theorem srum_success_tab_names_unique (srum : res ese_db) (tmpl : res workbook)
    (reg : option hive) (p : page) (m : output_t) (msg : pystr) (h : handles) (p' : page) :
  analyze srum tmpl reg closed_handles = (Ok (m, msg), h) ->
  on_srum_analysis_finished p (srum_thread_run (Ok (m, msg))) = Ok p' ->
  shown_view p' = SrumTabView /\ NoDup (map tab_name (srum_tabs p')).
Proof.
  intros Ha Hp.
  assert (Hnd : NoDup (map fst m)).
  { destruct srum as [db|e]; [|revert Ha; unfold analyze, mbind, try_except, open_db, mraise; cbn; discriminate].
    destruct tmpl as [wb|e];
      [|revert Ha; unfold analyze, mbind, try_except, open_db, load_workbook, close_db, mraise; cbn; discriminate].
    rewrite analyze_opened in Ha.
    destruct (_load_template_lookups wb) as [tl|e]; cbn [bind] in Ha; [|discriminate].
    destruct (_load_srumid_lookups _ db) as [idt|e]; cbn [bind] in Ha; [|discriminate].
    unfold _process_srum_tables in Ha.
    destruct (tables_loop _ skip_tables (db_tables db) []) as [m'|e] eqn:E; cbn [bind] in Ha;
      [|discriminate].
    inversion Ha; subst. refine (tables_loop_NoDup _ _ _ _ _ _ E). constructor. }
  unfold on_srum_analysis_finished, srum_thread_run, display_srum_data in Hp.
  destruct m as [|kv m'].
  - cbn in Hp. inversion Hp; subst. split; [reflexivity|constructor].
  - pose proof (display_tables_cases (kv :: m') (set_srum_tabs p [])) as Hd.
    cbn -[display_tables] in Hp.
    destruct (display_tables _ (kv :: m')) as [p''|e]; cbn [bind] in Hp; [|discriminate].
    inversion Hp; subst p'. cbn [shown_view srum_tabs _switch_right_panel_view].
    destruct Hd as [_ [_ [_ [_ [tabs [Ht [_ Hn]]]]]]].
    split; [reflexivity|]. rewrite Ht. exact (Hn Hnd).
Qed.
End ExtraView.

Section ExtraUsb.
Context `{EX : Externals}.

Lemma usb_filter_loop_filter (q : pystr) (c : option datetime) (ds : list usb_device) :
  forall out, usb_filter_loop q c ds = Ok out -> out = filter (usb_keep q c) ds.
Proof.
  induction ds as [|d ds IH]; intros out H; cbn [usb_filter_loop] in H.
  - inversion H. reflexivity.
  - cbn [filter]. unfold usb_keep at 1.
    destruct (usb_time_skip c d) as [[|]|e]; cbn [bind] in H; [exact (IH _ H)| |discriminate].
    destruct (_ && _); cbn [negb]; [exact (IH _ H)|].
    destruct (usb_filter_loop q c ds) as [f|e]; cbn [bind] in H; [|discriminate].
    inversion H; subst. f_equal. apply IH. reflexivity.
Qed.

Lemma usb_filter_loop_total (q : pystr) (c : option datetime) (ds : list usb_device) :
  (forall d, In d ds -> exists b, usb_time_skip c d = Ok b) ->
  usb_filter_loop q c ds = Ok (filter (usb_keep q c) ds).
Proof.
  induction ds as [|d ds IH]; intros Hd; [reflexivity|].
  cbn [usb_filter_loop filter]. unfold usb_keep at 1.
  destruct (Hd d (or_introl eq_refl)) as [b Hb]. rewrite Hb. cbn [bind].
  assert (IH' := IH (fun d' H' => Hd d' (or_intror H'))).
  destruct b; [exact IH'|].
  destruct (_ && _); cbn [negb]; [exact IH'|]. rewrite IH'. reflexivity.
Qed.

(** apply_usb_filters displays a subsequence of the devices, each matching the search text in some value and, under a time window, dated no earlier than the cutoff. *)
Theorem apply_usb_filters_kept (now : datetime) (sub_days : datetime -> Z -> datetime)
    (devices : list usb_device) (search_text time_filter : pystr) (out : list usb_device) :
  apply_usb_filters now sub_days devices search_text time_filter = Ok (Some out) ->
  (exists keep, out = filter keep devices)
  /\ forall d, In d out ->
     (str_lower search_text <> [] ->
      exists k v, In (k, v) d /\ str_contains (str_lower search_text) (str_lower (py_str v)) = true)
     /\ (forall n, usb_time_delta time_filter = Some n ->
         exists dt, dict_get pystr_eqb datetime_obj_key d = Some (PDatetime dt)
           /\ dt_ltb dt (sub_days now n) = false).
Proof.
  unfold apply_usb_filters. destruct devices as [|d0 ds0]; [discriminate|].
  set (c := match usb_time_delta time_filter with Some n => Some (sub_days now n) | None => None end).
  destruct (usb_filter_loop _ c _) as [f|e] eqn:E; cbn [bind]; [|discriminate].
  intros H. inversion H; subst out. apply usb_filter_loop_filter in E. subst f.
  split; [eexists; reflexivity|]. intros d Hin. apply filter_In in Hin. destruct Hin as [_ Hk].
  unfold usb_keep in Hk.
  destruct (usb_time_skip c d) as [[|]|e] eqn:Et; try discriminate.
  split.
  - intros Hne. destruct (str_lower search_text) as [|ch q]; [contradiction|].
    cbn [andb] in Hk. destruct (usb_search_match (ch :: q) d) eqn:Em; [|discriminate].
    unfold usb_search_match in Em. apply existsb_exists in Em.
    destruct Em as [[k v] [Hkv Hm]]. exists k, v. split; assumption.
  - intros n Hn. subst c. rewrite Hn in Et. unfold usb_time_skip in Et.
    destruct (dict_get pystr_eqb datetime_obj_key d) as [v|]; [|discriminate].
    destruct (py_truthy v); cbn [negb] in Et; [|discriminate].
    destruct v; try discriminate. exists d1. split; [reflexivity|].
    inversion Et. reflexivity.
Qed.

(** With an empty search and no time window every device is displayed (nothing happens for no devices). *)
Theorem apply_usb_filters_show_all (now : datetime) (sub_days : datetime -> Z -> datetime)
    (devices : list usb_device) (search_text time_filter : pystr) :
  str_lower search_text = [] -> usb_time_delta time_filter = None ->
  apply_usb_filters now sub_days devices search_text time_filter
  = Ok (match devices with [] => None | _ => Some devices end).
Proof.
  intros Hs Ht. unfold apply_usb_filters. destruct devices as [|d0 ds0]; [reflexivity|].
  rewrite Hs, Ht. rewrite usb_filter_loop_total by (intros d _; exists false; reflexivity).
  cbn [bind]. f_equal. f_equal.
  assert (Hk : forall d, usb_keep [] None d = true) by reflexivity.
  induction (d0 :: ds0) as [|x xs IHx]; [reflexivity|].
  cbn [filter]. rewrite Hk, IHx. reflexivity.
Qed.

(** apply_usb_filters does not raise when every device's datetime_obj is missing, falsy or a datetime. *)
Theorem apply_usb_filters_no_raise (now : datetime) (sub_days : datetime -> Z -> datetime)
    (devices : list usb_device) (search_text time_filter : pystr) :
  (forall d v, In d devices -> dict_get pystr_eqb datetime_obj_key d = Some v ->
   py_truthy v = true -> exists dt, v = PDatetime dt) ->
  exists r, apply_usb_filters now sub_days devices search_text time_filter = Ok r.
Proof.
  intros Hd. unfold apply_usb_filters. destruct devices as [|d0 ds0]; [eexists; reflexivity|].
  rewrite usb_filter_loop_total; [eexists; reflexivity|].
  intros d Hin. unfold usb_time_skip.
  destruct (usb_time_delta time_filter); [|eexists; reflexivity].
  destruct (dict_get pystr_eqb datetime_obj_key d) as [v|] eqn:Eg; [|eexists; reflexivity].
  destruct (py_truthy v) eqn:Ev; cbn [negb]; [|eexists; reflexivity].
  destruct (Hd d v Hin Eg Ev) as [dt ->]. eexists; reflexivity.
Qed.
End ExtraUsb.

(** ** Concrete runs *)

Lemma blob_to_string_utf16le_roundtrip_witness :
  lit "abc" <> [] /\ Forall (fun c => 1 <= c <= 255) (lit "abc")
  /\ _blob_to_string (BBytes (encode_utf16le (lit "abc") ++ [0; 0])) = lit "abc".
Proof.
  assert (H1 : lit "abc" <> []) by (vm_compute; discriminate).
  assert (H2 : Forall (fun c => 1 <= c <= 255) (lit "abc"))
    by (cbn; repeat constructor; lia).
  split; [exact H1|split; [exact H2|]].
  apply (blob_to_string_utf16le_roundtrip (lit "abc") H1 H2).
Defined.

Lemma binary_sid_to_string_sid_spec_witness :
  sid_hex <> []
  /\ _binary_sid_to_string_sid empty_analyzer (PStr sid_hex) =
      match hex_decode sid_hex with
      | Ok bs =>
          if (8 + 4 * spec_sid_count bs <=? List.length bs)%nat
          then spec_sid_string empty_analyzer bs else lit "Invalid SID"
      | Raise _ => lit "Invalid SID"
      end.
Proof.
  assert (H : sid_hex <> []) by (vm_compute; discriminate).
  split; [exact H|apply (binary_sid_to_string_sid_spec empty_analyzer sid_hex H)].
Defined.

Lemma process_table_omits_unfetchable_records_witness :
  process_table empty_analyzer two_rec_table = Ok [[PStr (lit "c")]; [PStr (lit "5")]]
  /\ exists rows, [[PStr (lit "c")]; [PStr (lit "5")]] = header_row empty_analyzer two_rec_table :: rows
       /\ List.length rows
          = List.length (filter (has_record two_rec_table)
                           (seq 0 (Z.to_nat (_ese_table_record_count two_rec_table))))
       /\ (List.length rows <= Z.to_nat (_ese_table_record_count two_rec_table))%nat.
Proof.
  assert (H : process_table empty_analyzer two_rec_table = Ok [[PStr (lit "c")]; [PStr (lit "5")]])
    by (vm_compute; reflexivity).
  split; [exact H|].
  apply (proj2 (process_table_omits_unfetchable_records empty_analyzer two_rec_table) _ H).
Defined.

Lemma process_srum_tables_filters_witness :
  _process_srum_tables empty_analyzer demo_db skip_tables
    = Ok ([(lit "T", [[PStr (lit "c")]; [PStr (lit "5")]])], finished_msg)
  /\ forall k, (exists d, dict_get pystr_eqb k [(lit "T", [[PStr (lit "c")]; [PStr (lit "5")]])] = Some d)
      <-> exists t, In t (db_tables demo_db) /\ in_list (t_name t) skip_tables = false
            /\ _ese_table_record_count t <> 0 /\ _ese_table_guid_to_name empty_analyzer t = k.
Proof.
  assert (H : _process_srum_tables empty_analyzer demo_db skip_tables
              = Ok ([(lit "T", [[PStr (lit "c")]; [PStr (lit "5")]])], finished_msg))
    by (vm_compute; reflexivity).
  split; [exact H|].
  apply (proj2 (process_srum_tables_filters empty_analyzer demo_db) _ _ H).
Defined.

Lemma analyze_fatal_open_errors_witness :
  analyze (Raise (Exn OSError (lit "no such file"))) (Ok (Workbook [])) None closed_handles
    = (Raise (Exn OSError (srum_open_prefix ++ lit "no such file")), closed_handles)
  /\ analyze (Ok (EseDb [])) (Raise (Exn OSError (lit "bad zip"))) None closed_handles
    = (Raise (Exn OSError (template_open_prefix ++ lit "bad zip")), closed_handles)
  /\ open_error guid_error = false.
Proof.
  split; [|split].
  - exact (proj1 (analyze_fatal_open_errors (Raise (Exn OSError (lit "no such file")))
                    (Ok (Workbook [])) None) (Exn OSError (lit "no such file")) eq_refl).
  - exact (proj1 (proj2 (analyze_fatal_open_errors (Ok (EseDb []))
                           (Raise (Exn OSError (lit "bad zip"))) None)) (EseDb [])
             (Exn OSError (lit "bad zip")) eq_refl eq_refl).
  - apply (proj2 (proj2 (analyze_fatal_open_errors (Ok (EseDb [guid_table]))
                           (Ok (Workbook [])) None)) (EseDb [guid_table]) (Workbook [])
             guid_error {| db_is_open := true |}).
    + reflexivity.
    + reflexivity.
    + vm_compute. reflexivity.
Defined.

Lemma analyze_handles_witness :
  analyze (Ok (EseDb [guid_table])) (Ok (Workbook [])) None closed_handles
    = (Raise guid_error, {| db_is_open := true |})
  /\ db_is_open {| db_is_open := true |} = true.
Proof.
  assert (H : analyze (Ok (EseDb [guid_table])) (Ok (Workbook [])) None closed_handles
              = (Raise guid_error, {| db_is_open := true |})) by (vm_compute; reflexivity).
  split; [exact H|].
  exact (proj2 (proj2 (proj2 (analyze_handles (Ok (EseDb [guid_table])) (Ok (Workbook []))
           None _ _ H))) (EseDb [guid_table]) (Workbook []) guid_error eq_refl eq_refl eq_refl).
Defined.

Lemma load_srumid_lookups_spec_witness :
  _load_srumid_lookups empty_analyzer (EseDb []) = Ok []
  /\ (exists e, _load_srumid_lookups empty_analyzer (EseDb [idmap_no_blob]) = Raise e)
  /\ _load_srumid_lookups empty_analyzer (EseDb [idmap_full]) = Ok [(PInt 7, PStr (lit "ab"))]
  /\ srumid_entry empty_analyzer idmap_full (PInt 7) (PStr (lit "ab")).
Proof.
  assert (H : _load_srumid_lookups empty_analyzer (EseDb [idmap_full])
              = Ok [(PInt 7, PStr (lit "ab"))]) by (vm_compute; reflexivity).
  split; [|split; [|split; [exact H|]]].
  - apply (proj1 (load_srumid_lookups_spec empty_analyzer (EseDb []))). reflexivity.
  - apply (proj1 (proj2 (load_srumid_lookups_spec empty_analyzer (EseDb [idmap_no_blob])))
             idmap_no_blob).
    + vm_compute. reflexivity.
    + vm_compute. reflexivity.
    + apply Exists_cons_hd. vm_compute. reflexivity.
  - apply (proj1 (proj2 (proj2 (load_srumid_lookups_spec empty_analyzer (EseDb [idmap_full])))
                    idmap_full _ (eq_refl _) H)).
    left. reflexivity.
Defined.

Lemma load_template_lookups_spec_witness :
  _load_template_lookups dup_lookup_wb = Ok [(lit "Apps", [(PInt 1, PStr (lit "y"))])]
  /\ dict_get py_eq (PFloat (FFinite false 1 0)) (lookup_rows (iter_rows2 dup_lookup_sheet))
     = last_row_value (iter_rows2 dup_lookup_sheet) (PFloat (FFinite false 1 0))
  /\ last_row_value (iter_rows2 dup_lookup_sheet) (PFloat (FFinite false 1 0))
     = Some (PStr (lit "y")).
Proof.
  assert (H : _load_template_lookups dup_lookup_wb
              = Ok [(lit "Apps", [(PInt 1, PStr (lit "y"))])]) by (vm_compute; reflexivity).
  split; [exact H|]. split; [|vm_compute; reflexivity].
  exact (proj2 (proj2 (proj2 (load_template_lookups_spec _ _ H))) dup_lookup_sheet _).
Defined.

(** C1: a GUID cell of the wrong length makes [uuid.UUID(bytes=...)] raise
    ValueError, which the decoder's [except (struct.error, TypeError)] does
    not catch; the exception aborts [analyze], which returns no result and
    leaves the database open. *)
Theorem smart_retrieve_guid_raises :
  _smart_retrieve guid_table 0 0 = Raise guid_error
  /\ analyze (Ok (EseDb [guid_table])) (Ok (Workbook [])) None closed_handles
     = (Raise guid_error, {| db_is_open := true |}).
Proof. split; vm_compute; reflexivity. Qed.

(** C7 counterexample: an ID-map table with a record but no 'IdBlob'
    column makes the resolver raise KeyError instead of returning an
    empty map. *)
Lemma load_srumid_lookups_missing_column_raises :
  _load_srumid_lookups empty_analyzer (EseDb [idmap_no_blob])
  = Raise (Exn KeyError (lit "'IdBlob'")).
Proof. vm_compute. reflexivity. Qed.

(** C8, the failing input: a GUID cell of the wrong length makes the table
    processor raise, and [analyze] propagates the exception with the
    database still open, although a normal run closes it. *)
Lemma analyze_leaves_handles_open :
  analyze (Ok (EseDb [])) (Ok (Workbook [])) None closed_handles
    = (Ok ([], finished_msg), closed_handles)
  /\ analyze (Ok (EseDb [guid_table])) (Ok (Workbook [])) None closed_handles
     = (Raise guid_error, {| db_is_open := true |}).
Proof. split; vm_compute; reflexivity. Qed.

(** C9 counterexample: the sheet "lookup-LUID-Interfaces" is registered
    under "LUID", not under the whole text after the marker. *)
Lemma load_template_lookups_split_name :
  _load_template_lookups lookup_wb = Ok lookup_wb_tables
  /\ dict_get pystr_eqb (lit "LUID-Interfaces") lookup_wb_tables = None
  /\ dict_get pystr_eqb (lit "LUID") lookup_wb_tables = Some [(PStr (lit "a"), PStr (lit "b"))].
Proof. split; [|split]; vm_compute; reflexivity. Qed.

Lemma blob_to_string_hex_text_witness :
  Forall is_byte [222; 173]
  /\ _blob_to_string (BVal (PStr (hex_encode [222; 173]))) = _blob_to_string (BBytes [222; 173]).
Proof.
  assert (H : Forall is_byte [222; 173]) by (repeat constructor; unfold is_byte; lia).
  split; [exact H|]. exact (blob_to_string_hex_text [222; 173] H).
Defined.

Lemma blob_to_string_utf16le_newline_witness :
  lit "ab" <> [] /\ Forall (fun c => c <> 0) (lit "ab")
  /\ _blob_to_string (BBytes (flat_map (fun c => [c; 0]) (lit "ab") ++ [0; 0; 10]))
     = hex_encode (flat_map (fun c => [c; 0]) (lit "ab") ++ [0; 0; 10]).
Proof.
  assert (H1 : lit "ab" <> []) by (vm_compute; discriminate).
  assert (H2 : Forall (fun c => c <> 0) (lit "ab")) by (cbn; repeat constructor; lia).
  split; [exact H1|split; [exact H2|]].
  exact (blob_to_string_utf16le_newline (lit "ab") H1 H2).
Defined.

Lemma blob_to_string_utf16be_roundtrip_witness :
  lit "ab" <> [] /\ Forall (fun c => 1 <= c <= 255) (lit "ab")
  /\ _blob_to_string (BBytes (flat_map (fun c => [0; c]) (lit "ab") ++ [0; 0])) = lit "ab".
Proof.
  assert (H1 : lit "ab" <> []) by (vm_compute; discriminate).
  assert (H2 : Forall (fun c => 1 <= c <= 255) (lit "ab")) by (cbn; repeat constructor; lia).
  split; [exact H1|split; [exact H2|]].
  exact (blob_to_string_utf16be_roundtrip (lit "ab") H1 H2).
Defined.

Lemma blob_to_string_latin1_witness :
  Forall (fun c => c <> 0) [233; 116; 233] /\ _blob_to_string (BBytes [233; 116; 233]) = [233; 116; 233].
Proof.
  assert (H : Forall (fun c => c <> 0) [233; 116; 233]) by (repeat constructor; lia).
  split; [exact H|]. exact (blob_to_string_latin1 _ H).
Defined.

Lemma smart_retrieve_binary_hex_witness :
  _smart_retrieve cells_table 0 0 = Ok (PStr (hex_encode [222; 173]))
  /\ hex_decode (hex_encode [222; 173]) = Ok [222; 173].
Proof.
  apply (smart_retrieve_binary_hex cells_table 0 0
           [Some [222; 173]; Some [251; 255; 255; 255]; Some [1; 0];
            Some [0; 17; 34; 51; 68; 85; 102; 119; 136; 153; 170; 187; 204; 221; 238; 255];
            Some (lit "Error")] (lit "Bin") BINARY_DATA [222; 173]).
  - reflexivity.
  - reflexivity.
  - left. reflexivity.
  - reflexivity.
  - repeat constructor; unfold is_byte; lia.
Defined.

Lemma smart_retrieve_int_roundtrip_witness :
  le_bytes 4 (-5) = [251; 255; 255; 255] /\ _smart_retrieve cells_table 0 1 = Ok (PInt (-5)).
Proof.
  split; [reflexivity|].
  apply (smart_retrieve_int_roundtrip cells_table 0 1
           [Some [222; 173]; Some [251; 255; 255; 255]; Some [1; 0];
            Some [0; 17; 34; 51; 68; 85; 102; 119; 136; 153; 170; 187; 204; 221; 238; 255];
            Some (lit "Error")] (lit "Num") INTEGER_32BIT_SIGNED 4 true (-5)).
  - reflexivity.
  - reflexivity.
  - reflexivity.
  - reflexivity.
  - unfold in_int_range. cbn. lia.
Defined.

Lemma smart_retrieve_bad_width_witness :
  _smart_retrieve cells_table 0 2 = Ok (PStr (_blob_to_string (BBytes [1; 0]))).
Proof.
  apply (smart_retrieve_bad_width cells_table 0 2
           [Some [222; 173]; Some [251; 255; 255; 255]; Some [1; 0];
            Some [0; 17; 34; 51; 68; 85; 102; 119; 136; 153; 170; 187; 204; 221; 238; 255];
            Some (lit "Error")] (lit "Flag") BOOLEAN 1).
  - reflexivity.
  - reflexivity.
  - reflexivity.
  - reflexivity.
  - cbn. lia.
Defined.

Lemma smart_retrieve_guid_text_witness :
  exists s, _smart_retrieve cells_table 0 3 = Ok (PStr s)
    /\ List.length s = 36%nat
    /\ nth 8 s 0 = 45 /\ nth 13 s 0 = 45 /\ nth 18 s 0 = 45 /\ nth 23 s 0 = 45
    /\ filter (fun ch => negb (ch =? 45)) s
       = hex_encode [0; 17; 34; 51; 68; 85; 102; 119; 136; 153; 170; 187; 204; 221; 238; 255].
Proof.
  apply (smart_retrieve_guid_text cells_table 0 3
           [Some [222; 173]; Some [251; 255; 255; 255]; Some [1; 0];
            Some [0; 17; 34; 51; 68; 85; 102; 119; 136; 153; 170; 187; 204; 221; 238; 255];
            Some (lit "Error")] (lit "Id")).
  - reflexivity.
  - reflexivity.
  - reflexivity.
  - reflexivity.
  - repeat constructor; unfold is_byte; lia.
Defined.

Lemma binary_sid_roundtrip_witness :
  sid_text 1 5 [21; 1000] = lit "S-1-5-21-1000"
  /\ _binary_sid_to_string_sid empty_analyzer (PStr (hex_encode (sid_bytes 1 5 [21; 1000])))
     = sid_text 1 5 [21; 1000] ++ lit " ("
       ++ known_sid_name empty_analyzer (sid_text 1 5 [21; 1000]) ++ lit ")".
Proof.
  split; [vm_compute; reflexivity|].
  apply binary_sid_roundtrip; try lia.
  - cbn. lia.
  - repeat constructor; cbn; lia.
Defined.

Lemma known_sid_name_registry_first_witness :
  NoDup (map fst (regsids sid_analyzer))
  /\ known_sid_name (with_templates sid_analyzer [] []) (lit "S-1-5-18") = lit "SYSTEM".
Proof.
  assert (H : NoDup (map fst (regsids sid_analyzer))) by (repeat constructor; intros []).
  split; [exact H|].
  rewrite (known_sid_name_registry_first sid_analyzer [] [] (lit "S-1-5-18") H).
  vm_compute. reflexivity.
Defined.

Lemma load_template_tables_entries_witness :
  In (PStr (lit "{D10CA2FE-6FCF-4F6D-848E-B2E99266FA89}"),
      (lit "App Usage",
       [(PStr (lit "AppId"), (lit "Normal", PStr (lit "lookup_id"), PStr (lit "Application")));
        (PStr (lit "BytesSent"), (lit "Normal", PNone, PStr (lit "BytesSent")))]))
     (_load_template_tables table_wb)
  /\ exists sh, In sh (wb_sheets table_wb) /\ is_lookup_sheet sh = false
       /\ py_truthy (cell_value sh 1 1) = true
       /\ (PStr (lit "{D10CA2FE-6FCF-4F6D-848E-B2E99266FA89}") = cell_value sh 1 1
           \/ py_eq (PStr (lit "{D10CA2FE-6FCF-4F6D-848E-B2E99266FA89}")) (cell_value sh 1 1) = true)
       /\ lit "App Usage" = sh_name sh
       /\ forall f e, In (f, e) [(PStr (lit "AppId"), (lit "Normal", PStr (lit "lookup_id"), PStr (lit "Application")));
                               (PStr (lit "BytesSent"), (lit "Normal", PNone, PStr (lit "BytesSent")))] ->
          exists pre col post, seq 1 (max_column sh) = pre ++ col :: post
            /\ Forall (fun c => py_truthy (cell_value sh 2 c) = true) pre
            /\ py_truthy (cell_value sh 2 col) = true
            /\ (f = cell_value sh 2 col \/ py_eq f (cell_value sh 2 col) = true)
            /\ e = (cell_style sh 4 col, cell_value sh 3 col,
                    py_or (cell_value sh 4 col) (cell_value sh 2 col)).
Proof.
  assert (H : In (PStr (lit "{D10CA2FE-6FCF-4F6D-848E-B2E99266FA89}"),
      (lit "App Usage",
       [(PStr (lit "AppId"), (lit "Normal", PStr (lit "lookup_id"), PStr (lit "Application")));
        (PStr (lit "BytesSent"), (lit "Normal", PNone, PStr (lit "BytesSent")))]))
     (_load_template_tables table_wb)) by (vm_compute; left; reflexivity).
  split; [exact H|]. exact (load_template_tables_entries _ _ _ _ H).
Defined.

Lemma process_table_shape_witness :
  process_table empty_analyzer two_rec_table = Ok [[PStr (lit "c")]; [PStr (lit "5")]]
  /\ exists hdr rows, [[PStr (lit "c")]; [PStr (lit "5")]] = hdr :: rows
    /\ List.length hdr = number_of_columns two_rec_table
    /\ Forall (fun row => List.length row = number_of_columns two_rec_table
                          /\ Forall (fun v => exists s, v = PStr s) row) rows.
Proof.
  assert (H : process_table empty_analyzer two_rec_table = Ok [[PStr (lit "c")]; [PStr (lit "5")]])
    by (vm_compute; reflexivity).
  split; [exact H|]. exact (process_table_shape _ _ _ H).
Defined.

Lemma process_cell_text_error_witness :
  process_cell empty_analyzer cells_table (map col_name (t_columns cells_table)) 0 4
  = Ok (PStr (warning_cell (lit "Name"))).
Proof.
  apply (process_cell_text_error empty_analyzer cells_table 0 4
           [Some [222; 173]; Some [251; 255; 255; 255]; Some [1; 0];
            Some [0; 17; 34; 51; 68; 85; 102; 119; 136; 153; 170; 187; 204; 221; 238; 255];
            Some (lit "Error")] (lit "Name") TEXT).
  - reflexivity.
  - reflexivity.
  - left. reflexivity.
  - reflexivity.
Defined.

Lemma filter_srum_table_narrowing_witness :
  str_contains (str_lower (lit "A")) (str_lower (lit "xAb")) = true
  /\ Forall2 (fun h1 h2 => h1 = true -> h2 = true)
       (fst (filter_srum_table (TableWidget 2 [[Some (lit "ab"); None]; [None; Some (lit "xy")]]) (lit "A")))
       (fst (filter_srum_table (TableWidget 2 [[Some (lit "ab"); None]; [None; Some (lit "xy")]]) (lit "xAb"))).
Proof.
  assert (H : str_contains (str_lower (lit "A")) (str_lower (lit "xAb")) = true)
    by (vm_compute; reflexivity).
  split; [exact H|]. exact (filter_srum_table_narrowing _ _ _ H).
Defined.

Lemma filter_srum_table_empty_search_witness :
  fst (filter_srum_table (TableWidget 2 [[Some (lit "ab"); None]; [None; None]]) [])
  = [false; true].
Proof.
  assert (H : str_lower [] = []) by reflexivity.
  rewrite (filter_srum_table_empty_search (TableWidget 2 [[Some (lit "ab"); None]; [None; None]]) [] H).
  reflexivity.
Defined.

Lemma srum_tab_of_process_table_witness :
  process_table empty_analyzer two_rec_table = Ok [[PStr (lit "c")]; [PStr (lit "5")]]
  /\ match srum_tab_of (lit "T") [[PStr (lit "c")]; [PStr (lit "5")]] with
     | Ok None => List.length (filter (has_record two_rec_table)
                    (seq 0 (Z.to_nat (_ese_table_record_count two_rec_table)))) = 0%nat
     | Ok (Some tb) =>
         (0 < List.length (filter (has_record two_rec_table)
                (seq 0 (Z.to_nat (_ese_table_record_count two_rec_table)))))%nat
         /\ Forall (fun v => is_pystr v = true) (header_row empty_analyzer two_rec_table)
         /\ tab_name tb = lit "T"
         /\ tab_records tb = List.length (filter (has_record two_rec_table)
                (seq 0 (Z.to_nat (_ese_table_record_count two_rec_table))))
         /\ tab_headings tb = header_row empty_analyzer two_rec_table
         /\ Forall (fun row => List.length row = number_of_columns two_rec_table) (tab_cells tb)
     | Raise e =>
         (0 < List.length (filter (has_record two_rec_table)
                (seq 0 (Z.to_nat (_ese_table_record_count two_rec_table)))))%nat
         /\ exn_type e = TypeError
         /\ Exists (fun v => is_pystr v = false) (header_row empty_analyzer two_rec_table)
     end.
Proof.
  assert (H : process_table empty_analyzer two_rec_table = Ok [[PStr (lit "c")]; [PStr (lit "5")]])
    by (vm_compute; reflexivity).
  split; [exact H|]. exact (srum_tab_of_process_table _ _ (lit "T") _ H).
Defined.

Lemma srum_success_tab_names_unique_witness :
  analyze (Ok demo_db) (Ok (Workbook [])) None closed_handles
  = (Ok ([(lit "T", [[PStr (lit "c")]; [PStr (lit "5")]])], finished_msg),
     {| db_is_open := false |})
  /\ on_srum_analysis_finished (Page PlaceholderView [] [] [])
       (srum_thread_run (Ok ([(lit "T", [[PStr (lit "c")]; [PStr (lit "5")]])], finished_msg)))
     = Ok (Page SrumTabView [] [SrumTab (lit "T") 1 [PStr (lit "c")] [[lit "5"]]] [])
  /\ shown_view (Page SrumTabView [] [SrumTab (lit "T") 1 [PStr (lit "c")] [[lit "5"]]] [])
     = SrumTabView
  /\ NoDup (map tab_name (srum_tabs
       (Page SrumTabView [] [SrumTab (lit "T") 1 [PStr (lit "c")] [[lit "5"]]] []))).
Proof.
  assert (H : analyze (Ok demo_db) (Ok (Workbook [])) None closed_handles
              = (Ok ([(lit "T", [[PStr (lit "c")]; [PStr (lit "5")]])], finished_msg),
                 {| db_is_open := false |})) by (vm_compute; reflexivity).
  assert (Hp : on_srum_analysis_finished (Page PlaceholderView [] [] [])
       (srum_thread_run (Ok ([(lit "T", [[PStr (lit "c")]; [PStr (lit "5")]])], finished_msg)))
     = Ok (Page SrumTabView [] [SrumTab (lit "T") 1 [PStr (lit "c")] [[lit "5"]]] []))
    by (vm_compute; reflexivity).
  split; [exact H|]. split; [exact Hp|].
  exact (srum_success_tab_names_unique _ _ _ (Page PlaceholderView [] [] []) _ _ _ _ H Hp).
Defined.

Lemma apply_usb_filters_kept_witness :
  apply_usb_filters demo_now demo_sub_days demo_devices (lit "SAN") (lit "Last 7 Days")
  = Ok (Some (firstn 1 demo_devices))
  /\ (exists keep, firstn 1 demo_devices = filter keep demo_devices)
  /\ forall d, In d (firstn 1 demo_devices) ->
     (str_lower (lit "SAN") <> [] ->
      exists k v, In (k, v) d /\ str_contains (str_lower (lit "SAN")) (str_lower (py_str v)) = true)
     /\ (forall n, usb_time_delta (lit "Last 7 Days") = Some n ->
         exists dt, dict_get pystr_eqb datetime_obj_key d = Some (PDatetime dt)
           /\ dt_ltb dt (demo_sub_days demo_now n) = false).
Proof.
  assert (H : apply_usb_filters demo_now demo_sub_days demo_devices (lit "SAN") (lit "Last 7 Days")
              = Ok (Some (firstn 1 demo_devices))) by (vm_compute; reflexivity).
  split; [exact H|]. exact (apply_usb_filters_kept _ _ _ _ _ _ H).
Defined.

Lemma apply_usb_filters_show_all_witness :
  apply_usb_filters demo_now demo_sub_days demo_devices [] (lit "All Time")
  = Ok (Some demo_devices).
Proof.
  assert (H1 : str_lower [] = []) by reflexivity.
  assert (H2 : usb_time_delta (lit "All Time") = None) by reflexivity.
  exact (apply_usb_filters_show_all demo_now demo_sub_days demo_devices [] (lit "All Time") H1 H2).
Defined.

Lemma apply_usb_filters_no_raise_witness :
  exists r, apply_usb_filters demo_now demo_sub_days demo_devices (lit "x") (lit "Last Year") = Ok r.
Proof.
  apply apply_usb_filters_no_raise.
  intros d v Hin Hg Ht. destruct Hin as [<-|[<-|[]]].
  - vm_compute in Hg. inversion Hg. eexists. reflexivity.
  - vm_compute in Hg. inversion Hg; subst. discriminate.
Defined.
